(** * Generative-AI integration layer: a shallow embedding and its properties

    The development follows the repository's own layout:

    - [Mindmap]        the recursive mindmap validators
                       ([GeminiService._validate_mindmap_structure] of the
                       Gemini contract, [validate_mindmap_json] of the data
                       model);
    - [Gemini]         the service of the Gemini contract:
                       [generate_summary], [generate_mindmap],
                       [_log_api_call] and [retry_with_backoff];
    - [RateLimiter]    [RateLimiter.acquire], alone and shared by coroutines;
    - [JS]             what the front-end code observes of JavaScript
                       values and of objects used as tables;
    - [ApiTypes], [ErrorTransform], [ErrorFormatter]: the front-end error
                       codes and the two error tables;
    - [ApiClient]      the Axios interceptors with their retry logic;
    - [Store]          the Zustand document store.

    Instants and delays are exact rationals.  Amounts of money are read
    twice: as exact rationals, and as the binary64 floats Python computes
    ([Gemini.Binary64]).  A Python [str] is held as its UTF-8 encoding.
    Definitions come first; the theorems follow in the second half. *)

From Stdlib Require Import ZArith List String Ascii Bool Lia QArith Qminmax.
From Stdlib Require Import DecimalString Lqa SpecFloat.
Import ListNotations.

Set Warnings "-register-all".

Local Open Scope string_scope.
Local Open Scope Z_scope.

(* ====================================================================== *)
(** * Part I: the embedding *)
(* ====================================================================== *)

(** ** Python built-ins shared by the backend modules *)

Module Py.

(** [len(xs)] as a Python int. *)
Definition len {A : Type} (xs : list A) : Z := Z.of_nat (List.length xs).

End Py.

(** ** Mindmap validation *)

Module Mindmap.

(** A Python dict as the validators look at it: what the key holds is
    either absent, of another type than the one tested by [isinstance],
    or a value of the expected type. *)
Inductive entry (A : Type) : Type :=
| Missing
| WrongType
| Present (a : A).

Arguments Missing {A}.
Arguments WrongType {A}.
Arguments Present {A} a.

(** A mindmap object ([obj: dict]): the ["title"] and ["children"] keys.
    The elements of a children list are dicts again, as the signature of
    the validators requires. *)
Inductive obj : Type :=
| Dict (title : entry string) (children : entry (list obj)).

Definition title (o : obj) : entry string :=
  match o with Dict t _ => t end.

Definition children (o : obj) : entry (list obj) :=
  match o with Dict _ c => c end.

(** [ValidationError(code, message)]. *)
Record ValidationError : Type := mkValidationError {
  code : string;
  message : string
}.

(** A call of a validator returns [None] or raises. *)
Inductive outcome : Type :=
| Returns
| Raises (e : ValidationError).

(** [for child in xs: body(child)], where the body may raise. *)
Definition for_each {A : Type} (body : A -> outcome) : list A -> outcome :=
  fix loop (xs : list A) : outcome :=
    match xs with
    | [] => Returns
    | x :: rest =>
        match body x with
        | Raises e => Raises e
        | Returns => loop rest
        end
    end.

(** [GeminiService._validate_mindmap_structure(obj, depth=0)]. *)
Fixpoint _validate_mindmap_structure (o : obj) (depth : Z) : outcome :=
  if 10 <? depth then
    Raises (mkValidationError "MINDMAP_TOO_DEEP" "Max 10 hierarchy levels")
  else
    match title o with
    | Missing | WrongType =>
        Raises (mkValidationError "INVALID_NODE" "Missing or invalid 'title'")
    | Present _ =>
        match o with
        | Dict _ (Present cs) =>
            if 100 <? Py.len cs then
              Raises (mkValidationError "TOO_MANY_CHILDREN"
                                        "Max 100 children per node")
            else
              for_each
                (fun child => _validate_mindmap_structure child (depth + 1))
                cs
        | Dict _ _ =>
            Raises (mkValidationError "INVALID_NODE"
                                      "Missing or invalid 'children'")
        end
    end.

(** [validate_mindmap_json(json_obj)] of the data model, with its inner
    [validate_node(node, depth=0)]. *)
Fixpoint validate_node (node : obj) (depth : Z) : outcome :=
  if 10 <? depth then
    Raises (mkValidationError "MAX_DEPTH_EXCEEDED" "Mindmap too deep")
  else
    match title node with
    | Missing | WrongType =>
        Raises (mkValidationError "MISSING_TITLE" "All nodes must have title")
    | Present _ =>
        match node with
        | Dict _ (Present cs) =>
            if 100 <? Py.len cs then
              Raises (mkValidationError "TOO_MANY_CHILDREN"
                                        "Max 100 children per node")
            else
              for_each (fun child => validate_node child (depth + 1)) cs
        | Dict _ _ =>
            Raises (mkValidationError "MISSING_CHILDREN"
                                      "All nodes must have children array")
        end
    end.

Definition validate_mindmap_json (json_obj : obj) : outcome :=
  validate_node json_obj 0.

(** *** Vocabulary of the properties *)

(** The nodes of a tree, in the order the validators visit them. *)
Fixpoint nodes (o : obj) : list obj :=
  o :: match o with
       | Dict _ (Present cs) => flat_map nodes cs
       | Dict _ _ => []
       end.

(** Total number of nodes. *)
Definition total_nodes (o : obj) : nat := List.length (nodes o).

(** Depth of a tree counted as the validators count it: the root is at
    depth 0, a child of a node at depth [d] is at depth [d + 1]; the depth
    of the tree is that of its deepest node. *)
Fixpoint tree_depth (o : obj) : nat :=
  match o with
  | Dict _ (Present cs) =>
      fold_right (fun child m => Nat.max (S (tree_depth child)) m) 0%nat cs
  | Dict _ _ => 0%nat
  end.

(** What a validator checks on one node, apart from its depth: a string
    title and a list of at most 100 children. *)
Definition node_ok (o : obj) : bool :=
  match o with
  | Dict (Present _) (Present cs) => Py.len cs <=? 100
  | Dict _ _ => false
  end.

(** A well-formed tree: every node passes the per-node checks. *)
Definition well_formed (o : obj) : bool := forallb node_ok (nodes o).

(** The four ways a node is refused, shared by the two validators. *)
Inductive violation : Type :=
| TooDeep
| BadTitle
| BadChildren
| TooManyChildren.

(** The traversal of the two validators with the error left abstract. *)
Definition first_violation {A : Type} (body : A -> option violation)
  : list A -> option violation :=
  fix loop (xs : list A) : option violation :=
    match xs with
    | [] => None
    | x :: rest =>
        match body x with
        | Some v => Some v
        | None => loop rest
        end
    end.

Fixpoint check (o : obj) (depth : Z) : option violation :=
  if 10 <? depth then Some TooDeep
  else
    match o with
    | Dict (Present _) (Present cs) =>
        if 100 <? Py.len cs then Some TooManyChildren
        else first_violation (fun child => check child (depth + 1)) cs
    | Dict (Present _) _ => Some BadChildren
    | Dict _ _ => Some BadTitle
    end.

Definition service_error (v : violation) : ValidationError :=
  match v with
  | TooDeep => mkValidationError "MINDMAP_TOO_DEEP" "Max 10 hierarchy levels"
  | BadTitle => mkValidationError "INVALID_NODE" "Missing or invalid 'title'"
  | BadChildren =>
      mkValidationError "INVALID_NODE" "Missing or invalid 'children'"
  | TooManyChildren =>
      mkValidationError "TOO_MANY_CHILDREN" "Max 100 children per node"
  end.

Definition data_model_error (v : violation) : ValidationError :=
  match v with
  | TooDeep => mkValidationError "MAX_DEPTH_EXCEEDED" "Mindmap too deep"
  | BadTitle => mkValidationError "MISSING_TITLE" "All nodes must have title"
  | BadChildren =>
      mkValidationError "MISSING_CHILDREN" "All nodes must have children array"
  | TooManyChildren =>
      mkValidationError "TOO_MANY_CHILDREN" "Max 100 children per node"
  end.

Definition raise_as (err : violation -> ValidationError)
  (r : option violation) : outcome :=
  match r with
  | None => Returns
  | Some v => Raises (err v)
  end.

(** Test trees. *)
Definition leaf (s : string) : obj := Dict (Present s) (Present []).

(** A chain [n] edges long: depth [n], [n + 1] nodes. *)
Fixpoint chain (n : nat) : obj :=
  match n with
  | O => leaf "leaf"
  | S k => Dict (Present "level") (Present [chain k])
  end.

(** A node with [k] copies of the same child. *)
Definition fan (s : string) (k : nat) (child : obj) : obj :=
  Dict (Present s) (Present (repeat child k)).

(** 1 + 100 + 100 * 4 = 501 nodes, depth 2, no node with more than 100
    children. *)
Definition tree_501 : obj := fan "root" 100 (fan "topic" 4 (leaf "item")).

(** Depth 3, 1 + 2 + 2 * 2 + 3 = 10 nodes. *)
Definition tree_3_10 : obj :=
  Dict (Present "Machine Learning Best Practices") (Present [
    Dict (Present "Data Preparation") (Present [
      Dict (Present "Data Cleaning and Normalization") (Present [
        leaf "Outliers"; leaf "Scaling"; leaf "Encoding" ]);
      leaf "Train/Test Split Strategy" ]);
    Dict (Present "Model Training") (Present [
      leaf "Feature Engineering";
      leaf "Hyperparameter Tuning" ]) ]).

End Mindmap.

(** ** The Gemini service: exceptions, generation calls, cost tracking *)

Module Gemini.

(** The exception classes the contract names; [str e] is the message. *)
Inductive exn : Type :=
| TimeoutError (msg : string)
| RateLimitError (msg : string)
| NonRetryableError (msg : string)
| GeminiAPIError (msg : string)
| ValidationError (e : Mindmap.ValidationError)
| OtherError (msg : string).

Definition str (e : exn) : string :=
  match e with
  | TimeoutError msg | RateLimitError msg | NonRetryableError msg
  | GeminiAPIError msg | OtherError msg => msg
  | ValidationError e => Mindmap.message e
  end.

(** An awaited call returns a value or raises. *)
Inductive result (A : Type) : Type :=
| Return (a : A)
| Raise (e : exn).

Arguments Return {A} a.
Arguments Raise {A} e.

(** *** [str.strip] and [str.replace]

    A Python [str] is held as its UTF-8 encoding, one byte for each
    character of the [string]; concatenation, comparison with the empty
    string and the replacement of an ASCII pattern act on the encoding as
    they act on the text.  [str.strip()] removes the code points for which
    [str.isspace] holds: U+0009 to U+000D, U+001C to U+0020, U+0085, U+00A0,
    U+1680, U+2000 to U+200A, U+2028, U+2029, U+202F, U+205F and U+3000.
    Encoded, they take one, two or three bytes. *)

(** The string made of the given bytes. *)
Definition utf8 (bytes : list nat) : string :=
  string_of_list_ascii (map ascii_of_nat bytes).

(** The white space of [str.isspace], each code point encoded. *)
Definition whitespace : list string :=
  map utf8
    [[9]; [10]; [11]; [12]; [13]; [28]; [29]; [30]; [31]; [32];
     [194; 133]; [194; 160]; [225; 154; 128];
     [226; 128; 128]; [226; 128; 129]; [226; 128; 130]; [226; 128; 131];
     [226; 128; 132]; [226; 128; 133]; [226; 128; 134]; [226; 128; 135];
     [226; 128; 136]; [226; 128; 137]; [226; 128; 138];
     [226; 128; 168]; [226; 128; 169]; [226; 128; 175];
     [226; 129; 159]; [227; 128; 128]]%nat.

(** White space of one byte: U+0009 to U+000D and U+001C to U+0020. *)
Definition isspace (c : ascii) : bool :=
  let n := nat_of_ascii c in
  ((9 <=? n) && (n <=? 13) || (28 <=? n) && (n <=? 32))%nat.

(** White space of two bytes: U+0085 and U+00A0. *)
Definition isspace2 (a b : ascii) : bool :=
  let a := nat_of_ascii a in
  let b := nat_of_ascii b in
  ((a =? 194) && ((b =? 133) || (b =? 160)))%nat.

(** White space of three bytes: U+1680, U+2000 to U+200A, U+2028, U+2029,
    U+202F, U+205F and U+3000. *)
Definition isspace3 (a b c : ascii) : bool :=
  let a := nat_of_ascii a in
  let b := nat_of_ascii b in
  let c := nat_of_ascii c in
  ((a =? 225) && (b =? 154) && (c =? 128)
   || (a =? 226) && (b =? 128)
      && ((128 <=? c) && (c <=? 138) || (c =? 168) || (c =? 169) || (c =? 175))
   || (a =? 226) && (b =? 129) && (c =? 159)
   || (a =? 227) && (b =? 128) && (c =? 128))%nat.

(** [s] without its first code point, when that one is white space. *)
Definition leading_space (s : string) : option string :=
  match s with
  | String a (String b (String c rest3 as rest2) as rest) =>
      if isspace a then Some rest
      else if isspace2 a b then Some rest2
      else if isspace3 a b c then Some rest3
      else None
  | String a (String b EmptyString as rest) =>
      if isspace a then Some rest
      else if isspace2 a b then Some EmptyString
      else None
  | String a EmptyString => if isspace a then Some EmptyString else None
  | EmptyString => None
  end.

(** [s.lstrip()]: white space is dropped from the front, one code point
    after the other. *)
Fixpoint lstrip (s : string) : string :=
  match s with
  | EmptyString => EmptyString
  | String a rest =>
      if isspace a then lstrip rest
      else
        match rest with
        | EmptyString => s
        | String b rest2 =>
            if isspace2 a b then lstrip rest2
            else
              match rest2 with
              | EmptyString => s
              | String c rest3 =>
                  if isspace3 a b c then lstrip rest3 else s
              end
        end
  end.

(** [s.rstrip()]: the text is kept up to the point from which only white
    space follows. *)
Fixpoint rstrip (s : string) : string :=
  match s with
  | EmptyString => EmptyString
  | String c rest =>
      if (lstrip s =? "")%string then EmptyString else String c (rstrip rest)
  end.

Definition strip (s : string) : string := rstrip (lstrip s).

(** [s.replace(old, new)] for a non-empty [old]: [skip] counts the
    characters of an occurrence still to be dropped. *)
Fixpoint replace_from (skip : nat) (old new s : string) : string :=
  match s with
  | EmptyString => EmptyString
  | String c rest =>
      match skip with
      | S k => replace_from k old new rest
      | O =>
          if prefix old s
          then new ++ replace_from (String.length old - 1) old new rest
          else String c (replace_from 0 old new rest)
      end
  end.

Definition replace (s old new : string) : string := replace_from 0 old new s.

(** *** The service object *)

(** A row of the API log ([APILog]). *)
Record APILog : Type := mkAPILog {
  operation : string;
  tokens_input : Z;
  tokens_output : Z;
  cost_usd : Q;
  latency_ms : Z;
  status : string;
  document_id : option Z
}.

(** What a call of the service can change: the log table ([db]), the
    warnings sent to [logger], and the number of calls made to
    [self.client.generate_content]. *)
Record GeminiService : Type := mkGeminiService {
  db : list APILog;
  warnings : list Q;
  generate_content_calls : nat
}.

(** The arguments of [client.generate_content]. *)
Record GenerationCall : Type := mkGenerationCall {
  prompt : string;
  temperature : Q;
  max_output_tokens : Z;
  timeout : Z
}.

Definition summary_prompt (document_text : string) : string :=
  "Summarize the following document in clear, concise bullet points.
Focus on key concepts, findings, and conclusions.
Output 5-10 bullets, each 1-2 sentences.

Document:
" ++ document_text ++ "

Summary:".

Definition mindmap_prompt (document_text : string) : string :=
  "Convert the following document into a hierarchical mindmap structure...
" ++ document_text ++ "

JSON:".

(** *** A reply of the generator

    The JSON text of a small mindmap, as the generator sends it between
    code fences, and the object [json.loads] makes of that text. *)

Definition dquote : string := String "034" EmptyString.

Definition json_node (title children : string) : string :=
  "{" ++ dquote ++ "title" ++ dquote ++ ": " ++ dquote ++ title ++ dquote
  ++ ", " ++ dquote ++ "children" ++ dquote ++ ": [" ++ children ++ "]}".

Definition reply_json : string :=
  json_node "Machine Learning"
    (json_node "Data" (json_node "Cleaning" "") ++ ", "
     ++ json_node "Training" "").

Definition reply_object : Mindmap.obj :=
  Mindmap.Dict (Mindmap.Present "Machine Learning") (Mindmap.Present [
    Mindmap.Dict (Mindmap.Present "Data")
                 (Mindmap.Present [Mindmap.leaf "Cleaning"]);
    Mindmap.leaf "Training" ]).

Definition fenced_reply : string :=
  "```json
" ++ reply_json ++ "
```".

(** [json.loads] on the text of the reply without its fences, and on text
    that is no JSON at all. *)
Definition json_loads_reply (s : string) : Mindmap.obj + string :=
  if (s =? "
" ++ reply_json ++ "
")%string
  then inl reply_object
  else inr "Expecting value: line 1 column 1 (char 0)".

Section Service.

(** The remote generator: the text of its response, or the exception it
    raises. *)
Variable client : GenerationCall -> result string.

(** [json.loads]: the parsed mindmap object (a dict, as the validator
    expects), or the text of the [JSONDecodeError] it raises. *)
Variable json_loads : string -> Mindmap.obj + string.

(** [DAILY_BUDGET_LIMIT], a constant of the configuration. *)
Variable DAILY_BUDGET_LIMIT : Q.

Definition call_client (self : GeminiService) : GeminiService :=
  mkGeminiService (db self) (warnings self) (S (generate_content_calls self)).

(** [GeminiService.generate_summary(document_text, max_output_tokens=1000)]. *)
Definition generate_summary (self : GeminiService) (document_text : string)
  (max_output_tokens : Z) : GeminiService * result string :=
  let prompt := summary_prompt document_text in
  let self := call_client self in
  match client (mkGenerationCall prompt 0.3 max_output_tokens 30) with
  | Raise e => (self, Raise e)
  | Return text =>
      let summary_text := strip text in
      if (summary_text =? "")%string
      then (self, Raise (GeminiAPIError "Empty response from Gemini API"))
      else (self, Return summary_text)
  end.

(** [GeminiService.generate_mindmap(document_text, max_output_tokens=2000)]. *)
Definition generate_mindmap (self : GeminiService) (document_text : string)
  (max_output_tokens : Z) : GeminiService * result Mindmap.obj :=
  let prompt := mindmap_prompt document_text in
  let self := call_client self in
  match client (mkGenerationCall prompt 0.2 max_output_tokens 20) with
  | Raise e => (self, Raise e)
  | Return text =>
      let json_text := strip text in
      let json_text := replace (replace json_text "```json" "") "```" "" in
      match json_loads json_text with
      | inr e =>
          (self, Raise (GeminiAPIError ("Invalid JSON from Gemini: " ++ e)))
      | inl mindmap_obj =>
          match Mindmap._validate_mindmap_structure mindmap_obj 0 with
          | Mindmap.Raises e => (self, Raise (ValidationError e))
          | Mindmap.Returns => (self, Return mindmap_obj)
          end
      end
  end.

(** Pricing. *)
Definition price_input : Q := 0.00075 / 1000.
Definition price_output : Q := 0.003 / 1000.

(** Modelled from the spec: [_calculate_daily_cost] is called by
    [_log_api_call] but is not part of the sources.  The spec's
    [DailySpend()] is the running total of the cost of the entries appended
    to the ledger since the daily reset; the log table holds those entries. *)
Definition _calculate_daily_cost (self : GeminiService) : Q :=
  fold_right (fun entry total => cost_usd entry + total)%Q 0%Q (db self).

(** [db.add(log_entry); await db.commit()]. *)
Definition db_add (self : GeminiService) (log_entry : APILog) : GeminiService :=
  mkGeminiService (db self ++ [log_entry]) (warnings self)
                  (generate_content_calls self).

(** [logger.warning(f"Daily budget exceeded: ${daily_cost:.2f}")], recorded
    with the amount it reports. *)
Definition logger_warning (self : GeminiService) (daily_cost : Q)
  : GeminiService :=
  mkGeminiService (db self) (warnings self ++ [daily_cost])
                  (generate_content_calls self).

(** [GeminiService._log_api_call]. *)
Definition _log_api_call (self : GeminiService) (operation : string)
  (tokens_input tokens_output latency_ms : Z) (status : string)
  (document_id : option Z) : GeminiService :=
  let cost_usd :=
    (inject_Z tokens_input * price_input
     + inject_Z tokens_output * price_output)%Q in
  let log_entry :=
    mkAPILog operation tokens_input tokens_output cost_usd latency_ms status
             document_id in
  let self := db_add self log_entry in
  let daily_cost := _calculate_daily_cost self in
  if negb (Qle_bool daily_cost DAILY_BUDGET_LIMIT)
  then logger_warning self daily_cost
  else self.

End Service.

(** *** [_log_api_call] as Python computes it

    The definitions above read the amounts as exact rationals.  Python
    computes them as [float]s, which are IEEE 754 binary64 numbers: the
    operations below are those of the standard library's specification of
    floating-point arithmetic at precision 53 and exponent bound 1024, every
    result being the exact one rounded to the nearest float, ties to
    even. *)

Module Binary64.

Definition prec : Z := 53.
Definition emax : Z := 1024.

Definition float : Type := spec_float.

Definition zero : float := S754_zero false.

Definition add : float -> float -> float := SFadd prec emax.
Definition mul : float -> float -> float := SFmul prec emax.
Definition div : float -> float -> float := SFdiv prec emax.

(** [a > b]. *)
Definition gt (a b : float) : bool := SFltb b a.

(** The float nearest to an integer. *)
Definition nearest (n : Z) : float := binary_normalize prec emax n 0 false.

(** [float(n)] for an [int], as [n * x] and [x / n] compute it for a float
    [x]: the nearest float, or [OverflowError] (here [None]) when [n] is
    too large to have one. *)
Definition of_int (n : Z) : option float :=
  match nearest n with
  | S754_infinity _ => None
  | x => Some x
  end.

(** The float a decimal literal denotes is the one nearest to it: [0.00075]
    is 0x1.89374bc6a7efap-11 and [0.003] is 0x1.89374bc6a7efap-9. *)
Definition literal_0_00075 : float :=
  S754_finite false 0x189374bc6a7efa (-63).
Definition literal_0_003 : float :=
  S754_finite false 0x189374bc6a7efa (-61).



(** A row of the API log, with its cost as a float. *)
Record APILog : Type := mkAPILog {
  operation : string;
  tokens_input : Z;
  tokens_output : Z;
  cost_usd : float;
  latency_ms : Z;
  status : string;
  document_id : option Z
}.

(** The log table and the warnings sent to [logger]. *)
Record GeminiService : Type := mkGeminiService {
  db : list APILog;
  warnings : list float
}.

(** Pricing: [0.00075 / 1000] and [0.003 / 1000]. *)
Definition price_input : float := div literal_0_00075 (nearest 1000).
Definition price_output : float := div literal_0_003 (nearest 1000).

(** Modelled from the spec: [_calculate_daily_cost] is not part of the
    sources.  The data model gives the daily cost as [SUM(cost_usd)] over
    the rows of the day; it is taken here as the running total of the
    recorded costs, each added to the total so far. *)
Definition _calculate_daily_cost (self : GeminiService) : float :=
  fold_left (fun total entry => add total (cost_usd entry)) (db self) zero.

(** [GeminiService._log_api_call]; [None] stands for the [OverflowError] of
    a token count that has no float. *)
Definition _log_api_call (DAILY_BUDGET_LIMIT : float) (self : GeminiService)
  (operation : string) (tokens_input tokens_output latency_ms : Z)
  (status : string) (document_id : option Z) : option GeminiService :=
  match of_int tokens_input with
  | None => None
  | Some input =>
      match of_int tokens_output with
      | None => None
      | Some output =>
          let cost_usd :=
            add (mul input price_input) (mul output price_output) in
          let log_entry :=
            mkAPILog operation tokens_input tokens_output cost_usd latency_ms
                     status document_id in
          let self := mkGeminiService (db self ++ [log_entry])
                                      (warnings self) in
          let daily_cost := _calculate_daily_cost self in
          Some (if gt daily_cost DAILY_BUDGET_LIMIT
                then mkGeminiService (db self) (warnings self ++ [daily_cost])
                else self)
      end
  end.

End Binary64.

(** *** [retry_with_backoff] *)

Section Retry.

(** The awaited [func()]: what its call number [k] (from 0) does. *)
Variable A : Type.
Variable func : nat -> result A.

(** The value [random.uniform(0, 1)] takes in iteration [k]. *)
Variable uniform_0_1 : nat -> Q.

Variable max_retries : Z.
Variable base_delay : Q.

(** How a call of [retry_with_backoff] ends: with the value of [func], by
    falling out of the loop (Python's implicit [None]), or by raising. *)
Inductive ending : Type :=
| Returned (a : A)
| FellThrough
| Raised (e : exn).

(** [base_delay * (2 ** attempt) + random.uniform(0, 1)]. *)
Definition delay (attempt : nat) : Q :=
  (base_delay * inject_Z (2 ^ Z.of_nat attempt) + uniform_0_1 attempt)%Q.

(** The body of [for attempt in range(max_retries)], over the attempts
    still to come; [slept] lists the arguments of [asyncio.sleep] so far. *)
Fixpoint attempts (range : list nat) (slept : list Q) : ending * list Q :=
  match range with
  | [] => (FellThrough, slept)
  | attempt :: rest =>
      match func attempt with
      | Return a => (Returned a, slept)
      | Raise (TimeoutError _ as e) | Raise (RateLimitError _ as e) =>
          if Z.of_nat attempt =? max_retries - 1 then
            (Raised (GeminiAPIError
                       ("Failed after "
                        ++ NilZero.string_of_int (Z.to_int max_retries)
                        ++ " retries: " ++ str e)),
             slept)
          else attempts rest (slept ++ [delay attempt])
      | Raise e => (Raised e, slept)
      end
  end.

(** [retry_with_backoff(func, max_retries=3, base_delay=1.0)]. *)
Definition retry_with_backoff : ending * list Q :=
  attempts (seq 0 (Z.to_nat max_retries)) [].

End Retry.

Arguments Returned {A} a.
Arguments FellThrough {A}.
Arguments Raised {A} e.

(** Errors [retry_with_backoff] catches and retries. *)
Definition retried (e : exn) : bool :=
  match e with
  | TimeoutError _ | RateLimitError _ => true
  | _ => false
  end.

(** The kind of an exception: its class, whatever the message. *)
Inductive kind : Type :=
| KTimeout | KRateLimit | KNonRetryable | KGeminiAPI | KValidation | KOther.

Definition kind_of (e : exn) : kind :=
  match e with
  | TimeoutError _ => KTimeout
  | RateLimitError _ => KRateLimit
  | NonRetryableError _ => KNonRetryable
  | GeminiAPIError _ => KGeminiAPI
  | ValidationError _ => KValidation
  | OtherError _ => KOther
  end.

End Gemini.

(** ** The sliding-window rate limiter *)

Module RateLimiter.

(** Instants and durations in seconds, as [time.time()] gives them. *)
Record RateLimiter : Type := mkRateLimiter {
  rpm : Z;
  request_times : list Q
}.

(** [RateLimiter(requests_per_minute=60)]. *)
Definition __init__ (requests_per_minute : Z) : RateLimiter :=
  mkRateLimiter requests_per_minute [].

(** The test of the list comprehension of [acquire], [now - t < 60]. *)
Definition recent (now t : Q) : bool := negb (Qle_bool 60 (now - t)).

(** Where the first part of [acquire] stops. *)
Inductive entered : Type :=
| Proceed (self : RateLimiter)
| AwaitSleep (self : RateLimiter) (wait_time : Q)
| IndexError.

(** [acquire] up to its suspension point: [now] is the first
    [time.time()]. *)
Definition acquire_enter (self : RateLimiter) (now : Q) : entered :=
  let request_times := filter (recent now) (request_times self) in
  let self := mkRateLimiter (rpm self) request_times in
  if rpm self <=? Py.len request_times then
    match request_times with
    | [] => IndexError
    | oldest :: _ => AwaitSleep self (60 - (now - oldest))
    end
  else Proceed self.

(** [self.request_times.append(time.time())], the last statement. *)
Definition acquire_append (self : RateLimiter) (time : Q) : RateLimiter :=
  mkRateLimiter (rpm self) (request_times self ++ [time]).

(** One whole call of [acquire] that no other coroutine interleaves with.
    It starts at [now]; [asyncio.sleep] suspends it for [wait_time] plus a
    lateness [late >= 0], after which the clock is read again.  The result
    is the new limiter and the instant recorded for the permit. *)
Definition acquire (self : RateLimiter) (now late : Q)
  : option (RateLimiter * Q) :=
  match acquire_enter self now with
  | IndexError => None
  | Proceed self => Some (acquire_append self (now + late), (now + late)%Q)
  | AwaitSleep self wait_time =>
      let time := (now + wait_time + late)%Q in
      Some (acquire_append self time, time)
  end.

(** Calls of [acquire] one after the other, none starting before the
    previous one has returned: each call is given by the idle time since the
    previous return and by the lateness of its wake-up.  The result lists the
    instants recorded for the permits. *)
Fixpoint acquire_in_turn (self : RateLimiter) (clock : Q)
  (calls : list (Q * Q)) : option (RateLimiter * list Q) :=
  match calls with
  | [] => Some (self, [])
  | (idle, late) :: rest =>
      match acquire self (clock + idle) late with
      | None => None
      | Some (self, time) =>
          match acquire_in_turn self time rest with
          | None => None
          | Some (self, times) => Some (self, time :: times)
          end
      end
  end.

(** Coroutines sharing one limiter.  The event loop runs a coroutine up to
    its next [await]: a call of [acquire] runs [acquire_enter] and either
    finishes or parks on [asyncio.sleep]; a parked coroutine is resumed no
    earlier than its sleep ends and then appends its timestamp. *)
Inductive event : Type :=
| Call (coroutine : nat) (now : Q)
| Wake (coroutine : nat) (now : Q).

Record loop_state : Type := mkLoop {
  limiter : RateLimiter;
  parked : list (nat * Q);
  clock : Q
}.

Definition wake_time (parked : list (nat * Q)) (coroutine : nat) : option Q :=
  option_map snd (find (fun p => Nat.eqb (fst p) coroutine) parked).

Definition unpark (parked : list (nat * Q)) (coroutine : nat)
  : list (nat * Q) :=
  filter (fun p => negb (Nat.eqb (fst p) coroutine)) parked.

(** One scheduling step; [None] when the schedule is not one the event loop
    can produce (time running backwards, waking a coroutine that is not
    parked or whose sleep is not over, calling from a parked coroutine) or
    when [acquire] raises. *)
Definition step (s : loop_state) (e : event) : option loop_state :=
  match e with
  | Call c now =>
      if Qle_bool (clock s) now then
        match wake_time (parked s) c with
        | Some _ => None
        | None =>
            match acquire_enter (limiter s) now with
            | IndexError => None
            | Proceed self =>
                Some (mkLoop (acquire_append self now) (parked s) now)
            | AwaitSleep self wait_time =>
                Some (mkLoop self ((c, now + wait_time)%Q :: parked s) now)
            end
        end
      else None
  | Wake c now =>
      if Qle_bool (clock s) now then
        match wake_time (parked s) c with
        | None => None
        | Some due =>
            if Qle_bool due now then
              Some (mkLoop (acquire_append (limiter s) now)
                           (unpark (parked s) c) now)
            else None
        end
      else None
  end.

Fixpoint run (s : loop_state) (schedule : list event) : option loop_state :=
  match schedule with
  | [] => Some s
  | e :: rest =>
      match step s e with
      | None => None
      | Some s' => run s' rest
      end
  end.

(** [t] lies in the window of 60 seconds that opens at [start]. *)
Definition in_window (start t : Q) : bool :=
  Qle_bool start t && negb (Qle_bool (start + 60) t).

(** Permits recorded in the window [[start, start + 60)]. *)
Definition permits_in_window (start : Q) (times : list Q) : Z :=
  Py.len (filter (in_window start) times).

(** What is kept true between calls made in turn on a limiter of capacity
    [N]: [times] is the list of the limiter, [granted] all the permits
    recorded so far, and [clock] an instant the next call does not precede. *)
Definition in_turn_invariant (N : Z) (clock : Q) (times granted : list Q)
  : Prop :=
  (forall now, (clock <= now)%Q ->
               filter (recent now) times = filter (recent now) granted) /\
  (forall now, (clock <= now)%Q ->
               Py.len (filter (recent now) granted) <= N) /\
  (forall start, permits_in_window start granted <= N).

End RateLimiter.

(** ** JavaScript values and objects used as tables *)

Module JS.

(** The names an object literal inherits from [Object.prototype].  Indexed
    by one of them, a table answers with the inherited member: a function,
    or the prototype object itself for [__proto__].  Such a member is truthy
    and has none of the properties the tables' entries have. *)
Definition Object_prototype : list string := [
  "constructor"; "__defineGetter__"; "__defineSetter__"; "hasOwnProperty";
  "__lookupGetter__"; "__lookupSetter__"; "isPrototypeOf";
  "propertyIsEnumerable"; "toString"; "valueOf"; "__proto__";
  "toLocaleString"
].

(** What [table[key]] answers: a property of the table's own, an inherited
    member, or [undefined]. *)
Inductive property (V : Type) : Type :=
| Own (v : V)
| Inherited (name : string)
| Undefined.

Arguments Own {V} v.
Arguments Inherited {V} name.
Arguments Undefined {V}.

(** [String(member)] for an inherited member, as V8 prints it; this is the
    message [Error] keeps when it is given the member. *)
Definition member_text (name : string) : string :=
  if (name =? "__proto__")%string then "[object Object]"
  else if (name =? "constructor")%string
       then "function Object() { [native code] }"
       else "function " ++ name ++ "() { [native code] }".

(** A value of type [unknown] as the code looks at it: [undefined], a
    string, or any other value (null, a number, a boolean, an array, an
    object), of which the code observes the truthiness and the text
    [String(v)] only. *)
Inductive value : Type :=
| undefined
| text (s : string)
| other (truthy : bool) (as_text : string).

(** [undefined] or a string. *)
Definition textual (v : value) : bool :=
  match v with
  | undefined | text _ => true
  | other _ _ => false
  end.

(** [v] as a condition. *)
Definition truthy (v : value) : bool :=
  match v with
  | undefined => false
  | text s => negb (s =? "")%string
  | other b _ => b
  end.

(** [String(v)]. *)
Definition to_String (v : value) : string :=
  match v with
  | undefined => "undefined"
  | text s => s
  | other _ s => s
  end.

(** [a || b]. *)
Definition or (a b : value) : value := if truthy a then a else b.

End JS.

(** ** Front-end API types ([lib/types/api.ts]) *)

Module ApiTypes.

(** The string enum [ErrorCode]. *)
Module ErrorCode.
Definition INVALID_PDF := "INVALID_PDF".
Definition FILE_TOO_LARGE := "FILE_TOO_LARGE".
Definition UNSUPPORTED_FILE_TYPE := "UNSUPPORTED_FILE_TYPE".
Definition FILE_CORRUPTED := "FILE_CORRUPTED".
Definition FILE_NOT_FOUND := "FILE_NOT_FOUND".
Definition DUPLICATE_FILE := "DUPLICATE_FILE".
Definition RATE_LIMITED := "RATE_LIMITED".
Definition TIMEOUT := "TIMEOUT".
Definition API_ERROR := "API_ERROR".
Definition AUTH_ERROR := "AUTH_ERROR".
Definition QUOTA_EXCEEDED := "QUOTA_EXCEEDED".
Definition DB_ERROR := "DB_ERROR".
Definition DB_CONNECTION_ERROR := "DB_CONNECTION_ERROR".
Definition DB_TRANSACTION_ERROR := "DB_TRANSACTION_ERROR".
Definition RECORD_NOT_FOUND := "RECORD_NOT_FOUND".
Definition DUPLICATE_RECORD := "DUPLICATE_RECORD".
Definition PARSING_ERROR := "PARSING_ERROR".
Definition GENERATION_ERROR := "GENERATION_ERROR".
Definition VALIDATION_ERROR := "VALIDATION_ERROR".
Definition PROCESSING_TIMEOUT := "PROCESSING_TIMEOUT".
Definition DOCUMENT_NOT_READY := "DOCUMENT_NOT_READY".
Definition INVALID_STATE := "INVALID_STATE".
Definition OPERATION_NOT_ALLOWED := "OPERATION_NOT_ALLOWED".
Definition INTERNAL_ERROR := "INTERNAL_ERROR".
Definition UNKNOWN_ERROR := "UNKNOWN_ERROR".
Definition CONFIGURATION_ERROR := "CONFIGURATION_ERROR".
Definition NETWORK_ERROR := "NETWORK_ERROR".
End ErrorCode.

(** [ApiErrorResponse], the body of a backend error. *)
Record ApiErrorResponse : Type := mkApiErrorResponse {
  error_code : string;
  detail : string;
  timestamp : option string;
  request_id : option string
}.

(** The [options] argument of the [ApiError] constructor. *)
Record ApiErrorOptions : Type := mkApiErrorOptions {
  opt_timestamp : option string;
  opt_requestId : option string;
  opt_isRetryable : option bool
}.

(** [class ApiError extends Error]. *)
Record ApiError : Type := mkApiError {
  errorCode : string;
  message : string;
  statusCode : Z;
  error_timestamp : option string;
  requestId : option string;
  isRetryable : bool
}.

(** [new ApiError(errorCode, message, statusCode, options)];
    [isRetryable] is [options?.isRetryable ?? false]. *)
Definition new_ApiError (errorCode message : string) (statusCode : Z)
  (options : ApiErrorOptions) : ApiError :=
  mkApiError errorCode message statusCode
             (opt_timestamp options) (opt_requestId options)
             (match opt_isRetryable options with
              | Some b => b
              | None => false
              end).

End ApiTypes.

(** ** Error transformation ([errorTransform.ts]) *)

Module ErrorTransform.
Import ApiTypes.

(** The own properties of an object used as a table: the value under
    [key], [None] when the table has no such key. *)
Fixpoint lookup {V : Type} (table : list (string * V)) (key : string)
  : option V :=
  match table with
  | [] => None
  | (k, v) :: rest => if (k =? key)%string then Some v else lookup rest key
  end.

(** [retryableErrors.includes(errorCode)]. *)
Definition includes (codes : list string) (errorCode : string) : bool :=
  existsb (fun c => (c =? errorCode)%string) codes.

(** [table[key]] for a table written as an object literal. *)
Definition get {V : Type} (table : list (string * V)) (key : string)
  : JS.property V :=
  match lookup table key with
  | Some v => JS.Own v
  | None =>
      if includes JS.Object_prototype key then JS.Inherited key
      else JS.Undefined
  end.

Definition ERROR_MESSAGES : list (string * string) := [
  (ErrorCode.INVALID_PDF, "The file you uploaded is not a valid PDF document. Please check the file and try again.");
  (ErrorCode.FILE_TOO_LARGE, "The file is too large. Maximum file size is 100MB.");
  (ErrorCode.UNSUPPORTED_FILE_TYPE, "This file type is not supported. Please upload a PDF document.");
  (ErrorCode.FILE_CORRUPTED, "The PDF file appears to be corrupted. Please try uploading a different file.");
  (ErrorCode.FILE_NOT_FOUND, "The requested document could not be found. It may have been deleted.");
  (ErrorCode.DUPLICATE_FILE, "This file has already been uploaded.");
  (ErrorCode.RATE_LIMITED, "Too many requests. Please wait a moment and try again.");
  (ErrorCode.TIMEOUT, "The request took too long to complete. Please try again.");
  (ErrorCode.API_ERROR, "An error occurred while communicating with the server. Please try again.");
  (ErrorCode.AUTH_ERROR, "Authentication failed. Please check your credentials.");
  (ErrorCode.QUOTA_EXCEEDED, "API quota exceeded. Please try again later.");
  (ErrorCode.DB_ERROR, "A database error occurred. Please try again later.");
  (ErrorCode.DB_CONNECTION_ERROR, "Unable to connect to the database. Please try again later.");
  (ErrorCode.DB_TRANSACTION_ERROR, "A database transaction error occurred. Please try again.");
  (ErrorCode.RECORD_NOT_FOUND, "The requested record was not found.");
  (ErrorCode.DUPLICATE_RECORD, "This record already exists.");
  (ErrorCode.PARSING_ERROR, "Unable to parse the document. The PDF may be corrupted or use unsupported features.");
  (ErrorCode.GENERATION_ERROR, "Failed to generate the requested content. Please try again.");
  (ErrorCode.VALIDATION_ERROR, "The request contains invalid data. Please check your input.");
  (ErrorCode.PROCESSING_TIMEOUT, "Processing took too long and was cancelled. Please try again.");
  (ErrorCode.DOCUMENT_NOT_READY, "The document is still being processed. Please wait and try again.");
  (ErrorCode.INVALID_STATE, "The document is not in a valid state for this operation.");
  (ErrorCode.OPERATION_NOT_ALLOWED, "This operation is not allowed for this document.");
  (ErrorCode.INTERNAL_ERROR, "An internal server error occurred. Please try again later.");
  (ErrorCode.UNKNOWN_ERROR, "An unexpected error occurred. Please try again.");
  (ErrorCode.CONFIGURATION_ERROR, "A configuration error occurred. Please contact support.");
  (ErrorCode.NETWORK_ERROR, "Unable to connect to the server. Please check your internet connection.")
].

(** [isRetryableError(errorCode)]. *)
Definition isRetryableError (errorCode : string) : bool :=
  let retryableErrors := [
    ErrorCode.NETWORK_ERROR;
    ErrorCode.TIMEOUT;
    ErrorCode.RATE_LIMITED;
    ErrorCode.DB_CONNECTION_ERROR;
    ErrorCode.API_ERROR
  ] in
  includes retryableErrors errorCode.

(** [mapStatusCodeToErrorCode(statusCode)]. *)
Definition mapStatusCodeToErrorCode (statusCode : Z) : string :=
  if (statusCode =? 401) || (statusCode =? 403) then ErrorCode.AUTH_ERROR
  else if statusCode =? 404 then ErrorCode.FILE_NOT_FOUND
  else if statusCode =? 408 then ErrorCode.TIMEOUT
  else if statusCode =? 413 then ErrorCode.FILE_TOO_LARGE
  else if statusCode =? 429 then ErrorCode.RATE_LIMITED
  else if (statusCode =? 500) || (statusCode =? 502)
          || (statusCode =? 503) || (statusCode =? 504)
       then ErrorCode.INTERNAL_ERROR
  else ErrorCode.UNKNOWN_ERROR.

(** JavaScript's [a || b] on strings that may be [undefined]: the first
    operand unless it is [undefined] or empty. *)
Definition or_else (a : option string) (b : string) : string :=
  match a with
  | Some s => if (s =? "")%string then b else s
  | None => b
  end.

(** [transformErrorResponse(response, statusCode)].  The message goes
    through the constructor of [Error], which keeps its text. *)
Definition transformErrorResponse (response : option ApiErrorResponse)
  (statusCode : Z) : ApiError :=
  match response with
  | Some r =>
      if negb (error_code r =? "")%string then
        let errorCode := error_code r in
        let message :=
          match get ERROR_MESSAGES errorCode with
          | JS.Own text =>
              or_else (Some text)
                      (or_else (Some (detail r)) "An error occurred")
          | JS.Inherited name => JS.member_text name
          | JS.Undefined => or_else (Some (detail r)) "An error occurred"
          end in
        new_ApiError errorCode message statusCode
          (mkApiErrorOptions (timestamp r) (request_id r)
                             (Some (isRetryableError errorCode)))
      else
        let errorCode := mapStatusCodeToErrorCode statusCode in
        let message := or_else (lookup ERROR_MESSAGES errorCode) "" in
        new_ApiError errorCode message statusCode
          (mkApiErrorOptions None None (Some (isRetryableError errorCode)))
  | None =>
      let errorCode := mapStatusCodeToErrorCode statusCode in
      let message := or_else (lookup ERROR_MESSAGES errorCode) "" in
      new_ApiError errorCode message statusCode
        (mkApiErrorOptions None None (Some (isRetryableError errorCode)))
  end.

(** [transformNetworkError(_error)]; the argument is not used. *)
Definition transformNetworkError : ApiError :=
  new_ApiError ErrorCode.NETWORK_ERROR
    (or_else (lookup ERROR_MESSAGES ErrorCode.NETWORK_ERROR) "")
    0
    (mkApiErrorOptions None None (Some true)).

(** [getErrorMessage(errorCode)]:
    [ERROR_MESSAGES[errorCode] || ERROR_MESSAGES[ErrorCode.UNKNOWN_ERROR]].
    For the name of an inherited member the answer is that member, not a
    string. *)
Definition getErrorMessage (errorCode : string) : JS.value :=
  match get ERROR_MESSAGES errorCode with
  | JS.Own text =>
      JS.or (JS.text text)
            (JS.text (or_else (lookup ERROR_MESSAGES ErrorCode.UNKNOWN_ERROR)
                              ""))
  | JS.Inherited name => JS.other true (JS.member_text name)
  | JS.Undefined =>
      JS.text (or_else (lookup ERROR_MESSAGES ErrorCode.UNKNOWN_ERROR) "")
  end.

End ErrorTransform.

(** ** Error formatting ([errorFormatter.ts]) *)

Module ErrorFormatter.
Import ApiTypes.

(** An entry of the formatter's table. *)
Record ErrorConfig : Type := mkErrorConfig {
  title : string;
  message : string;
  isRetryable : bool
}.

(** [ERROR_MESSAGES]; this file's [ErrorCode] enum has the same members as
    that of [lib/types/api.ts] but for [NETWORK_ERROR]. *)
Definition ERROR_MESSAGES : list (string * ErrorConfig) := [
  (ErrorCode.INVALID_PDF,
   mkErrorConfig "Invalid File" "The uploaded file is not a valid PDF" false);
  (ErrorCode.FILE_TOO_LARGE,
   mkErrorConfig "File Too Large" "File size exceeds 100MB limit" false);
  (ErrorCode.UNSUPPORTED_FILE_TYPE,
   mkErrorConfig "Unsupported File Type" "Please upload a PDF file" false);
  (ErrorCode.FILE_CORRUPTED,
   mkErrorConfig "Corrupted File" "The uploaded file appears to be corrupted"
                 false);
  (ErrorCode.FILE_NOT_FOUND,
   mkErrorConfig "File Not Found" "The requested file was not found" false);
  (ErrorCode.DUPLICATE_FILE,
   mkErrorConfig "Duplicate File" "This file has already been uploaded" false);
  (ErrorCode.RATE_LIMITED,
   mkErrorConfig "Too Many Requests"
                 "Too many requests, please try again later" true);
  (ErrorCode.TIMEOUT,
   mkErrorConfig "Request Timeout" "Request timed out, please try again" true);
  (ErrorCode.API_ERROR,
   mkErrorConfig "API Error"
                 "An error occurred while communicating with the server" true);
  (ErrorCode.AUTH_ERROR,
   mkErrorConfig "Authentication Error"
                 "Authentication failed, please sign in again" false);
  (ErrorCode.QUOTA_EXCEEDED,
   mkErrorConfig "Quota Exceeded" "Your usage quota has been exceeded" false);
  (ErrorCode.DB_ERROR,
   mkErrorConfig "Database Error"
                 "A database error occurred, please try again" true);
  (ErrorCode.DB_CONNECTION_ERROR,
   mkErrorConfig "Connection Error" "Failed to connect to the database" true);
  (ErrorCode.DB_TRANSACTION_ERROR,
   mkErrorConfig "Transaction Error" "A database transaction error occurred"
                 true);
  (ErrorCode.RECORD_NOT_FOUND,
   mkErrorConfig "Not Found" "The requested record was not found" false);
  (ErrorCode.DUPLICATE_RECORD,
   mkErrorConfig "Duplicate Record"
                 "A record with this information already exists" false);
  (ErrorCode.PARSING_ERROR,
   mkErrorConfig "Parsing Error" "Failed to parse the document" false);
  (ErrorCode.GENERATION_ERROR,
   mkErrorConfig "Generation Error" "Failed to generate content" true);
  (ErrorCode.VALIDATION_ERROR,
   mkErrorConfig "Validation Error" "The provided data is invalid" false);
  (ErrorCode.PROCESSING_TIMEOUT,
   mkErrorConfig "Processing Timeout"
                 "Processing took too long, please try again" true);
  (ErrorCode.DOCUMENT_NOT_READY,
   mkErrorConfig "Document Not Ready" "The document is still being processed"
                 true);
  (ErrorCode.INVALID_STATE,
   mkErrorConfig "Invalid State"
                 "The operation cannot be performed in the current state" false);
  (ErrorCode.OPERATION_NOT_ALLOWED,
   mkErrorConfig "Operation Not Allowed" "This operation is not allowed" false);
  (ErrorCode.INTERNAL_ERROR,
   mkErrorConfig "Internal Error"
                 "An internal error occurred, please try again" true);
  (ErrorCode.UNKNOWN_ERROR,
   mkErrorConfig "Unknown Error" "An unknown error occurred, please try again"
                 true);
  (ErrorCode.CONFIGURATION_ERROR,
   mkErrorConfig "Configuration Error" "A configuration error occurred" false)
].

(** [getErrorMessage(errorCode)]:
    [ERROR_MESSAGES[errorCode]?.message || "An error occurred"]; an inherited
    member has no [message]. *)
Definition getErrorMessage (errorCode : string) : string :=
  match ErrorTransform.get ERROR_MESSAGES errorCode with
  | JS.Own errorConfig =>
      ErrorTransform.or_else (Some (message errorConfig)) "An error occurred"
  | JS.Inherited _ | JS.Undefined => "An error occurred"
  end.

(** [ERROR_MESSAGES[errorCode]?.isRetryable], the flag [formatError] copies
    into its result for an error code of the table; an inherited member has
    no such property. *)
Definition configured_isRetryable (errorCode : string) : option bool :=
  option_map isRetryable (ErrorTransform.lookup ERROR_MESSAGES errorCode).

(** *** [formatError] and its helpers

    The argument of [formatError] is of type [unknown].  The model gives it
    the properties the function reads, with the types their interfaces
    declare: [code], [message], [error_code] and [statusText] are strings
    when present, [status] is an integer, [request] and [response] are
    present or not.  A property that is absent and one that holds
    [undefined] are both [None]: the function tells them apart nowhere in
    its result.  The values inside [details], which the interface leaves
    [unknown], are values of [JS.value]. *)

(** [ValidationError]: a field and its message. *)
Record ValidationError : Type := mkValidationError {
  field : string;
  validation_message : string
}.

(** [FormattedError]; [message] is [undefined] in one case, see
    [formatError]. *)
Record FormattedError : Type := mkFormattedError {
  formatted_message : option string;
  formatted_title : option string;
  formatted_details : option (list ValidationError);
  formatted_isRetryable : option bool
}.

(** An element of [details] given as an array, when that element is an
    object: its properties [field], [message] and [msg], and the elements
    of [loc] when [loc] is neither [undefined] nor [null]. *)
Record DetailItem : Type := mkDetailItem {
  item_field : JS.value;
  item_loc : option (list JS.value);
  item_message : JS.value;
  item_msg : JS.value
}.

Inductive DetailEntry : Type :=
| ItemObject (item : DetailItem)
| ItemOther.

(** A value of [details] given as an object keyed by field: a string, an
    array, or something else. *)
Inductive DetailValue : Type :=
| ValueString (s : string)
| ValueArray (messages : list JS.value)
| ValueOther.

(** A truthy [details]: an array, another object with its entries in the
    order of [Object.entries], or a value that is no object. *)
Inductive Details : Type :=
| DetailsArray (items : list DetailEntry)
| DetailsObject (entries : list (string * DetailValue))
| DetailsOther.

(** The thrown object. *)
Record ErrorObject : Type := mkErrorObject {
  code : option string;
  error_message : option string;
  request : bool;
  response : bool;
  error_code : option string;
  details : option Details;
  status : option Z;
  statusText : option string
}.

Inductive thrown : Type :=
| NotAnObject
| AnObject (error : ErrorObject).



(** A string that may be [undefined], as a condition. *)
Definition truthy (s : option string) : bool :=
  match s with
  | Some s => negb (s =? "")%string
  | None => false
  end.

(** [text.includes(needle)]. *)
Fixpoint includes (needle text : string) : bool :=
  prefix needle text ||
  match text with
  | EmptyString => false
  | String _ rest => includes needle rest
  end.

(** [isNetworkError(error)]. *)
Definition isNetworkError (error : thrown) : bool :=
  match error with
  | NotAnObject => false
  | AnObject err =>
      (match code err with
       | Some c => (c =? "ERR_NETWORK")%string || (c =? "ECONNREFUSED")%string
       | None => false
       end
       || match error_message err with
          | Some m => includes "Network Error" m
          | None => false
          end)
      && request err && negb (response err)
  end.

(** [isApiError(error)]. *)
Definition isApiError (error : thrown) : bool :=
  match error with
  | NotAnObject => false
  | AnObject err =>
      match error_code err, error_message err with
      | None, None => false
      | _, _ => true
      end
  end.

(** [isHttpError(error)]. *)
Definition isHttpError (error : thrown) : bool :=
  match error with
  | NotAnObject => false
  | AnObject err =>
      match status err with
      | Some _ => true
      | None => false
      end
  end.

(** The table [statusMessages] of [formatHttpError]. *)
Definition statusMessages : list (Z * FormattedError) := [
  (400, mkFormattedError
          (Some "The request was invalid. Please check your input and try again.")
          (Some "Bad Request") None (Some false));
  (401, mkFormattedError (Some "You need to sign in to access this resource.")
          (Some "Unauthorized") None (Some false));
  (403, mkFormattedError
          (Some "You don't have permission to access this resource.")
          (Some "Forbidden") None (Some false));
  (404, mkFormattedError (Some "The requested resource was not found.")
          (Some "Not Found") None (Some false));
  (409, mkFormattedError
          (Some "The request conflicts with the current state of the resource.")
          (Some "Conflict") None (Some false));
  (429, mkFormattedError
          (Some "Too many requests. Please wait a moment and try again.")
          (Some "Too Many Requests") None (Some true));
  (500, mkFormattedError
          (Some "The server encountered an error. Please try again later.")
          (Some "Server Error") None (Some true));
  (502, mkFormattedError
          (Some "The server is temporarily unavailable. Please try again later.")
          (Some "Bad Gateway") None (Some true));
  (503, mkFormattedError
          (Some "The service is temporarily unavailable. Please try again later.")
          (Some "Service Unavailable") None (Some true));
  (504, mkFormattedError
          (Some "The request took too long to complete. Please try again.")
          (Some "Gateway Timeout") None (Some true))
].

Fixpoint lookup_status (table : list (Z * FormattedError)) (key : Z)
  : option FormattedError :=
  match table with
  | [] => None
  | (k, v) :: rest => if k =? key then Some v else lookup_status rest key
  end.

(** [formatHttpError(error)]. *)
Definition formatHttpError (status : Z) (statusText : option string)
  : FormattedError :=
  match lookup_status statusMessages status with
  | Some formattedError => formattedError
  | None =>
      mkFormattedError
        (Some (ErrorTransform.or_else statusText
                                      "An error occurred. Please try again."))
        (Some "Error") None (Some (500 <=? status))
  end.

(** [String(a || b || fallback)]. *)
Definition first_truthy (a b : JS.value) (fallback : string) : string :=
  JS.to_String (JS.or a (JS.or b (JS.text fallback))).

(** [error.loc?.[1]]. *)
Definition loc_1 (error : DetailItem) : JS.value :=
  match item_loc error with
  | Some loc => nth 1 loc JS.undefined
  | None => JS.undefined
  end.

(** [formatValidationErrors(details)]. *)
Definition formatValidationErrors (details : Details) : list ValidationError :=
  match details with
  | DetailsArray items =>
      flat_map
        (fun detail =>
           match detail with
           | ItemObject error =>
               [mkValidationError
                  (first_truthy (item_field error) (loc_1 error) "unknown")
                  (first_truthy (item_message error) (item_msg error)
                                "Invalid value")]
           | ItemOther => []
           end)
        items
  | DetailsObject entries =>
      flat_map
        (fun entry =>
           match entry with
           | (field, ValueString value) => [mkValidationError field value]
           | (field, ValueArray (first :: _)) =>
               [mkValidationError field (JS.to_String first)]
           | (_, ValueArray []) | (_, ValueOther) => []
           end)
        entries
  | DetailsOther => []
  end.

(** [formatError(error)].  When [error_code] is the name of an inherited
    member, [ERROR_MESSAGES[errorCode]] is that member: it is truthy and
    has no [title], [message] or [isRetryable]. *)
Definition formatError (error : thrown) : FormattedError :=
  let http_or_fallback :=
    match error with
    | AnObject err =>
        match status err with
        | Some s => formatHttpError s (statusText err)
        | None =>
            mkFormattedError
              (Some "An unexpected error occurred. Please try again.")
              (Some "Error") None (Some true)
        end
    | NotAnObject =>
        mkFormattedError
          (Some "An unexpected error occurred. Please try again.")
          (Some "Error") None (Some true)
    end in
  if isNetworkError error then
    mkFormattedError
      (Some "Unable to connect to the server. Please check your internet connection and try again.")
      (Some "Network Error") None (Some true)
  else
    match error with
    | AnObject err =>
        if isApiError error then
          let by_message :=
            if truthy (error_message err) then
              mkFormattedError (error_message err) None None (Some false)
            else http_or_fallback in
          match error_code err with
          | Some errorCode =>
              if negb (errorCode =? "")%string then
                match ErrorTransform.get ERROR_MESSAGES errorCode with
                | JS.Own errorConfig =>
                    match (errorCode =? ErrorCode.VALIDATION_ERROR)%string,
                          details err with
                    | true, Some d =>
                        mkFormattedError (Some (message errorConfig))
                                         (Some (title errorConfig))
                                         (Some (formatValidationErrors d))
                                         (Some (isRetryable errorConfig))
                    | _, _ =>
                        mkFormattedError
                          (Some (ErrorTransform.or_else (error_message err)
                                                        (message errorConfig)))
                          (Some (title errorConfig)) None
                          (Some (isRetryable errorConfig))
                    end
                | JS.Inherited _ =>
                    mkFormattedError
                      (if truthy (error_message err) then error_message err
                       else None)
                      None None None
                | JS.Undefined => by_message
                end
              else by_message
          | None => by_message
          end
        else http_or_fallback
    | NotAnObject => http_or_fallback
    end.

(** Whether [error_code] is the name of a member of [Object.prototype]. *)
Definition inherited_error_code (error : thrown) : bool :=
  match error with
  | AnObject err =>
      match error_code err with
      | Some errorCode =>
          ErrorTransform.includes JS.Object_prototype errorCode
      | None => false
      end
  | NotAnObject => false
  end.

(** [isRetryableError(error)] of the formatter:
    [formatError(error).isRetryable || false]. *)
Definition isRetryableError (error : thrown) : bool :=
  match formatted_isRetryable (formatError error) with
  | Some b => b
  | None => false
  end.

End ErrorFormatter.

(** ** The Axios client ([lib/services/api.ts]) *)

Module ApiClient.
Import ApiTypes.

(** The retry part of [config]. *)
Definition maxRetries : Z := 3.
Definition retryDelay : Z := 1000.

Record RetryConfig : Type := mkRetryConfig {
  retries : Z;
  retry_retryDelay : Z
}.

Record AxiosRequestConfig : Type := mkRequestConfig {
  method : string;
  url : string;
  _retry : option RetryConfig
}.

Record AxiosResponse : Type := mkResponse {
  status : Z;
  statusText : string;
  data : option ApiErrorResponse
}.

Record AxiosError : Type := mkAxiosError {
  error_config : option AxiosRequestConfig;
  response : option AxiosResponse
}.

(** The request interceptor: it installs the retry record when the request
    has none. *)
Definition request_interceptor (requestConfig : AxiosRequestConfig)
  : AxiosRequestConfig :=
  match _retry requestConfig with
  | Some _ => requestConfig
  | None =>
      mkRequestConfig (method requestConfig) (url requestConfig)
                      (Some (mkRetryConfig 0 retryDelay))
  end.

(** [shouldRetry(requestConfig, error)]. *)
Definition shouldRetry (requestConfig : AxiosRequestConfig) (error : ApiError)
  : bool :=
  match _retry requestConfig with
  | None => false
  | Some r =>
      if maxRetries <=? retries r then false
      else isRetryable error
  end.

(** What the response interceptor decides on an error: to reject with an
    [ApiError], or to go through [retryRequest] with the request's
    configuration. *)
Inductive decision : Type :=
| Reject (error : ApiError)
| Retry (requestConfig : AxiosRequestConfig).

(** The error branch of the response interceptor. *)
Definition response_error_interceptor (error : AxiosError) : decision :=
  match response error with
  | None =>
      let networkError := ErrorTransform.transformNetworkError in
      match error_config error with
      | Some c => if shouldRetry c networkError then Retry c
                  else Reject networkError
      | None => Reject networkError
      end
  | Some resp =>
      let statusCode := status resp in
      let errorResponse := data resp in
      let apiError :=
        ErrorTransform.transformErrorResponse errorResponse statusCode in
      match error_config error with
      | Some c => if shouldRetry c apiError then Retry c else Reject apiError
      | None => Reject apiError
      end
  end.

(** The first half of [retryRequest(requestConfig)]: the retry count is
    incremented and the delay computed as
    [retryDelay * Math.pow(2, retries - 1)] (milliseconds).  A request
    without retry record, which [shouldRetry] never lets through, is left
    alone. *)
Definition retryRequest (requestConfig : AxiosRequestConfig)
  : AxiosRequestConfig * Q :=
  match _retry requestConfig with
  | None => (requestConfig, 0%Q)
  | Some r =>
      let r := mkRetryConfig (retries r + 1) (retry_retryDelay r) in
      let delay :=
        (inject_Z (retry_retryDelay r) * Qpower 2 (retries r - 1))%Q in
      (mkRequestConfig (method requestConfig) (url requestConfig) (Some r),
       delay)
  end.

(** The [ApiError] the response interceptor builds for a failed request,
    whose response may be absent. *)
Definition transformed (resp : option AxiosResponse) : ApiError :=
  match resp with
  | None => ErrorTransform.transformNetworkError
  | Some r => ErrorTransform.transformErrorResponse (data r) (status r)
  end.

(** What comes back for a request put on the wire. *)
Inductive reply : Type :=
| Fulfilled (response : AxiosResponse)
| Failed (response : option AxiosResponse).

(** How the promise of [apiClient.request] settles. *)
Inductive settled : Type :=
| Resolved (response : AxiosResponse)
| Rejected (error : ApiError).

Section Client.

(** The backend as the client sees it: the reply to the request number [n]
    (from 0) that this logical request puts on the wire. *)
Variable server : nat -> reply.

(** [apiClient.request(requestConfig)] through both interceptors, with the
    second half of [retryRequest] (wait, then request again).  [sent] counts
    the requests already on the wire and [timeouts] lists the delays given
    to [setTimeout]; [fuel] bounds the number of requests. *)
Fixpoint request (fuel sent : nat) (requestConfig : AxiosRequestConfig)
  (timeouts : list Q) : option (settled * list Q * nat) :=
  match fuel with
  | O => None
  | S fuel =>
      let requestConfig := request_interceptor requestConfig in
      match server sent with
      | Fulfilled resp => Some (Resolved resp, timeouts, S sent)
      | Failed resp =>
          match response_error_interceptor
                  (mkAxiosError (Some requestConfig) resp) with
          | Reject error => Some (Rejected error, timeouts, S sent)
          | Retry c =>
              let '(c, delay) := retryRequest c in
              request fuel (S sent) c (timeouts ++ [delay])
          end
      end
  end.

End Client.

(** The retry record a request carries, that of the request interceptor
    when it has none. *)
Definition retry_of (requestConfig : AxiosRequestConfig) : RetryConfig :=
  match _retry requestConfig with
  | Some r => r
  | None => mkRetryConfig 0 retryDelay
  end.

End ApiClient.

(** ** The backoff policy in the words of the specification *)

Module BackoffPolicy.

(** Delay for attempt [n] (1-indexed):
    [min(initialDelay * base^(n-1), maxDelay)]. *)
Definition spec_delay (initialDelay base maxDelay : Q) (n : Z) : Q :=
  Qmin (initialDelay * Qpower base (n - 1)) maxDelay.

(** A delay the policy allows: the deterministic part plus a jitter of at
    most the full window. *)
Definition allowed (initialDelay base maxDelay : Q) (n : Z) (d : Q) : Prop :=
  (spec_delay initialDelay base maxDelay n <= d)%Q /\
  (d <= spec_delay initialDelay base maxDelay n
        + spec_delay initialDelay base maxDelay n)%Q.

End BackoffPolicy.

(** ** The document store ([lib/services/store.ts]) *)

Module Store.

Inductive UploadStatus : Type := uploading | parsing | ready | failed.

Inductive GenerationStatus : Type :=
| queued | generating | complete | generation_failed.

Record Summary : Type := mkSummary {
  summary_id : Z;
  summary_document_id : Z;
  summary_text : string;
  summary_generation_status : GenerationStatus;
  summary_error_message : option string;
  summary_tokens_input : Z;
  summary_tokens_output : Z;
  summary_latency_ms : Z;
  summary_created_at : string;
  summary_updated_at : string
}.

Inductive MindmapNode : Type :=
| mkMindmapNode (title : string) (children : option (list MindmapNode)).

Record Mindmap : Type := mkMindmap {
  mindmap_id : Z;
  mindmap_document_id : Z;
  mindmap_json : MindmapNode;
  mindmap_generation_status : GenerationStatus;
  mindmap_error_message : option string;
  mindmap_tokens_input : Z;
  mindmap_tokens_output : Z;
  mindmap_latency_ms : Z;
  mindmap_created_at : string;
  mindmap_updated_at : string
}.

Record PDFMetadata : Type := mkPDFMetadata {
  author : option string;
  creation_date : option string;
  pdf_title : option string;
  subject : option string
}.

Record Document : Type := mkDocument {
  id : Z;
  user_id : Z;
  filename : string;
  file_path : string;
  file_size_bytes : Z;
  file_hash : string;
  page_count : option Z;
  extracted_text : option string;
  pdf_metadata : option PDFMetadata;
  upload_status : UploadStatus;
  error_message : option string;
  created_at : string;
  updated_at : string;
  expires_at : string;
  summary : option Summary;
  mindmap : option Mindmap
}.

Record LoadingStates : Type := mkLoadingStates {
  loading_documents : bool;
  loading_upload : bool;
  loading_summary : bool;
  loading_mindmap : bool
}.

Record ErrorStates : Type := mkErrorStates {
  errors_documents : option string;
  errors_upload : option string;
  errors_summary : option string;
  errors_mindmap : option string
}.

(** The data of [DocumentState]; the actions are the functions below. *)
Record DocumentState : Type := mkDocumentState {
  documents : list Document;
  currentDocument : option Document;
  loading : LoadingStates;
  errors : ErrorStates
}.

Definition initialState : DocumentState :=
  mkDocumentState [] None
    (mkLoadingStates false false false false)
    (mkErrorStates None None None None).

(** [state.currentDocument?.id === id]. *)
Definition current_has_id (state : DocumentState) (id' : Z) : bool :=
  match currentDocument state with
  | Some doc => id doc =? id'
  | None => false
  end.

(** [setDocuments(documents)]. *)
Definition setDocuments (docs : list Document) (state : DocumentState)
  : DocumentState :=
  mkDocumentState docs (currentDocument state) (loading state) (errors state).

(** [setCurrentDocument(document)]. *)
Definition setCurrentDocument (document : option Document)
  (state : DocumentState) : DocumentState :=
  mkDocumentState (documents state) document (loading state) (errors state).

(** [addDocument(document)]. *)
Definition addDocument (document : Document) (state : DocumentState)
  : DocumentState :=
  mkDocumentState (documents state ++ [document]) (currentDocument state)
                  (loading state) (errors state).

(** [deleteDocument(id)]. *)
Definition deleteDocument (id' : Z) (state : DocumentState) : DocumentState :=
  mkDocumentState
    (filter (fun doc => negb (id doc =? id')) (documents state))
    (if current_has_id state id' then None else currentDocument state)
    (loading state) (errors state).

(** What the property says of the list: [Removed i before after] holds when
    [after] is [before] without the documents whose id is [i], the others
    being kept as they are and in their order. *)
Inductive Removed (i : Z) : list Document -> list Document -> Prop :=
| Removed_nil : Removed i [] []
| Removed_drop doc before after :
    id doc = i -> Removed i before after -> Removed i (doc :: before) after
| Removed_keep doc before after :
    id doc <> i -> Removed i before after ->
    Removed i (doc :: before) (doc :: after).

(** [Partial<Document>]: for each property, [None] when the key is absent
    and the value to write otherwise. *)
Record DocumentUpdates : Type := mkDocumentUpdates {
  upd_id : option Z;
  upd_user_id : option Z;
  upd_filename : option string;
  upd_file_path : option string;
  upd_file_size_bytes : option Z;
  upd_file_hash : option string;
  upd_page_count : option (option Z);
  upd_extracted_text : option (option string);
  upd_pdf_metadata : option (option PDFMetadata);
  upd_upload_status : option UploadStatus;
  upd_error_message : option (option string);
  upd_created_at : option string;
  upd_updated_at : option string;
  upd_expires_at : option string;
  upd_summary : option (option Summary);
  upd_mindmap : option (option Mindmap)
}.

(** [base] unless the key is present. *)
Definition spread {A : Type} (base : A) (update : option A) : A :=
  match update with
  | Some v => v
  | None => base
  end.

(** [{ ...doc, ...updates }]. *)
Definition merge (doc : Document) (updates : DocumentUpdates) : Document :=
  mkDocument
    (spread (id doc) (upd_id updates))
    (spread (user_id doc) (upd_user_id updates))
    (spread (filename doc) (upd_filename updates))
    (spread (file_path doc) (upd_file_path updates))
    (spread (file_size_bytes doc) (upd_file_size_bytes updates))
    (spread (file_hash doc) (upd_file_hash updates))
    (spread (page_count doc) (upd_page_count updates))
    (spread (extracted_text doc) (upd_extracted_text updates))
    (spread (pdf_metadata doc) (upd_pdf_metadata updates))
    (spread (upload_status doc) (upd_upload_status updates))
    (spread (error_message doc) (upd_error_message updates))
    (spread (created_at doc) (upd_created_at updates))
    (spread (updated_at doc) (upd_updated_at updates))
    (spread (expires_at doc) (upd_expires_at updates))
    (spread (summary doc) (upd_summary updates))
    (spread (mindmap doc) (upd_mindmap updates)).

(** [updateDocument(id, updates)]. *)
Definition updateDocument (id' : Z) (updates : DocumentUpdates)
  (state : DocumentState) : DocumentState :=
  let documents :=
    map (fun doc => if id doc =? id' then merge doc updates else doc)
        (documents state) in
  let currentDocument :=
    match currentDocument state with
    | Some current =>
        if id current =? id' then Some (merge current updates)
        else Some current
    | None => None
    end in
  mkDocumentState documents currentDocument (loading state) (errors state).

(** The list and the selection agree: every document of the list that has
    the id of [currentDocument] is [currentDocument] itself. *)
Definition in_sync (state : DocumentState) : Prop :=
  forall current doc,
    currentDocument state = Some current ->
    In doc (documents state) -> id doc = id current -> doc = current.

End Store.

(* ====================================================================== *)
(** * Part II: properties *)
(* ====================================================================== *)

Section MindmapFacts.
Import Mindmap.

(** Induction on mindmap trees, with the hypothesis available for every
    child of a node. *)
Lemma obj_rect_children (P : obj -> Prop)
  (Hleaf : forall t c, (forall cs, c <> Present cs) -> P (Dict t c))
  (Hnode : forall t cs, Forall P cs -> P (Dict t (Present cs))) :
  forall o, P o.
Proof.
  fix IH 1. intros [t c]. destruct c as [ | | cs].
  - apply Hleaf. intros cs H. discriminate H.
  - apply Hleaf. intros cs H. discriminate H.
  - apply Hnode. induction cs as [ | x xs IHxs].
    + constructor.
    + constructor; [apply IH | exact IHxs].
Qed.

Lemma validate_service_check (o : obj) :
  forall d, _validate_mindmap_structure o d = raise_as service_error (check o d).
Proof.
  induction o as [t c Hc | t cs IHcs] using obj_rect_children; intros d; simpl.
  - destruct (10 <? d); [reflexivity | ].
    destruct t, c; try reflexivity. exfalso. eapply Hc. reflexivity.
  - destruct (10 <? d); [reflexivity | ].
    destruct t; try reflexivity.
    destruct (100 <? Py.len cs); [reflexivity | ].
    induction IHcs as [ | x xs Hx _ IHxs]; simpl; [reflexivity | ].
    rewrite Hx. destruct (check x (d + 1)); simpl; [reflexivity | exact IHxs].
Qed.

Lemma validate_node_check (o : obj) :
  forall d, validate_node o d = raise_as data_model_error (check o d).
Proof.
  induction o as [t c Hc | t cs IHcs] using obj_rect_children; intros d; simpl.
  - destruct (10 <? d); [reflexivity | ].
    destruct t, c; try reflexivity. exfalso. eapply Hc. reflexivity.
  - destruct (10 <? d); [reflexivity | ].
    destruct t; try reflexivity.
    destruct (100 <? Py.len cs); [reflexivity | ].
    induction IHcs as [ | x xs Hx _ IHxs]; simpl; [reflexivity | ].
    rewrite Hx. destruct (check x (d + 1)); simpl; [reflexivity | exact IHxs].
Qed.

Lemma forallb_flat_map {A B : Type} (f : B -> bool) (g : A -> list B)
  (l : list A) :
  forallb f (flat_map g l) = forallb (fun x => forallb f (g x)) l.
Proof.
  induction l as [ | x xs IH]; simpl; [reflexivity | ].
  rewrite forallb_app, IH. reflexivity.
Qed.

Lemma well_formed_node t cs :
  well_formed (Dict t (Present cs)) = true <->
  node_ok (Dict t (Present cs)) = true /\
  Forall (fun c => well_formed c = true) cs.
Proof.
  unfold well_formed. cbn [nodes forallb].
  rewrite andb_true_iff, forallb_flat_map, forallb_forall, Forall_forall.
  reflexivity.
Qed.

Lemma check_too_deep (o : obj) (d : Z) : 10 < d -> check o d = Some TooDeep.
Proof.
  intros Hd. destruct o as [t c]. simpl.
  apply Z.ltb_lt in Hd. rewrite Hd. reflexivity.
Qed.

(** The children loop of a node whose children all obey the depth law. *)
Lemma first_violation_depth (cs : list obj) (d : Z) :
  d <= 10 ->
  Forall (fun c => forall d', check c d' =
            if 10 <? d' + Z.of_nat (tree_depth c) then Some TooDeep else None) cs ->
  first_violation (fun child => check child (d + 1)) cs =
  if 10 <? d + Z.of_nat
       (fold_right (fun child m => Nat.max (S (tree_depth child)) m) 0%nat cs)
  then Some TooDeep else None.
Proof.
  intros Hd. induction 1 as [ | x xs Hx _ IHxs]; cbn [first_violation fold_right].
  - rewrite Z.add_0_r. apply Z.ltb_ge in Hd. rewrite Hd. reflexivity.
  - rewrite Hx, IHxs.
    set (m := fold_right _ _ xs).
    destruct (10 <? d + 1 + Z.of_nat (tree_depth x)) eqn:E1.
    + apply Z.ltb_lt in E1.
      assert (H : (10 <? d + Z.of_nat (Nat.max (S (tree_depth x)) m)) = true)
        by (apply Z.ltb_lt; lia).
      rewrite H. reflexivity.
    + apply Z.ltb_ge in E1.
      destruct (10 <? d + Z.of_nat m) eqn:E2.
      * apply Z.ltb_lt in E2.
        assert (H : (10 <? d + Z.of_nat (Nat.max (S (tree_depth x)) m)) = true)
          by (apply Z.ltb_lt; lia).
        rewrite H. reflexivity.
      * apply Z.ltb_ge in E2.
        assert (H : (10 <? d + Z.of_nat (Nat.max (S (tree_depth x)) m)) = false)
          by (apply Z.ltb_ge; lia).
        rewrite H. reflexivity.
Qed.

(** On a well-formed tree the only possible refusal is the depth one, and
    it happens exactly when some node lies deeper than level 10. *)
Lemma check_well_formed (o : obj) :
  well_formed o = true ->
  forall d, check o d =
            if 10 <? d + Z.of_nat (tree_depth o) then Some TooDeep else None.
Proof.
  induction o as [t c Hc | t cs IHcs] using obj_rect_children; intros Hwf d.
  - exfalso. unfold well_formed in Hwf. cbn [nodes forallb] in Hwf.
    apply andb_true_iff in Hwf. destruct Hwf as [Hroot _].
    destruct t, c; try discriminate Hroot. eapply Hc. reflexivity.
  - apply well_formed_node in Hwf. destruct Hwf as [Hroot Hkids].
    destruct t as [ | | s]; try discriminate Hroot.
    cbn [node_ok] in Hroot. apply Z.leb_le in Hroot.
    cbn [check tree_depth].
    destruct (10 <? d) eqn:Ed.
    + apply Z.ltb_lt in Ed.
      assert (H : (10 <? d + Z.of_nat
                (fold_right (fun child m => Nat.max (S (tree_depth child)) m)
                            0%nat cs)) = true) by (apply Z.ltb_lt; lia).
      rewrite H. reflexivity.
    + assert (Hl : (100 <? Py.len cs) = false) by (apply Z.ltb_ge; lia).
      rewrite Hl. apply Z.ltb_ge in Ed. apply first_violation_depth; [exact Ed | ].
      rewrite Forall_forall in *. intros c Hin. apply IHcs; [exact Hin | ].
      apply Hkids. exact Hin.
Qed.

(** Whatever else is wrong with it, a tree with a node deeper than level 10
    is refused. *)
Lemma check_rejects_deep (o : obj) :
  forall d, 10 < d + Z.of_nat (tree_depth o) -> check o d <> None.
Proof.
  induction o as [t c Hc | t cs IHcs] using obj_rect_children; intros d Hd.
  - assert (Hz : tree_depth (Dict t c) = 0%nat).
    { destruct c; try reflexivity. exfalso. eapply Hc. reflexivity. }
    rewrite Hz in Hd. rewrite check_too_deep by lia. discriminate.
  - cbn [check]. destruct (10 <? d) eqn:Ed; [discriminate | ].
    apply Z.ltb_ge in Ed.
    destruct t; try discriminate.
    destruct (100 <? Py.len cs); [discriminate | ].
    cbn [tree_depth] in Hd. revert Hd.
    induction IHcs as [ | x xs Hx _ IHxs]; cbn [first_violation fold_right];
      intros Hd.
    + lia.
    + destruct (check x (d + 1)) eqn:Ex; [discriminate | ].
      apply IHxs.
      destruct (Z.lt_ge_cases 10 (d + 1 + Z.of_nat (tree_depth x))) as [Hx' | Hx'].
      * exfalso. exact (Hx _ Hx' Ex).
      * lia.
Qed.

(** An accepted tree is well formed and no deeper than level 10. *)
Lemma check_accepts (o : obj) :
  forall d, check o d = None ->
            well_formed o = true /\ d + Z.of_nat (tree_depth o) <= 10.
Proof.
  intros d Hacc. split.
  - revert d Hacc.
    induction o as [t c Hc | t cs IHcs] using obj_rect_children; intros d Hacc.
    + exfalso. cbn [check] in Hacc. destruct (10 <? d); [discriminate | ].
      destruct t, c; try discriminate. eapply Hc. reflexivity.
    + cbn [check] in Hacc. destruct (10 <? d); [discriminate | ].
      destruct t as [ | | s]; try discriminate.
      destruct (100 <? Py.len cs) eqn:El; [discriminate | ].
      apply Z.ltb_ge in El.
      apply well_formed_node. split.
      * cbn [node_ok]. apply Z.leb_le. exact El.
      * clear El. induction IHcs as [ | x xs Hx _ IHxs]; [constructor | ].
        cbn [first_violation] in Hacc.
        destruct (check x (d + 1)) eqn:Ex; [discriminate | ].
        constructor; [exact (Hx _ Ex) | exact (IHxs Hacc)].
  - destruct (Z.lt_ge_cases 10 (d + Z.of_nat (tree_depth o))) as [H | H]; [ | lia].
    exfalso. exact (check_rejects_deep o d H Hacc).
Qed.

Lemma raise_as_returns (err : violation -> ValidationError) r :
  raise_as err r = Returns <-> r = None.
Proof.
  destruct r; simpl; split; intros H; try reflexivity; discriminate H.
Qed.

(** C2 (the code at the failing input).  A tree of 501 nodes in which no
    node is deeper than level 2 or has more than 100 children is accepted by
    both validators: neither threads a node counter through its recursion,
    although the contract and the data model both list "Max nodes: 500"
    among the validation rules. *)
Theorem mindmap_501_nodes_accepted :
  total_nodes tree_501 = 501%nat /\
  tree_depth tree_501 = 2%nat /\
  well_formed tree_501 = true /\
  _validate_mindmap_structure tree_501 0 = Returns /\
  validate_mindmap_json tree_501 = Returns.
Proof.
  repeat split; vm_compute; reflexivity.
Qed.

(** C3 (as stated, refuted).  The chain of depth 11 is refused by
    [_validate_mindmap_structure] with the code MINDMAP_TOO_DEEP, not
    MAX_DEPTH_EXCEEDED; and a tree of depth 11 whose root has 101 children is
    refused by both validators with TOO_MANY_CHILDREN, the root being checked
    before any deep node is reached. *)
Lemma mindmap_depth_11_other_error :
  tree_depth (chain 11) = 11%nat /\
  _validate_mindmap_structure (chain 11) 0 =
    Raises (mkValidationError "MINDMAP_TOO_DEEP" "Max 10 hierarchy levels") /\
  "MINDMAP_TOO_DEEP" <> "MAX_DEPTH_EXCEEDED" /\
  tree_depth (fan "root" 101 (chain 10)) = 11%nat /\
  _validate_mindmap_structure (fan "root" 101 (chain 10)) 0 =
    Raises (mkValidationError "TOO_MANY_CHILDREN" "Max 100 children per node") /\
  validate_mindmap_json (fan "root" 101 (chain 10)) =
    Raises (mkValidationError "TOO_MANY_CHILDREN" "Max 100 children per node").
Proof.
  repeat split; try (vm_compute; reflexivity). discriminate.
Qed.

(** C3 (amended).  On a well-formed tree, validated from depth 0, the only
    refusal is the depth one: it is raised exactly when some node lies deeper
    than level 10, with code MINDMAP_TOO_DEEP in
    [_validate_mindmap_structure] and MAX_DEPTH_EXCEEDED in
    [validate_mindmap_json]; a well-formed tree of depth at most 10 (so every
    well-formed tree of depth 3 with 10 nodes) is accepted by both. *)
Theorem mindmap_depth_rule (o : obj) (Hwf : well_formed o = true) :
  _validate_mindmap_structure o 0 =
    (if 10 <? Z.of_nat (tree_depth o)
     then Raises (mkValidationError "MINDMAP_TOO_DEEP" "Max 10 hierarchy levels")
     else Returns) /\
  validate_mindmap_json o =
    (if 10 <? Z.of_nat (tree_depth o)
     then Raises (mkValidationError "MAX_DEPTH_EXCEEDED" "Mindmap too deep")
     else Returns).
Proof.
  unfold validate_mindmap_json.
  rewrite validate_service_check, validate_node_check.
  rewrite (check_well_formed o Hwf 0). rewrite Z.add_0_l.
  destruct (10 <? Z.of_nat (tree_depth o)); split; reflexivity.
Qed.

(** The rule at the tree of depth 3 with 10 nodes. *)
Lemma mindmap_depth_rule_witness :
  well_formed tree_3_10 = true /\
  tree_depth tree_3_10 = 3%nat /\
  total_nodes tree_3_10 = 10%nat /\
  _validate_mindmap_structure tree_3_10 0 = Returns /\
  validate_mindmap_json tree_3_10 = Returns.
Proof.
  split; [reflexivity | ]. split; [reflexivity | ]. split; [reflexivity | ].
  exact (mindmap_depth_rule tree_3_10 eq_refl).
Defined.

(** A tree with a node deeper than level 10 is refused by both validators,
    well formed or not. *)
Lemma mindmap_deep_tree_refused (o : obj) :
  (10 < tree_depth o)%nat ->
  (exists e, _validate_mindmap_structure o 0 = Raises e) /\
  (exists e, validate_mindmap_json o = Raises e).
Proof.
  intros Hd. unfold validate_mindmap_json.
  rewrite validate_service_check, validate_node_check.
  destruct (check o 0) as [v | ] eqn:E.
  - split; eexists; reflexivity.
  - exfalso. apply (check_rejects_deep o 0); [lia | exact E].
Qed.

(** C4 (as stated, refuted).  A node whose title is the empty string is
    accepted: the validators test that the title is present and is a [str],
    not that it is non-empty. *)
Lemma mindmap_empty_title_accepted :
  In (leaf "") (nodes (leaf "")) /\
  title (leaf "") = Present "" /\
  _validate_mindmap_structure (leaf "") 0 = Returns /\
  validate_mindmap_json (leaf "") = Returns.
Proof.
  repeat split; try reflexivity. simpl. left. reflexivity.
Qed.

(** C4 (amended).  A validator accepts a node only if its title is present
    and is a string: every tree containing a node whose title is missing or is
    not a string is refused with an error, at whatever depth the validation
    starts. *)
Theorem mindmap_title_must_be_string (o n : obj) (depth : Z)
  (Hin : In n (nodes o)) (Hbad : forall s, title n <> Present s) :
  (exists e, _validate_mindmap_structure o depth = Raises e) /\
  (exists e, validate_node o depth = Raises e).
Proof.
  rewrite validate_service_check, validate_node_check.
  destruct (check o depth) as [v | ] eqn:E.
  - split; eexists; reflexivity.
  - exfalso. apply check_accepts in E. destruct E as [Hwf _].
    unfold well_formed in Hwf. rewrite forallb_forall in Hwf.
    specialize (Hwf n Hin). destruct n as [[ | | s] c]; try discriminate Hwf.
    exact (Hbad s eq_refl).
Qed.

(** The rule at a root whose only child has no title. *)
Lemma mindmap_title_must_be_string_witness :
  (exists e, _validate_mindmap_structure
               (Dict (Present "root") (Present [Dict Missing (Present [])])) 0
             = Raises e) /\
  (exists e, validate_node
               (Dict (Present "root") (Present [Dict Missing (Present [])])) 0
             = Raises e).
Proof.
  apply (mindmap_title_must_be_string
           (Dict (Present "root") (Present [Dict Missing (Present [])]))
           (Dict Missing (Present [])) 0).
  - simpl. right. left. reflexivity.
  - intros s H. discriminate H.
Defined.

End MindmapFacts.

(** ** [retry_with_backoff] *)

Section RetryFacts.
Import Gemini.
Local Open Scope list_scope.

Variable A : Type.
Variable func : nat -> result A.
Variable uniform_0_1 : nat -> Q.
Variable max_retries : Z.
Variable base_delay : Q.

Local Abbreviation attempts := (attempts A func uniform_0_1 max_retries base_delay).
Local Abbreviation delay := (delay uniform_0_1 base_delay).

(** Whatever [func] does, every sleep of the loop is the delay of the
    attempt that has just failed, and the last attempt is never slept on. *)
Lemma attempts_slept (n : nat) :
  forall first slept,
    exists k, (k <= n)%nat /\
      (forall a, (first <= a < first + k)%nat ->
                 Z.of_nat a <> max_retries - 1) /\
      snd (attempts (seq first n) slept) = slept ++ map delay (seq first k).
Proof.
  induction n as [ | n IH]; intros first slept; cbn [seq Gemini.attempts].
  - exists 0%nat. split; [lia | ]. split; [intros a Ha; lia | ].
    cbn. rewrite app_nil_r. reflexivity.
  - assert (Hstop : forall r : ending A, exists k, (k <= S n)%nat /\
              (forall a, (first <= a < first + k)%nat ->
                         Z.of_nat a <> max_retries - 1) /\
              snd (r, slept) = slept ++ map delay (seq first k)).
    { intros r. exists 0%nat. split; [lia | ]. split; [intros a Ha; lia | ].
      cbn. rewrite app_nil_r. reflexivity. }
    assert (Hgo : Z.of_nat first <> max_retries - 1 ->
              exists k, (k <= S n)%nat /\
              (forall a, (first <= a < first + k)%nat ->
                         Z.of_nat a <> max_retries - 1) /\
              snd (attempts (seq (S first) n) (slept ++ [delay first])) =
              slept ++ map delay (seq first k)).
    { intros Hne.
      destruct (IH (S first) (slept ++ [delay first])) as [k [Hk [Hnl Hs]]].
      exists (S k). split; [lia | ]. split.
      - intros a Ha. destruct (Nat.eq_dec a first) as [-> | Hd];
          [exact Hne | apply Hnl; lia].
      - rewrite Hs. cbn [seq map]. rewrite <- app_assoc. reflexivity. }
    destruct (func first) as [a | e]; [apply Hstop | ].
    destruct e; try apply Hstop;
      (destruct (Z.of_nat first =? max_retries - 1) eqn:E;
       [apply Hstop | apply Hgo; apply Z.eqb_neq; exact E]).
Qed.

(** When every attempt fails with a retried error, the loop sleeps after
    each attempt but the last and then raises [GeminiAPIError]. *)
Lemma attempts_exhausted (n : nat) :
  forall first slept,
    Z.of_nat (first + n) = max_retries - 1 ->
    (forall k, (first <= k <= first + n)%nat ->
               exists e, func k = Raise e /\ retried e = true) ->
    exists e, func (first + n)%nat = Raise e /\ retried e = true /\
      attempts (seq first (S n)) slept =
      (Raised (GeminiAPIError
                 ("Failed after "
                  ++ NilZero.string_of_int (Z.to_int max_retries)
                  ++ " retries: " ++ str e)%string),
       slept ++ map delay (seq first n)).
Proof.
  induction n as [ | n IH]; intros first slept Hlast Hfail.
  - destruct (Hfail first ltac:(lia)) as [e [He Hr]].
    exists e. rewrite Nat.add_0_r in *. split; [exact He | ].
    split; [exact Hr | ].
    cbn [seq Gemini.attempts]. rewrite He.
    apply Z.eqb_eq in Hlast.
    destruct e; try discriminate Hr; rewrite Hlast; cbn; rewrite app_nil_r;
      reflexivity.
  - destruct (Hfail first ltac:(lia)) as [e [He Hr]].
    destruct (IH (S first) (slept ++ [delay first])) as [e' [He' [Hr' Hrun]]].
    + rewrite <- Hlast. f_equal. lia.
    + intros k Hk. apply Hfail. lia.
    + exists e'. replace (first + S n)%nat with (S first + n)%nat by lia.
      split; [exact He' | ]. split; [exact Hr' | ].
      change (seq first (S (S n))) with (first :: seq (S first) (S n)).
      cbn [Gemini.attempts]. rewrite He.
      assert (Hne : (Z.of_nat first =? max_retries - 1) = false)
        by (apply Z.eqb_neq; lia).
      destruct e; try discriminate Hr; rewrite Hne, Hrun; cbn [seq map];
        rewrite <- app_assoc; reflexivity.
Qed.

End RetryFacts.

(** ** The Axios client *)

Section ClientFacts.
Import ApiTypes ApiClient.
Local Open Scope list_scope.

Variable server : nat -> reply.

Lemma request_unfold (fuel sent : nat) (c : AxiosRequestConfig)
  (timeouts : list Q) (resp : option AxiosResponse) :
  server sent = Failed resp ->
  request server (S fuel) sent c timeouts =
  if isRetryable (transformed resp) && (retries (retry_of c) <? maxRetries)
  then request server fuel (S sent)
         (mkRequestConfig (method c) (url c)
            (Some (mkRetryConfig (retries (retry_of c) + 1)
                                 (retry_retryDelay (retry_of c)))))
         (timeouts ++ [inject_Z (retry_retryDelay (retry_of c))
                       * Qpower 2 (retries (retry_of c) + 1 - 1)])%Q
  else Some (Rejected (transformed resp), timeouts, S sent).
Proof.
  intros Hs. cbn [request]. rewrite Hs.
  unfold response_error_interceptor, shouldRetry, request_interceptor, retry_of.
  destruct c as [m u [r | ]]; cbn [_retry method url error_config response
    retries retry_retryDelay].
  - rewrite Z.ltb_antisym.
    destruct resp as [resp | ]; cbn [transformed];
      destruct (maxRetries <=? retries r); cbn [negb];
      rewrite ?andb_false_r, ?andb_true_r;
      try reflexivity;
      match goal with |- context [isRetryable ?e] =>
        destruct (isRetryable e) end; reflexivity.
  - destruct resp as [resp | ]; cbn [transformed];
      change (maxRetries <=? 0) with false; change (0 <? maxRetries) with true;
      rewrite ?andb_true_r;
      match goal with |- context [isRetryable ?e] =>
        destruct (isRetryable e) end; reflexivity.
Qed.

(** A request always settles: one more unit of fuel than retries left is
    enough. *)
Lemma request_settles (fuel : nat) :
  forall sent c timeouts,
    (Z.to_nat (maxRetries - retries (retry_of c)) < fuel)%nat ->
    exists outcome, request server fuel sent c timeouts = Some outcome.
Proof.
  induction fuel as [ | fuel IH]; intros sent c timeouts Hfuel; [lia | ].
  destruct (server sent) as [resp | resp] eqn:Hs.
  - cbn [request]. rewrite Hs. eexists. reflexivity.
  - rewrite (request_unfold _ _ _ _ _ Hs).
    destruct (isRetryable (transformed resp)); cbn [andb];
      [ | eexists; reflexivity].
    destruct (retries (retry_of c) <? maxRetries) eqn:Hlt;
      [ | eexists; reflexivity].
    apply Z.ltb_lt in Hlt. apply IH. cbn [retry_of _retry retries]. lia.
Qed.

(** A fresh request whose first four replies are failures with a retryable
    error is retried three times and then rejected with the last error. *)
Lemma request_exhausted (fuel : nat) (m u : string) :
  (forall n, (n <= 3)%nat ->
             exists resp, server n = Failed resp /\
                          isRetryable (transformed resp) = true) ->
  exists resp, server 3%nat = Failed resp /\
    request server (4 + fuel) 0 (mkRequestConfig m u None) [] =
    Some (Rejected (transformed resp), [1000; 2000; 4000]%Q, 4%nat).
Proof.
  intros Hfail.
  destruct (Hfail 0%nat ltac:(lia)) as [r0 [H0 R0]].
  destruct (Hfail 1%nat ltac:(lia)) as [r1 [H1 R1]].
  destruct (Hfail 2%nat ltac:(lia)) as [r2 [H2 R2]].
  destruct (Hfail 3%nat ltac:(lia)) as [r3 [H3 R3]].
  exists r3. split; [exact H3 | ].
  change (4 + fuel)%nat with (S (S (S (S fuel)))).
  rewrite (request_unfold _ _ _ _ _ H0), R0. cbn -[request].
  rewrite (request_unfold _ _ _ _ _ H1), R1. cbn -[request].
  rewrite (request_unfold _ _ _ _ _ H2), R2. cbn -[request].
  rewrite (request_unfold _ _ _ _ _ H3), R3. cbn -[request].
  reflexivity.
Qed.

End ClientFacts.

(** ** The error tables *)

Section ErrorFacts.
Import ApiTypes.
Local Open Scope list_scope.

Lemma lookup_In {V : Type} (table : list (string * V)) (key : string) (v : V) :
  ErrorTransform.lookup table key = Some v -> In (key, v) table.
Proof.
  induction table as [ | [k w] rest IH]; cbn [ErrorTransform.lookup];
    [discriminate | ].
  destruct (k =? key)%string eqn:E.
  - intros H. injection H as <-. apply String.eqb_eq in E. subst k.
    left. reflexivity.
  - intros H. right. apply IH. exact H.
Qed.

Lemma or_else_nonempty (a : option string) (b : string) :
  b <> "" -> ErrorTransform.or_else a b <> "".
Proof.
  intros Hb. destruct a as [s | ]; cbn; [ | exact Hb].
  destruct (s =? "")%string eqn:E; [exact Hb | ].
  apply String.eqb_neq. exact E.
Qed.

Lemma transform_message_known (code m : string) :
  ErrorTransform.lookup ErrorTransform.ERROR_MESSAGES code = Some m ->
  m <> "".
Proof.
  intros H. apply lookup_In in H.
  assert (Hall : forallb (fun p => negb (snd p =? "")%string)
                         ErrorTransform.ERROR_MESSAGES = true)
    by (vm_compute; reflexivity).
  rewrite forallb_forall in Hall. specialize (Hall _ H). cbn [snd] in Hall.
  apply negb_true_iff, String.eqb_neq in Hall. exact Hall.
Qed.

Lemma status_code_has_message (statusCode : Z) :
  exists m,
    ErrorTransform.lookup ErrorTransform.ERROR_MESSAGES
      (ErrorTransform.mapStatusCodeToErrorCode statusCode) = Some m.
Proof.
  unfold ErrorTransform.mapStatusCodeToErrorCode.
  repeat match goal with
         | |- context [if ?b then _ else _] =>
             destruct b; [eexists; reflexivity | ]
         end.
  eexists; reflexivity.
Qed.

Lemma status_code_retryable (statusCode : Z) :
  ErrorTransform.isRetryableError
    (ErrorTransform.mapStatusCodeToErrorCode statusCode) =
  (statusCode =? 408) || (statusCode =? 429).
Proof.
  unfold ErrorTransform.mapStatusCodeToErrorCode.
  destruct (Z.eqb_spec statusCode 401); [subst; reflexivity | ].
  destruct (Z.eqb_spec statusCode 403); [subst; reflexivity | ].
  destruct (Z.eqb_spec statusCode 404); [subst; reflexivity | ].
  destruct (Z.eqb_spec statusCode 408); [subst; reflexivity | ].
  destruct (Z.eqb_spec statusCode 413); [subst; reflexivity | ].
  destruct (Z.eqb_spec statusCode 429); [subst; reflexivity | ].
  destruct (Z.eqb_spec statusCode 500); [subst; reflexivity | ].
  destruct (Z.eqb_spec statusCode 502); [subst; reflexivity | ].
  destruct (Z.eqb_spec statusCode 503); [subst; reflexivity | ].
  destruct (Z.eqb_spec statusCode 504); [subst; reflexivity | ].
  reflexivity.
Qed.

Lemma member_text_nonempty (name : string) : JS.member_text name <> "".
Proof.
  unfold JS.member_text.
  destruct (name =? "__proto__")%string; [discriminate | ].
  destruct (name =? "constructor")%string; discriminate.
Qed.

Lemma get_own {V : Type} (table : list (string * V)) (key : string) (v : V) :
  ErrorTransform.lookup table key = Some v ->
  ErrorTransform.get table key = JS.Own v.
Proof.
  intros H. unfold ErrorTransform.get. rewrite H. reflexivity.
Qed.

Lemma get_not_own {V : Type} (table : list (string * V)) (key : string) :
  ErrorTransform.lookup table key = None ->
  ErrorTransform.get table key =
  if ErrorTransform.includes JS.Object_prototype key then JS.Inherited key
  else JS.Undefined.
Proof.
  intros H. unfold ErrorTransform.get. rewrite H. reflexivity.
Qed.

(** No error code of either table is the name of an inherited member. *)
Lemma inherited_not_own (key : string) :
  ErrorTransform.includes JS.Object_prototype key = true ->
  ErrorTransform.lookup ErrorTransform.ERROR_MESSAGES key = None /\
  ErrorTransform.lookup ErrorFormatter.ERROR_MESSAGES key = None /\
  key <> "" /\ key <> ErrorCode.VALIDATION_ERROR.
Proof.
  unfold ErrorTransform.includes. intros H.
  apply existsb_exists in H. destruct H as [name [Hin Heq]].
  apply String.eqb_eq in Heq. subst key.
  cbn [JS.Object_prototype In] in Hin.
  repeat (destruct Hin as [<- | Hin];
          [repeat split; intros E; cbv in E; discriminate E | ]).
  destruct Hin.
Qed.

End ErrorFacts.

(** ** Retry, backoff and error classification *)

Section RetryPolicy.
Import Gemini ApiTypes ApiClient.
Local Open Scope list_scope.

(** C6 (as stated, refuted).  With [max_retries = 9] and a call that always
    times out, the eighth sleep of [retry_with_backoff] lasts 128 seconds
    (jitter 0): more than the 60-second ceiling of the policy, and more than
    that ceiling with a full window of jitter added.  No delay is capped. *)
Lemma backoff_exceeds_max_delay :
  let slept :=
    snd (retry_with_backoff string (fun _ => Raise (TimeoutError "timed out"))
                            (fun _ => 0%Q) 9 1) in
  (nth 7 slept 0 == 128)%Q /\
  ~ BackoffPolicy.allowed 1 2 60 8 (nth 7 slept 0%Q).
Proof.
  split.
  - vm_compute. reflexivity.
  - intros [_ H]. vm_compute in H. apply H. reflexivity.
Qed.

(** C6 (amended).  In the backend every sleep of [retry_with_backoff] is
    [base_delay * 2^(n-1)] plus the value drawn by [random.uniform(0, 1)],
    [n] being the 1-indexed attempt that has just failed, and there are at
    most [max_retries - 1] sleeps; in the front end the delay of [retryRequest] is
    [retryDelay * 2^(retries-1)] milliseconds, [retries] being the count just
    incremented.  Neither is capped: the formula agrees with
    [min(1 * 2^(n-1), 60)] for the attempts 1 to 6 only.  With the defaults
    the deterministic delays are 1 s and 2 s in the backend (three attempts)
    and 1000, 2000 and 4000 ms in the front end (three retries). *)
Theorem backoff_delays :
  (forall (A : Type) (func : nat -> result A) (uniform_0_1 : nat -> Q)
          (max_retries : Z) (base_delay : Q),
      let slept :=
        snd (retry_with_backoff A func uniform_0_1 max_retries base_delay) in
      slept =
        map (fun attempt =>
               base_delay * inject_Z (2 ^ Z.of_nat attempt)
               + uniform_0_1 attempt)%Q
            (seq 0 (List.length slept)) /\
      (List.length slept <= Z.to_nat (max_retries - 1))%nat) /\
  (forall (m u : string) (r : RetryConfig),
      snd (retryRequest (mkRequestConfig m u (Some r))) =
      (inject_Z (retry_retryDelay r) * Qpower 2 (retries r + 1 - 1))%Q) /\
  Forall (fun n => 1 * Qpower 2 (n - 1) == BackoffPolicy.spec_delay 1 2 60 n)%Q
         [1; 2; 3; 4; 5; 6] /\
  map Qred
      (snd (retry_with_backoff string
              (fun _ => Raise (TimeoutError "timed out")) (fun _ => 0%Q) 3 1))
    = [1; 2]%Q /\
  request (fun _ => Failed None) 4 0 (mkRequestConfig "GET" "/documents" None) []
    = Some (Rejected ErrorTransform.transformNetworkError,
            [1000; 2000; 4000]%Q, 4%nat).
Proof.
  split; [ | split; [ | split; [ | split]]].
  - intros A func u max_retries base_delay slept.
    destruct (attempts_slept A func u max_retries base_delay
                (Z.to_nat max_retries) 0%nat []) as [k [Hk [Hnl Hs]]].
    change (snd (retry_with_backoff A func u max_retries base_delay) =
            [] ++ map (Gemini.delay u base_delay) (seq 0 k)) in Hs.
    cbn [app] in Hs. subst slept. rewrite Hs.
    rewrite length_map, length_seq. split; [reflexivity | ].
    destruct (Nat.le_gt_cases k (Z.to_nat (max_retries - 1))) as [Hle | Hgt];
      [exact Hle | ].
    exfalso. apply (Hnl (Z.to_nat (max_retries - 1))); lia.
  - intros m u r. reflexivity.
  - repeat constructor.
  - vm_compute. reflexivity.
  - vm_compute. reflexivity.
Qed.

(** C7 (as stated, refuted).  Three attempts that all time out end, in
    [retry_with_backoff], with a [GeminiAPIError]: the kind of the last
    retryable error is replaced by the generic one. *)
Lemma retry_exhaustion_changes_kind :
  fst (retry_with_backoff string (fun _ => Raise (TimeoutError "timed out"))
                          (fun _ => 0%Q) 3 1)
    = Raised (GeminiAPIError "Failed after 3 retries: timed out") /\
  kind_of (GeminiAPIError "Failed after 3 retries: timed out")
    <> kind_of (TimeoutError "timed out").
Proof.
  split; [vm_compute; reflexivity | discriminate].
Qed.

(** C7 (amended).  When each of the [max_retries] attempts fails with a
    retried error ([TimeoutError] or [RateLimitError]), the backend's
    [retry_with_backoff] raises a [GeminiAPIError] whose message
    "Failed after <max_retries> retries: <text>" carries the text of the last
    error.  When the first request and its three retries all fail with a
    retryable error, the front-end client rejects with the [ApiError] built
    from the last failure, keeping its error code, after waiting 1000, 2000
    and 4000 ms. *)
Theorem retry_exhaustion_outcome
  (A : Type) (func : nat -> result A) (uniform_0_1 : nat -> Q)
  (max_retries : Z) (base_delay : Q)
  (server : nat -> reply) (fuel : nat) (m u : string)
  (Hpos : 1 <= max_retries)
  (Hfunc : forall k, Z.of_nat k < max_retries ->
                     exists e, func k = Raise e /\ retried e = true)
  (Hserver : forall n, (n <= 3)%nat ->
                       exists resp, server n = Failed resp /\
                                    isRetryable (transformed resp) = true) :
  (exists e, func (Z.to_nat (max_retries - 1)) = Raise e /\
     retried e = true /\
     fst (retry_with_backoff A func uniform_0_1 max_retries base_delay) =
     Raised (GeminiAPIError
               ("Failed after "
                ++ NilZero.string_of_int (Z.to_int max_retries)
                ++ " retries: " ++ str e)%string)) /\
  (exists resp, server 3%nat = Failed resp /\
     request server (4 + fuel) 0 (mkRequestConfig m u None) [] =
     Some (Rejected (transformed resp), [1000; 2000; 4000]%Q, 4%nat)).
Proof.
  split.
  - destruct (attempts_exhausted A func uniform_0_1 max_retries base_delay
                (Z.to_nat (max_retries - 1)) 0%nat [])
      as [e [He [Hr Hrun]]].
    + cbn [Nat.add]. lia.
    + intros k Hk. apply Hfunc. cbn [Nat.add] in Hk. lia.
    + exists e. cbn [Nat.add] in He. split; [exact He | ].
      split; [exact Hr | ].
      unfold retry_with_backoff.
      replace (Z.to_nat max_retries) with (S (Z.to_nat (max_retries - 1)))
        by lia.
      rewrite Hrun. reflexivity.
  - exact (request_exhausted server fuel m u Hserver).
Qed.

(** Three rate-limit failures in the backend, four network failures in the
    front end. *)
Lemma retry_exhaustion_outcome_witness :
  (exists e, (fun _ : nat => @Raise string (RateLimitError "429")) 2%nat
             = Raise e /\
     retried e = true /\
     fst (retry_with_backoff string (fun _ => Raise (RateLimitError "429"))
                             (fun _ => 0%Q) 3 1) =
     Raised (GeminiAPIError
               ("Failed after " ++ "3" ++ " retries: " ++ str e)%string)) /\
  (exists resp, (fun _ : nat => Failed None) 3%nat = Failed resp /\
     request (fun _ => Failed None) 4 0
             (mkRequestConfig "GET" "/documents" None) [] =
     Some (Rejected (transformed resp), [1000; 2000; 4000]%Q, 4%nat)).
Proof.
  apply (retry_exhaustion_outcome string
           (fun _ => Raise (RateLimitError "429")) (fun _ => 0%Q) 3 1
           (fun _ => Failed None) 0 "GET" "/documents").
  - lia.
  - intros k _. exists (RateLimitError "429"). split; reflexivity.
  - intros n _. exists None. split; reflexivity.
Defined.






(** The two tables differ on INTERNAL_ERROR, the code given to the statuses
    500, 502, 503 and 504 when the body names no error code: the formatter
    calls it retryable, the transformation does not, so the client does not
    retry such a response. *)
Lemma internal_error_not_retried :
  ErrorTransform.mapStatusCodeToErrorCode 503 = ErrorCode.INTERNAL_ERROR /\
  ErrorTransform.isRetryableError ErrorCode.INTERNAL_ERROR = false /\
  ErrorFormatter.configured_isRetryable ErrorCode.INTERNAL_ERROR = Some true /\
  request (fun _ => Failed (Some (mkResponse 503 "Service Unavailable" None)))
          4 0 (mkRequestConfig "GET" "/documents" None) [] =
    Some (Rejected (ErrorTransform.transformErrorResponse None 503), [], 1%nat).
Proof.
  repeat split.
Qed.

End RetryPolicy.

(** ** Cost tracking and the daily budget *)

Section CostFacts.
Import Gemini.
Local Open Scope list_scope.

Lemma daily_cost_add (entries : list APILog) (log_entry : APILog) :
  (fold_right (fun entry total => cost_usd entry + total) 0
              (entries ++ [log_entry])
   == fold_right (fun entry total => cost_usd entry + total) 0 entries
      + cost_usd log_entry)%Q.
Proof.
  induction entries as [ | entry rest IH]; cbn [app fold_right].
  - ring.
  - rewrite IH. ring.
Qed.

Lemma log_api_call_db (limit : Q) (self : GeminiService) (operation : string)
  (tokens_input tokens_output latency_ms : Z) (status : string)
  (document_id : option Z) :
  db (_log_api_call limit self operation tokens_input tokens_output latency_ms
                    status document_id) =
  db self ++
  [mkAPILog operation tokens_input tokens_output
            (inject_Z tokens_input * price_input
             + inject_Z tokens_output * price_output)%Q
            latency_ms status document_id].
Proof.
  unfold _log_api_call. destruct (negb _); reflexivity.
Qed.

(** The float operations keep a sign. *)
















(** In exact arithmetic the daily spend rises by exactly
    [tokens_input * 0.00000075 + tokens_output * 0.000003]. *)
Lemma cost_ledger_exact_arithmetic (limit : Q) (self : GeminiService)
  (operation : string) (tokens_input tokens_output latency_ms : Z)
  (status : string) (document_id : option Z) :
  (_calculate_daily_cost
     (_log_api_call limit self operation tokens_input tokens_output latency_ms
                    status document_id)
   == _calculate_daily_cost self
      + (inject_Z tokens_input * 0.00000075
         + inject_Z tokens_output * 0.000003))%Q.
Proof.
  assert (Hpi : (price_input == 0.00000075)%Q) by reflexivity.
  assert (Hpo : (price_output == 0.000003)%Q) by reflexivity.
  unfold _calculate_daily_cost. rewrite log_api_call_db.
  eapply Qeq_trans; [apply daily_cost_add | ].
  cbn [cost_usd]. rewrite Hpi, Hpo. reflexivity.
Qed.




(** C1 (as stated, refuted).  A service whose daily spend (75) is above the
    limit (50), and which has already warned about it, still calls the
    remote generator when asked for a summary, and returns its answer. *)
Lemma over_budget_summary_calls_remote :
  let self :=
    _log_api_call 50 (mkGeminiService [] [] 0) "summarize" 100000000 0 1200
                  "success" None in
  (50 <= _calculate_daily_cost self)%Q /\
  map Qred (warnings self) = [75%Q] /\
  generate_content_calls self = 0%nat /\
  generate_summary (fun _ => Return "- a") self "T" 1000 =
    (mkGeminiService (db self) (warnings self) 1, Return "- a").
Proof.
  cbv zeta. split; [ | split; [ | split]].
  - vm_compute. discriminate.
  - vm_compute. reflexivity.
  - vm_compute. reflexivity.
  - vm_compute. reflexivity.
Qed.

(** C1 (amended).  The budget is not looked at before a generation call:
    even when the daily spend has reached the limit, [generate_summary] and
    [generate_mindmap] call the remote generator exactly once, leave the log
    and the warnings as they are, and answer as they would with an empty
    ledger.  The budget is examined only by [_log_api_call], after the call
    has been recorded: it makes no remote call and adds a warning exactly
    when the new daily spend is strictly above the limit. *)
Theorem budget_checked_after_the_call
  (client : GenerationCall -> result string)
  (json_loads : string -> Mindmap.obj + string)
  (limit : Q) (self : GeminiService) (document_text : string)
  (max_output_tokens : Z)
  (Hspent : (limit <= _calculate_daily_cost self)%Q) :
  generate_summary client self document_text max_output_tokens =
    (mkGeminiService (db self) (warnings self)
                     (S (generate_content_calls self)),
     snd (generate_summary client (mkGeminiService [] [] 0) document_text
                           max_output_tokens)) /\
  generate_mindmap client json_loads self document_text max_output_tokens =
    (mkGeminiService (db self) (warnings self)
                     (S (generate_content_calls self)),
     snd (generate_mindmap client json_loads (mkGeminiService [] [] 0)
                           document_text max_output_tokens)) /\
  (forall operation tokens_input tokens_output latency_ms status document_id,
      let self' :=
        _log_api_call limit self operation tokens_input tokens_output
                      latency_ms status document_id in
      generate_content_calls self' = generate_content_calls self /\
      warnings self' =
        if negb (Qle_bool (_calculate_daily_cost self') limit)
        then warnings self ++ [_calculate_daily_cost self']
        else warnings self).
Proof.
  split; [ | split].
  - unfold generate_summary, call_client. cbn [db warnings generate_content_calls].
    destruct (client _) as [text | e]; [ | reflexivity].
    destruct (strip text =? "")%string; reflexivity.
  - unfold generate_mindmap, call_client.
    cbn [db warnings generate_content_calls].
    destruct (client _) as [text | e]; [ | reflexivity].
    destruct (json_loads _) as [o | e]; [ | reflexivity].
    destruct (Mindmap._validate_mindmap_structure o 0); reflexivity.
  - intros operation tokens_input tokens_output latency_ms status document_id.
    cbv zeta. unfold _log_api_call.
    set (added := db_add self _).
    destruct (negb (Qle_bool (_calculate_daily_cost added) limit)) eqn:E.
    + split; [reflexivity | ].
      change (_calculate_daily_cost (logger_warning added
                                       (_calculate_daily_cost added)))
        with (_calculate_daily_cost added).
      rewrite E. reflexivity.
    + rewrite E. split; reflexivity.
Qed.

(** A ledger at 75 for a limit of 50. *)
Lemma budget_checked_after_the_call_witness :
  let self := mkGeminiService
                [mkAPILog "summarize" 100000000 0 75 1200 "success" None]
                [75%Q] 0 in
  generate_summary (fun _ => Return "- a") self "T" 1000 =
    (mkGeminiService (db self) (warnings self) 1,
     snd (generate_summary (fun _ => Return "- a") (mkGeminiService [] [] 0)
                           "T" 1000)).
Proof.
  cbv zeta.
  apply (budget_checked_after_the_call
           (fun _ => Return "- a") (fun _ => inr "no JSON") 50
           (mkGeminiService
              [mkAPILog "summarize" 100000000 0 75 1200 "success" None]
              [75%Q] 0) "T" 1000).
  vm_compute. discriminate.
Defined.

End CostFacts.

(** ** The rate limiter *)

Section RateLimiterFacts.
Import RateLimiter.
Local Open Scope list_scope.

(** X8.  A call that finds the window full sleeps for 60 seconds minus the
    age of the oldest recorded request, and records its permit only then:
    no earlier than 60 seconds after that oldest request. *)
Lemma acquire_blocks_until_oldest_expires
  (self : RateLimiter) (now late oldest : Q) (rest : list Q) :
  filter (recent now) (request_times self) = oldest :: rest ->
  rpm self <= Py.len (oldest :: rest) ->
  (0 <= late)%Q ->
  acquire_enter self now =
    AwaitSleep (mkRateLimiter (rpm self) (oldest :: rest))
               (60 - (now - oldest)) /\
  exists self' time,
    acquire self now late = Some (self', time) /\
    request_times self' = (oldest :: rest) ++ [time] /\
    (time == now + (60 - (now - oldest)) + late)%Q /\
    (oldest + 60 <= time)%Q.
Proof.
  intros Hf Hfull Hlate.
  assert (He : acquire_enter self now =
               AwaitSleep (mkRateLimiter (rpm self) (oldest :: rest))
                          (60 - (now - oldest))).
  { unfold acquire_enter. rewrite Hf. cbn [rpm].
    apply Z.leb_le in Hfull. rewrite Hfull. reflexivity. }
  split; [exact He | ].
  unfold acquire. rewrite He.
  eexists. eexists. split; [reflexivity | ].
  split; [reflexivity | ]. split; [reflexivity | ].
  apply Qle_minus_iff.
  setoid_replace (now + (60 - (now - oldest)) + late + - (oldest + 60))%Q
    with late by ring.
  exact Hlate.
Qed.

Lemma recent_spec (now t : Q) : recent now t = true <-> (now - t < 60)%Q.
Proof.
  unfold recent. rewrite negb_true_iff, <- not_true_iff_false, Qle_bool_iff.
  split; [apply Qnot_le_lt | apply Qlt_not_le].
Qed.

Lemma in_window_spec (start t : Q) :
  in_window start t = true <-> (start <= t /\ t < start + 60)%Q.
Proof.
  unfold in_window.
  rewrite andb_true_iff, negb_true_iff, <- not_true_iff_false, !Qle_bool_iff.
  split; intros [H1 H2]; (split; [exact H1 | ]);
    [apply Qnot_le_lt | apply Qlt_not_le]; exact H2.
Qed.

Lemma filter_length_le {A : Type} (f g : A -> bool) (l : list A) :
  (forall x, f x = true -> g x = true) ->
  (List.length (filter f l) <= List.length (filter g l))%nat.
Proof.
  intros Himp. induction l as [ | x xs IH]; cbn [filter]; [lia | ].
  destruct (f x) eqn:Ef.
  - rewrite (Himp x Ef). cbn [List.length]. lia.
  - destruct (g x); cbn [List.length]; lia.
Qed.

Lemma filter_filter_narrow {A : Type} (f g : A -> bool) (l : list A) :
  (forall x, f x = true -> g x = true) ->
  filter f (filter g l) = filter f l.
Proof.
  intros Himp. induction l as [ | x xs IH]; cbn [filter]; [reflexivity | ].
  destruct (g x) eqn:Eg; cbn [filter].
  - rewrite IH. reflexivity.
  - destruct (f x) eqn:Ef; [ | exact IH].
    rewrite (Himp x Ef) in Eg. discriminate Eg.
Qed.

Lemma recent_later (now now' t : Q) :
  (now <= now')%Q -> recent now' t = true -> recent now t = true.
Proof. rewrite !recent_spec. intros H1 H2. lra. Qed.

Section Sequential.

Variable N : Z.
Hypothesis N_positive : 1 <= N.

Lemma acquire_in_turn_step (clock now late : Q) (times granted : list Q) :
  in_turn_invariant N clock times granted ->
  (clock <= now)%Q -> (0 <= late)%Q ->
  exists times' time,
    acquire (mkRateLimiter N times) now late =
      Some (mkRateLimiter N times', time) /\
    (now <= time)%Q /\
    in_turn_invariant N time times' (granted ++ [time]).
Proof.
  intros [Hsame [Hrecent Hwin]] Hnow Hlate.
  (* the permits a window holding [time] can share with it *)
  assert (Hstep : forall kept time,
            (now <= time)%Q ->
            filter (recent now) times = kept ->
            Py.len (filter (recent time) granted) <= N - 1 ->
            in_turn_invariant N time (kept ++ [time]) (granted ++ [time])).
  { intros kept time Htime Hkept Hkey. split; [ | split].
    - intros y Hy. rewrite !filter_app. f_equal.
      rewrite <- Hkept, (Hsame now Hnow).
      apply filter_filter_narrow. intros t. apply recent_later. lra.
    - intros y Hy. rewrite filter_app. unfold Py.len in *.
      rewrite length_app.
      assert (H1 : (List.length (filter (recent y) granted)
                    <= List.length (filter (recent time) granted))%nat).
      { apply filter_length_le. intros t. apply recent_later. exact Hy. }
      assert (H2 : (List.length (filter (recent y) [time]) <= 1)%nat).
      { cbn [filter]. destruct (recent y time); cbn; lia. }
      lia.
    - intros start. unfold permits_in_window. rewrite filter_app.
      unfold Py.len in *. rewrite length_app. cbn [filter].
      destruct (in_window start time) eqn:Ew; cbn [List.length].
      + apply in_window_spec in Ew.
        assert (H1 : (List.length (filter (in_window start) granted)
                      <= List.length (filter (recent time) granted))%nat).
        { apply filter_length_le. intros t Ht.
          apply in_window_spec in Ht. apply recent_spec. lra. }
        lia.
      + specialize (Hwin start). unfold permits_in_window, Py.len in Hwin.
        lia. }
  unfold acquire, acquire_enter. cbn [request_times rpm].
  destruct (filter (recent now) times) as [ | oldest rest] eqn:Hkept.
  - (* empty window *)
    assert (Hle : (N <=? Py.len (@nil Q)) = false)
      by (apply Z.leb_gt; cbn; lia).
    rewrite Hle. cbn [acquire_append request_times rpm].
    eexists. eexists. split; [reflexivity | ].
    split; [lra | ].
    apply Hstep; [lra | reflexivity | ].
    assert (H1 : (List.length (filter (recent (now + late)) granted)
                  <= List.length (filter (recent now) granted))%nat).
    { apply filter_length_le. intros t. apply recent_later. lra. }
    rewrite <- (Hsame now Hnow), Hkept in H1. cbn in H1.
    unfold Py.len. lia.
  - destruct (N <=? Py.len (oldest :: rest)) eqn:Hfull.
    + (* the window is full: sleep *)
      cbn [acquire_append request_times rpm].
      assert (Hold : recent now oldest = true).
      { assert (Hin : In oldest (filter (recent now) times))
          by (rewrite Hkept; left; reflexivity).
        apply filter_In in Hin. exact (proj2 Hin). }
      apply recent_spec in Hold.
      eexists. eexists. split; [reflexivity | ].
      split; [lra | ].
      apply Hstep; [lra | reflexivity | ].
      set (time := (now + (60 - (now - oldest)) + late)%Q).
      assert (Hnarrow : filter (recent time) granted
                        = filter (recent time) rest).
      { rewrite <- (filter_filter_narrow (recent time) (recent now)).
        - rewrite <- (Hsame now Hnow), Hkept. cbn [filter].
          assert (Hgone : recent time oldest = false).
          { apply not_true_iff_false. rewrite recent_spec. subst time. lra. }
          rewrite Hgone. reflexivity.
        - intros t. apply recent_later. subst time. lra. }
      rewrite Hnarrow.
      assert (H1 : (List.length (filter (recent time) rest)
                    <= List.length rest)%nat)
        by (pose proof (filter_length (recent time) rest); lia).
      specialize (Hrecent now Hnow).
      rewrite <- (Hsame now Hnow), Hkept in Hrecent.
      unfold Py.len in *. cbn [List.length] in Hrecent. lia.
    + (* room left *)
      cbn [acquire_append request_times rpm].
      eexists. eexists. split; [reflexivity | ].
      split; [lra | ].
      apply Hstep; [lra | reflexivity | ].
      apply Z.leb_gt in Hfull.
      assert (H1 : (List.length (filter (recent (now + late)) granted)
                    <= List.length (filter (recent now) granted))%nat).
      { apply filter_length_le. intros t. apply recent_later. lra. }
      rewrite <- (Hsame now Hnow), Hkept in H1.
      unfold Py.len in *. lia.
Qed.

Lemma acquire_in_turn_invariant (calls : list (Q * Q)) :
  forall clock times granted,
    in_turn_invariant N clock times granted ->
    Forall (fun c => 0 <= fst c /\ 0 <= snd c)%Q calls ->
    exists times' permits,
      acquire_in_turn (mkRateLimiter N times) clock calls =
        Some (mkRateLimiter N times', permits) /\
      List.length permits = List.length calls /\
      forall start, permits_in_window start (granted ++ permits) <= N.
Proof.
  induction calls as [ | [idle late] rest IH];
    intros clock times granted Hinv Hcalls.
  - exists times, []. split; [reflexivity | ]. split; [reflexivity | ].
    rewrite app_nil_r. exact (proj2 (proj2 Hinv)).
  - inversion Hcalls as [ | ? ? [Hidle Hlate] Hrest]; subst.
    cbn [fst snd] in Hidle, Hlate.
    destruct (acquire_in_turn_step clock (clock + idle) late times granted
                Hinv ltac:(lra) Hlate) as [times1 [time [Hacq [_ Hinv1]]]].
    destruct (IH time times1 (granted ++ [time]) Hinv1 Hrest)
      as [times2 [permits [Hrun [Hlen Hwin]]]].
    exists times2, (time :: permits).
    cbn [acquire_in_turn]. rewrite Hacq, Hrun.
    split; [reflexivity | ]. split; [cbn; lia | ].
    intros start. rewrite <- app_assoc in Hwin. exact (Hwin start).
Qed.

End Sequential.

(** X9.  Calls made in turn never put more than [N] permits in a window of
    60 seconds, and none of them raises. *)
Theorem rate_limiter_in_turn (N : Z) (clock : Q) (calls : list (Q * Q)) :
  1 <= N ->
  Forall (fun c => 0 <= fst c /\ 0 <= snd c)%Q calls ->
  exists self permits,
    acquire_in_turn (__init__ N) clock calls = Some (self, permits) /\
    List.length permits = List.length calls /\
    forall start, permits_in_window start permits <= N.
Proof.
  intros HN Hcalls.
  destruct (acquire_in_turn_invariant N HN calls clock [] []) as
    [times [permits [Hrun [Hlen Hwin]]]].
  - split; [ | split].
    + intros now _. reflexivity.
    + intros now _. cbn. lia.
    + intros start. cbn. lia.
  - exact Hcalls.
  - exists (mkRateLimiter N times), permits. split; [exact Hrun | ].
    split; [exact Hlen | exact Hwin].
Qed.

(** C9 (the code at the failing input).  A limiter of capacity 2 has
    granted permits at 0 s and 10 s.  Two coroutines call [acquire] at 11 s
    and 12 s: each finds the window full and sleeps until the request of
    0 s expires; both resume at 60 s and both record a permit, nothing being
    checked again after the sleep.  The window from 10 s to 70 s then holds
    three permits. *)
Theorem rate_limiter_concurrent_burst :
  option_map (fun s => (map Qred (request_times (limiter s)), parked s))
    (run (mkLoop (__init__ 2) [] 0)
         [Call 0 0; Call 1 10; Call 2 11; Call 3 12; Wake 2 60; Wake 3 60])
    = Some ([0; 10; 60; 60]%Q, []) /\
  permits_in_window 10 [0; 10; 60; 60]%Q = 3 /\
  rpm (__init__ 2) < 3.
Proof.
  split; [vm_compute; reflexivity | ].
  split; [vm_compute; reflexivity | reflexivity].
Qed.

End RateLimiterFacts.

(** ** The document store *)

Section StoreFacts.
Import Store.
Local Open Scope list_scope.

Lemma filter_Removed (i : Z) (docs : list Document) :
  Removed i docs (filter (fun doc => negb (id doc =? i)) docs).
Proof.
  induction docs as [ | doc rest IH]; cbn [filter].
  - constructor.
  - destruct (id doc =? i) eqn:E; cbn [negb].
    + apply Z.eqb_eq in E. apply Removed_drop; assumption.
    + apply Z.eqb_neq in E. apply Removed_keep; assumption.
Qed.

(** [Removed] leaves no choice: the list after is determined by the list
    before. *)
Lemma Removed_functional (i : Z) (before after after' : list Document) :
  Removed i before after -> Removed i before after' -> after = after'.
Proof.
  intros H. revert after'.
  induction H as [ | doc before after Hid _ IH | doc before after Hid _ IH];
    intros after' H'; inversion H'; subst; try contradiction.
  - reflexivity.
  - apply IH. assumption.
  - f_equal. apply IH. assumption.
Qed.

(** C10.  After [deleteDocument(i)] the list is the old one without the
    documents of id [i], the others unchanged and in their order; no document
    of the new list has id [i]; [currentDocument] is null when it had id [i]
    and is unchanged otherwise; the loading and error states are untouched. *)
Theorem deleteDocument_removes (i : Z) (state : DocumentState) :
  Removed i (documents state) (documents (deleteDocument i state)) /\
  Forall (fun doc => id doc <> i) (documents (deleteDocument i state)) /\
  currentDocument (deleteDocument i state) =
    match currentDocument state with
    | Some doc => if id doc =? i then None else Some doc
    | None => None
    end /\
  loading (deleteDocument i state) = loading state /\
  errors (deleteDocument i state) = errors state.
Proof.
  split; [apply filter_Removed | ].
  split.
  - apply Forall_forall. intros doc Hin. cbn [deleteDocument documents] in Hin.
    apply filter_In in Hin. destruct Hin as [_ Hne].
    apply negb_true_iff, Z.eqb_neq in Hne. exact Hne.
  - split; [ | split; reflexivity].
    unfold deleteDocument, current_has_id. cbn [currentDocument].
    destruct (currentDocument state) as [doc | ]; [ | reflexivity].
    destruct (id doc =? i); reflexivity.
Qed.

End StoreFacts.

(* ====================================================================== *)
(** * Part III: further properties of the same code *)
(* ====================================================================== *)

(** ** The validators *)

Section MindmapMore.
Import Mindmap.
Local Open Scope list_scope.

Lemma check_accepts_iff (o : obj) (depth : Z) :
  check o depth = None <->
  (well_formed o = true /\ depth + Z.of_nat (tree_depth o) <= 10).
Proof.
  split.
  - apply check_accepts.
  - intros [Hwf Hd]. rewrite (check_well_formed o Hwf depth).
    apply Z.ltb_ge in Hd. rewrite Hd. reflexivity.
Qed.

(** X1.  Started at any depth, each validator returns normally exactly on
    the trees in which every node has a string title and a list of at most
    100 children and no node lies deeper than level 10. *)
Theorem mindmap_accepts_iff (o : obj) (depth : Z) :
  (_validate_mindmap_structure o depth = Returns <->
   (well_formed o = true /\ depth + Z.of_nat (tree_depth o) <= 10)) /\
  (validate_node o depth = Returns <->
   (well_formed o = true /\ depth + Z.of_nat (tree_depth o) <= 10)).
Proof.
  rewrite validate_service_check, validate_node_check, !raise_as_returns.
  split; apply check_accepts_iff.
Qed.

Lemma chain_depth (n : nat) : tree_depth (chain n) = n.
Proof.
  induction n as [ | n IH]; [reflexivity | ].
  cbn [chain tree_depth fold_right]. rewrite IH. lia.
Qed.

Lemma chain_well_formed (n : nat) : well_formed (chain n) = true.
Proof.
  induction n as [ | n IH]; [reflexivity | ].
  apply well_formed_node. split; [reflexivity | ].
  constructor; [exact IH | constructor].
Qed.

Lemma fan_depth (s : string) (k : nat) :
  (tree_depth (fan s k (leaf "item")) <= 1)%nat.
Proof.
  unfold fan. cbn [tree_depth].
  induction k as [ | k IH]; cbn [repeat fold_right]; [lia | ].
  cbn [leaf tree_depth fold_right]. lia.
Qed.

Lemma fan_well_formed (s : string) (k : nat) :
  well_formed (fan s k (leaf "item")) = true <-> (k <= 100)%nat.
Proof.
  unfold fan. rewrite well_formed_node. cbn [node_ok]. unfold Py.len.
  rewrite repeat_length, Z.leb_le. split.
  - intros [H _]. lia.
  - intros H. split; [lia | ].
    apply Forall_forall. intros c Hc. apply repeat_spec in Hc. subst c.
    reflexivity.
Qed.

(** X2.  The two limits are inclusive and the root counts as level 0: a
    chain of [n] nested children (n + 1 levels) is accepted exactly when
    [n <= 10], and a node with [k] childless children exactly when
    [k <= 100]. *)
Theorem mindmap_limits_inclusive (n k : nat) :
  (_validate_mindmap_structure (chain n) 0 = Returns <-> (n <= 10)%nat) /\
  (_validate_mindmap_structure (fan "root" k (leaf "item")) 0 = Returns <->
   (k <= 100)%nat).
Proof.
  rewrite !validate_service_check, !raise_as_returns, !check_accepts_iff.
  rewrite chain_depth, chain_well_formed, fan_well_formed.
  pose proof (fan_depth "root" k) as Hk.
  split; split; intros H; try split; try tauto; lia.
Qed.

End MindmapMore.

(** ** The generation calls *)

Section GenerationMore.
Import Gemini.
Local Open Scope list_scope.

(** X3.  An object returned by [generate_mindmap] has passed the validator:
    it is the parse of the reply (stripped, code fences removed), every node
    has a string title and at most 100 children, and no node is deeper than
    level 10. *)
Theorem generate_mindmap_validated
  (client : GenerationCall -> result string)
  (json_loads : string -> Mindmap.obj + string)
  (self : GeminiService) (document_text : string) (max_output_tokens : Z)
  (o : Mindmap.obj)
  (Hret : snd (generate_mindmap client json_loads self document_text
                                max_output_tokens) = Return o) :
  Mindmap.well_formed o = true /\
  (Mindmap.tree_depth o <= 10)%nat /\
  exists text,
    client (mkGenerationCall (mindmap_prompt document_text) 0.2
                             max_output_tokens 20) = Return text /\
    json_loads (replace (replace (strip text) "```json" "") "```" "") = inl o.
Proof.
  unfold generate_mindmap in Hret.
  destruct (client _) as [text | e] eqn:Hc; [ | discriminate Hret].
  destruct (json_loads _) as [parsed | msg] eqn:Hj; [ | discriminate Hret].
  destruct (Mindmap._validate_mindmap_structure parsed 0) eqn:Hv;
    [ | discriminate Hret].
  cbn [snd] in Hret. injection Hret as <-.
  rewrite validate_service_check, raise_as_returns in Hv.
  apply check_accepts in Hv. destruct Hv as [Hwf Hd].
  split; [exact Hwf | ]. split; [lia | ].
  exists text. split; [reflexivity | exact Hj].
Qed.

(** The reply is a fenced mindmap of four nodes on three levels. *)
Lemma generate_mindmap_validated_witness :
  Mindmap.well_formed reply_object = true /\
  (Mindmap.tree_depth reply_object <= 10)%nat /\
  exists text,
    (fun _ : GenerationCall => Return fenced_reply)
      (mkGenerationCall (mindmap_prompt "T") 0.2 2000 20) = Return text /\
    json_loads_reply (replace (replace (strip text) "```json" "") "```" "")
    = inl reply_object.
Proof.
  apply (generate_mindmap_validated
           (fun _ => Return fenced_reply) json_loads_reply
           (mkGeminiService [] [] 0) "T" 2000 reply_object).
  vm_compute. reflexivity.
Defined.

End GenerationMore.

(** ** [retry_with_backoff], attempt by attempt *)

Section RetryMore.
Import Gemini.
Local Open Scope list_scope.

Variable A : Type.
Variable func : nat -> result A.
Variable uniform_0_1 : nat -> Q.
Variable max_retries : Z.
Variable base_delay : Q.

(** The loop up to the first attempt that does not fail with a retried
    error: it sleeps once after each attempt before it and stops there. *)
Lemma attempts_until_decisive (k : nat) :
  forall first rest slept,
    Z.of_nat (first + k) < max_retries ->
    (forall j, (first <= j < first + k)%nat ->
               exists e, func j = Raise e /\ retried e = true) ->
    match func (first + k)%nat with
    | Return _ => True
    | Raise e => retried e = false
    end ->
    attempts A func uniform_0_1 max_retries base_delay
             (seq first (S k) ++ rest) slept =
    (match func (first + k)%nat with
     | Return a => Returned a
     | Raise e => Raised e
     end,
     slept ++ map (delay uniform_0_1 base_delay) (seq first k)).
Proof.
  induction k as [ | k IH]; intros first rest slept Hlt Hfail Hdec.
  - rewrite Nat.add_0_r in *. cbn [seq app attempts map].
    rewrite app_nil_r.
    destruct (func first) as [a | e]; [reflexivity | ].
    destruct e; try discriminate Hdec; reflexivity.
  - destruct (Hfail first ltac:(lia)) as [e [He Hr]].
    change (seq first (S (S k)) ++ rest)
      with (first :: (seq (S first) (S k) ++ rest)).
    cbn [attempts]. rewrite He.
    assert (Hne : (Z.of_nat first =? max_retries - 1) = false)
      by (apply Z.eqb_neq; lia).
    replace (first + S k)%nat with (S first + k)%nat in * by lia.
    destruct e; try discriminate Hr; rewrite Hne;
      (rewrite IH; [ | lia | intros j Hj; apply Hfail; lia | exact Hdec]);
      cbn [seq map]; rewrite <- app_assoc; reflexivity.
Qed.

(** X4.  When the first [k] attempts fail with a retried error and attempt
    [k + 1] (still within [max_retries]) returns a value, that value is
    returned after exactly [k] sleeps, the n-th of them lasting
    [base_delay * 2^(n-1)] plus its jitter. *)
Theorem retry_returns_first_success (k : nat) (a : A)
  (Hlt : Z.of_nat k < max_retries)
  (Hfail : forall j, (j < k)%nat ->
                     exists e, func j = Raise e /\ retried e = true)
  (Hok : func k = Return a) :
  retry_with_backoff A func uniform_0_1 max_retries base_delay =
  (Returned a,
   map (fun attempt =>
          base_delay * inject_Z (2 ^ Z.of_nat attempt) + uniform_0_1 attempt)%Q
       (seq 0 k)).
Proof.
  unfold retry_with_backoff.
  replace (seq 0 (Z.to_nat max_retries))
    with (seq 0 (S k) ++ seq (S k) (Z.to_nat max_retries - S k)).
  - rewrite (attempts_until_decisive k 0%nat); cbn [Nat.add].
    + rewrite Hok. reflexivity.
    + exact Hlt.
    + intros j Hj. apply Hfail. lia.
    + rewrite Hok. exact I.
  - rewrite <- seq_app. f_equal. lia.
Qed.

(** X5.  An exception that is neither [TimeoutError] nor [RateLimitError]
    is never retried nor wrapped: raised by attempt [k + 1] after [k] retried
    failures, it leaves [retry_with_backoff] unchanged, and no sleep follows
    it. *)
Theorem retry_propagates_other_errors (k : nat) (e : exn)
  (Hlt : Z.of_nat k < max_retries)
  (Hfail : forall j, (j < k)%nat ->
                     exists e', func j = Raise e' /\ retried e' = true)
  (Hraise : func k = Raise e)
  (Hother : retried e = false) :
  retry_with_backoff A func uniform_0_1 max_retries base_delay =
  (Raised e,
   map (fun attempt =>
          base_delay * inject_Z (2 ^ Z.of_nat attempt) + uniform_0_1 attempt)%Q
       (seq 0 k)).
Proof.
  unfold retry_with_backoff.
  replace (seq 0 (Z.to_nat max_retries))
    with (seq 0 (S k) ++ seq (S k) (Z.to_nat max_retries - S k)).
  - rewrite (attempts_until_decisive k 0%nat); cbn [Nat.add].
    + rewrite Hraise. reflexivity.
    + exact Hlt.
    + intros j Hj. apply Hfail. lia.
    + rewrite Hraise. exact Hother.
  - rewrite <- seq_app. f_equal. lia.
Qed.

(** X6.  With [max_retries <= 0] the function is never awaited:
    [retry_with_backoff] falls out of its loop and returns [None] without
    sleeping, whatever [func] would have done. *)
Theorem retry_without_attempts (Hnone : max_retries <= 0) :
  retry_with_backoff A func uniform_0_1 max_retries base_delay
  = (FellThrough, []).
Proof.
  unfold retry_with_backoff.
  replace (Z.to_nat max_retries) with 0%nat by lia. reflexivity.
Qed.

Lemma pow2_succ (k : nat) :
  (inject_Z (2 ^ Z.of_nat (S k)) == 2 * inject_Z (2 ^ Z.of_nat k))%Q.
Proof.
  rewrite Nat2Z.inj_succ, Z.pow_succ_r by lia.
  rewrite inject_Z_mult. reflexivity.
Qed.

Lemma pow2_mono (k n : nat) :
  (k <= n)%nat ->
  (inject_Z (2 ^ Z.of_nat k) <= inject_Z (2 ^ Z.of_nat n))%Q.
Proof.
  intros H. rewrite <- Zle_Qle. apply Z.pow_le_mono_r; lia.
Qed.

(** The sleeps after [n] attempts in a row, from attempt [first] on, add up
    to at most the geometric sum of their deterministic parts plus one
    second of jitter each. *)
Lemma delays_sum (n : nat) :
  (0 <= base_delay)%Q ->
  (forall k, 0 <= uniform_0_1 k <= 1)%Q ->
  forall first,
    (fold_right Qplus 0 (map (delay uniform_0_1 base_delay) (seq first n))
     <= base_delay * (inject_Z (2 ^ Z.of_nat (first + n))
                      - inject_Z (2 ^ Z.of_nat first))
        + inject_Z (Z.of_nat n))%Q.
Proof.
  intros Hb Hu. induction n as [ | n IH]; intros first.
  - cbn [seq map fold_right]. rewrite Nat.add_0_r.
    change (inject_Z (Z.of_nat 0)) with 0%Q.
    set (x := inject_Z (2 ^ Z.of_nat first)).
    assert (H0 : (base_delay * (x - x) + 0 == 0)%Q) by ring.
    rewrite H0. apply Qle_refl.
  - cbn [seq map fold_right]. specialize (IH (S first)).
    replace (first + S n)%nat with (S first + n)%nat by lia.
    pose proof (pow2_succ first) as H2.
    rewrite Nat2Z.inj_succ, <- Z.add_1_r, inject_Z_plus.
    unfold delay at 1.
    destruct (Hu first) as [_ Hu1].
    set (P := inject_Z (2 ^ Z.of_nat (S first + n))) in *.
    set (x := inject_Z (2 ^ Z.of_nat first)) in *.
    set (y := inject_Z (2 ^ Z.of_nat (S first))) in *.
    set (S' := fold_right Qplus 0%Q _) in *.
    assert (Hy : (base_delay * y == 2 * (base_delay * x))%Q)
      by (rewrite H2; ring).
    assert (Hd : (base_delay * (P - y) == base_delay * P - base_delay * y)%Q)
      by ring.
    assert (Hg : (base_delay * (P - x) == base_delay * P - base_delay * x)%Q)
      by ring.
    rewrite Hg. rewrite Hd in IH. rewrite Hy in IH.
    change (inject_Z 1) with 1%Q. lra.
Qed.

(** X7.  Whatever [func] does, the time [retry_with_backoff] spends asleep
    is bounded: with a jitter in [0, 1] (as [random.uniform(0, 1)] gives)
    the sleeps add up to at most [base_delay * (2^(max_retries-1) - 1)]
    plus one second for each of the [max_retries - 1] possible sleeps. *)
Theorem retry_sleep_bounded
  (Hattempts : 1 <= max_retries)
  (Hbase : (0 <= base_delay)%Q)
  (Hjitter : forall k, (0 <= uniform_0_1 k <= 1)%Q) :
  (fold_right Qplus 0
     (snd (retry_with_backoff A func uniform_0_1 max_retries base_delay))
   <= base_delay * (inject_Z (2 ^ (max_retries - 1)) - 1)
      + inject_Z (max_retries - 1))%Q.
Proof.
  destruct (attempts_slept A func uniform_0_1 max_retries base_delay
              (Z.to_nat max_retries) 0%nat []) as [k [Hk [Hnl Hs]]].
  assert (Hk' : (k <= Z.to_nat (max_retries - 1))%nat).
  { destruct (Nat.le_gt_cases k (Z.to_nat (max_retries - 1))) as [H | H];
      [exact H | ].
    exfalso. apply (Hnl (Z.to_nat (max_retries - 1))); lia. }
  unfold retry_with_backoff. rewrite Hs. cbn [app].
  eapply Qle_trans; [apply (delays_sum k Hbase Hjitter 0%nat) | ].
  cbn [Nat.add]. change (inject_Z (2 ^ Z.of_nat 0)) with 1%Q.
  pose proof (pow2_mono k (Z.to_nat (max_retries - 1)) Hk') as Hp.
  rewrite Z2Nat.id in Hp by lia.
  assert (Hn : (inject_Z (Z.of_nat k) <= inject_Z (max_retries - 1))%Q)
    by (rewrite <- Zle_Qle; lia).
  set (p := inject_Z (2 ^ Z.of_nat k)) in *.
  set (q := inject_Z (2 ^ (max_retries - 1))) in *.
  assert (Hm : (0 <= base_delay * (q - p))%Q)
    by (apply Qmult_le_0_compat; [exact Hbase | lra]).
  assert (He : (base_delay * (q - p)
                == base_delay * (q - 1) - base_delay * (p - 1))%Q) by ring.
  rewrite He in Hm. lra.
Qed.

End RetryMore.

Section RetryMoreWitnesses.
Import Gemini.
Local Open Scope list_scope.

(** Two timeouts, then a summary. *)
Lemma retry_returns_first_success_witness :
  retry_with_backoff string
    (fun n => if (n <? 2)%nat then Raise (TimeoutError "timed out")
              else Return "- a")
    (fun _ => 0%Q) 3 1 =
  (Returned "- a",
   map (fun attempt => 1 * inject_Z (2 ^ Z.of_nat attempt) + 0)%Q (seq 0 2)).
Proof.
  apply (retry_returns_first_success string
           (fun n => if (n <? 2)%nat then Raise (TimeoutError "timed out")
                     else Return "- a")
           (fun _ => 0%Q) 3 1 2 "- a").
  - lia.
  - intros j Hj. exists (TimeoutError "timed out").
    destruct j as [ | [ | j]]; [split; reflexivity | split; reflexivity | lia].
  - reflexivity.
Defined.

(** A rate-limit error, then an invalid API key. *)
Lemma retry_propagates_other_errors_witness :
  retry_with_backoff string
    (fun n => if (n <? 1)%nat then Raise (RateLimitError "429")
              else Raise (NonRetryableError "INVALID_API_KEY"))
    (fun _ => 0%Q) 3 1 =
  (Raised (NonRetryableError "INVALID_API_KEY"),
   map (fun attempt => 1 * inject_Z (2 ^ Z.of_nat attempt) + 0)%Q (seq 0 1)).
Proof.
  apply (retry_propagates_other_errors string
           (fun n => if (n <? 1)%nat then Raise (RateLimitError "429")
                     else Raise (NonRetryableError "INVALID_API_KEY"))
           (fun _ => 0%Q) 3 1 1 (NonRetryableError "INVALID_API_KEY")).
  - lia.
  - intros j Hj. exists (RateLimitError "429").
    destruct j as [ | j]; [split; reflexivity | lia].
  - reflexivity.
  - reflexivity.
Defined.

(** No attempt at all. *)
Lemma retry_without_attempts_witness :
  retry_with_backoff string (fun _ => Return "- a") (fun _ => 0%Q) 0 1
  = (FellThrough, []).
Proof.
  apply (retry_without_attempts string (fun _ => Return "- a") (fun _ => 0%Q)
                                0 1).
  lia.
Defined.

(** The defaults, three attempts that all time out and half a second of
    jitter: at most 1 * (4 - 1) + 2 = 5 seconds asleep. *)
Lemma retry_sleep_bounded_witness :
  (fold_right Qplus 0
     (snd (retry_with_backoff string
             (fun _ => Raise (TimeoutError "timed out"))
             (fun _ => 1 # 2) 3 1))
   <= 1 * (inject_Z (2 ^ (3 - 1)) - 1) + inject_Z (3 - 1))%Q.
Proof.
  apply (retry_sleep_bounded string
           (fun _ => Raise (TimeoutError "timed out")) (fun _ => 1 # 2) 3 1).
  - lia.
  - vm_compute. discriminate.
  - intros k. split; vm_compute; discriminate.
Defined.

End RetryMoreWitnesses.

(** ** The rate limiter, call by call *)

Section RateLimiterMore.
Import RateLimiter.
Local Open Scope list_scope.

(** What a call leaves in the list: the timestamps younger than 60 seconds
    and the new one. *)
Lemma acquire_request_times (self self' : RateLimiter) (now late time : Q) :
  acquire self now late = Some (self', time) ->
  rpm self' = rpm self /\
  request_times self' = filter (recent now) (request_times self) ++ [time].
Proof.
  unfold acquire, acquire_enter. cbn [rpm request_times].
  destruct (rpm self <=? Py.len (filter (recent now) (request_times self))).
  - destruct (filter (recent now) (request_times self)) as [ | oldest rest];
      [discriminate | ].
    intros H. injection H as <- <-. split; reflexivity.
  - intros H. injection H as <- <-. split; reflexivity.
Qed.

Lemma acquire_in_turn_bounded (N : Z) (HN : 1 <= N) (calls : list (Q * Q)) :
  forall clock times granted,
    in_turn_invariant N clock times granted ->
    Py.len times <= N + 1 ->
    Forall (fun c => 0 <= fst c /\ 0 <= snd c)%Q calls ->
    exists times' permits,
      acquire_in_turn (mkRateLimiter N times) clock calls =
        Some (mkRateLimiter N times', permits) /\
      Py.len times' <= N + 1.
Proof.
  induction calls as [ | [idle late] rest IH];
    intros clock times granted Hinv Hlen Hcalls.
  - exists times, []. split; [reflexivity | exact Hlen].
  - inversion Hcalls as [ | ? ? [Hidle Hlate] Hrest]; subst.
    cbn [fst snd] in Hidle, Hlate.
    destruct (acquire_in_turn_step N HN clock (clock + idle) late times granted
                Hinv ltac:(lra) Hlate) as [times1 [time [Hacq [_ Hinv1]]]].
    assert (Hlen1 : Py.len times1 <= N + 1).
    { destruct (acquire_request_times _ _ _ _ _ Hacq) as [_ Htimes].
      cbn [request_times] in Htimes. rewrite Htimes.
      destruct Hinv as [Hsame [Hrecent _]].
      assert (Hnow : (clock <= clock + idle)%Q) by lra.
      specialize (Hrecent _ Hnow). rewrite <- (Hsame _ Hnow) in Hrecent.
      unfold Py.len in *. rewrite length_app. cbn [List.length]. lia. }
    destruct (IH time times1 (granted ++ [time]) Hinv1 Hlen1 Hrest)
      as [times2 [permits [Hrun Hlen2]]].
    exists times2, (time :: permits).
    cbn [acquire_in_turn]. rewrite Hacq, Hrun.
    split; [reflexivity | exact Hlen2].
Qed.

(** X10.  Used by one caller at a time, a limiter of capacity [N >= 1] never
    holds more than [N + 1] timestamps: the expired ones are dropped at each
    call, so the list does not grow with the number of calls. *)
Theorem request_times_bounded (N : Z) (clock : Q) (calls : list (Q * Q))
  (HN : 1 <= N)
  (Hcalls : Forall (fun c => 0 <= fst c /\ 0 <= snd c)%Q calls) :
  exists self permits,
    acquire_in_turn (__init__ N) clock calls = Some (self, permits) /\
    Py.len (request_times self) <= N + 1.
Proof.
  destruct (acquire_in_turn_bounded N HN calls clock [] []) as
    [times [permits [Hrun Hlen]]].
  - split; [ | split].
    + intros now _. reflexivity.
    + intros now _. cbn. lia.
    + intros start. cbn. lia.
  - cbn. lia.
  - exact Hcalls.
  - exists (mkRateLimiter N times), permits. split; [exact Hrun | exact Hlen].
Qed.

(** X11.  A limiter built with [requests_per_minute <= 0] cannot grant a
    permit: a call that finds no timestamp younger than 60 seconds (the first
    call, for one) raises [IndexError] on [request_times[0]]. *)
Theorem acquire_without_capacity (self : RateLimiter) (now late : Q)
  (Hrpm : rpm self <= 0)
  (Hold : forall t, In t (request_times self) -> (60 <= now - t)%Q) :
  acquire_enter self now = IndexError /\ acquire self now late = None.
Proof.
  assert (He : acquire_enter self now = IndexError).
  { unfold acquire_enter.
    assert (Hnil : filter (recent now) (request_times self) = []).
    { induction (request_times self) as [ | t ts IH]; [reflexivity | ].
      cbn [filter].
      assert (Ht : recent now t = false).
      { apply not_true_iff_false. rewrite recent_spec.
        specialize (Hold t (or_introl eq_refl)). lra. }
      rewrite Ht. apply IH. intros t' Hin. apply Hold. right. exact Hin. }
    rewrite Hnil. cbn [rpm].
    assert (Hle : (rpm self <=? Py.len (@nil Q)) = true)
      by (apply Z.leb_le; cbn; lia).
    rewrite Hle. reflexivity. }
  split; [exact He | ]. unfold acquire. rewrite He. reflexivity.
Qed.

End RateLimiterMore.

Section RateLimiterMoreWitnesses.
Import RateLimiter.
Local Open Scope list_scope.

(** Sixty requests at 0 s and a call at 1 s, as in the contract test. *)
Lemma acquire_blocks_witness :
  acquire_enter (mkRateLimiter 60 (repeat 0%Q 60)) 1 =
    AwaitSleep (mkRateLimiter 60 (0%Q :: repeat 0%Q 59)) (60 - (1 - 0)) /\
  exists self' time,
    acquire (mkRateLimiter 60 (repeat 0%Q 60)) 1 0 = Some (self', time) /\
    request_times self' = (0%Q :: repeat 0%Q 59) ++ [time] /\
    (time == 1 + (60 - (1 - 0)) + 0)%Q /\
    (0 + 60 <= time)%Q.
Proof.
  apply (acquire_blocks_until_oldest_expires
           (mkRateLimiter 60 (repeat 0%Q 60)) 1 0 0 (repeat 0%Q 59)).
  - vm_compute. reflexivity.
  - vm_compute. discriminate.
  - vm_compute. discriminate.
Defined.

(** Five calls in a row on a limiter of capacity 2. *)
Lemma rate_limiter_in_turn_witness :
  exists self permits,
    acquire_in_turn (__init__ 2) 0
                    [(0, 0); (0, 0); (0, 0); (0, 0); (0, 0)]%Q
      = Some (self, permits) /\
    List.length permits
      = List.length [(0, 0); (0, 0); (0, 0); (0, 0); (0, 0)]%Q /\
    forall start, permits_in_window start permits <= 2.
Proof.
  apply (rate_limiter_in_turn 2 0 [(0, 0); (0, 0); (0, 0); (0, 0); (0, 0)]%Q).
  - lia.
  - repeat constructor; vm_compute; discriminate.
Defined.

Lemma request_times_bounded_witness :
  exists self permits,
    acquire_in_turn (__init__ 2) 0
                    [(0, 0); (0, 0); (0, 0); (0, 0); (0, 0)]%Q
      = Some (self, permits) /\
    Py.len (request_times self) <= 2 + 1.
Proof.
  apply (request_times_bounded 2 0 [(0, 0); (0, 0); (0, 0); (0, 0); (0, 0)]%Q).
  - lia.
  - repeat constructor; vm_compute; discriminate.
Defined.

Lemma acquire_without_capacity_witness :
  acquire_enter (__init__ 0) 5 = IndexError /\ acquire (__init__ 0) 5 0 = None.
Proof.
  apply (acquire_without_capacity (__init__ 0) 5 0).
  - cbn. lia.
  - intros t Hin. destruct Hin.
Defined.

End RateLimiterMoreWitnesses.

(** ** The Axios client, reply by reply *)

Section ClientMore.
Import ApiTypes ApiClient.
Local Open Scope list_scope.

Variable server : nat -> reply.

Lemma request_fulfilled (fuel sent : nat) (c : AxiosRequestConfig)
  (timeouts : list Q) (resp : AxiosResponse) :
  server sent = Fulfilled resp ->
  request server (S fuel) sent c timeouts = Some (Resolved resp, timeouts, S sent).
Proof.
  intros Hs. cbn [request]. rewrite Hs. reflexivity.
Qed.

(** One more reply of a request that has been retried [r < 3] times. *)
Local Ltac next_reply n :=
  let resp := fresh "resp" in
  let Hs := fresh "Hs" in
  let Hr := fresh "Hr" in
  destruct (server n) as [resp | resp] eqn:Hs;
  [ rewrite (request_fulfilled _ _ _ _ _ Hs)
  | rewrite (request_unfold _ _ _ _ _ _ Hs);
    destruct (isRetryable (transformed resp)) eqn:Hr; cbn -[request] ].

(** X12.  Whatever the backend answers, a fresh request is put on the wire
    at most four times (itself and three retries) and always settles; the
    waits between the tries are 1000, 2000 and 4000 ms, in that order. *)
Theorem request_bounded (m u : string) (fuel : nat) :
  exists outcome n,
    (n <= 3)%nat /\
    request server (4 + fuel) 0 (mkRequestConfig m u None) [] =
    Some (outcome, firstn n [1000; 2000; 4000]%Q, S n).
Proof.
  change (4 + fuel)%nat with (S (S (S (S fuel)))).
  next_reply 0%nat; [exists (Resolved resp), 0%nat; split; [lia | reflexivity]
                    | | exists (Rejected (transformed resp)), 0%nat;
                        split; [lia | reflexivity]].
  next_reply 1%nat; [exists (Resolved resp0), 1%nat; split; [lia | reflexivity]
                    | | exists (Rejected (transformed resp0)), 1%nat;
                        split; [lia | reflexivity]].
  next_reply 2%nat; [exists (Resolved resp1), 2%nat; split; [lia | reflexivity]
                    | | exists (Rejected (transformed resp1)), 2%nat;
                        split; [lia | reflexivity]].
  next_reply 3%nat; [exists (Resolved resp2), 3%nat; split; [lia | reflexivity]
                    | exists (Rejected (transformed resp2)), 3%nat;
                      split; [lia | reflexivity]
                    | exists (Rejected (transformed resp2)), 3%nat;
                      split; [lia | reflexivity]].
Qed.

(** X13.  After [k <= 3] failures with a retryable error, the first reply
    that is a response, or a failure whose error is not retryable, settles
    the request: it resolves with that response, or rejects with that error,
    after exactly [k] waits. *)
Theorem request_first_decisive (m u : string) (fuel k : nat)
  (Hk : (k <= 3)%nat)
  (Hfail : forall j, (j < k)%nat ->
                     exists resp, server j = Failed resp /\
                                  isRetryable (transformed resp) = true)
  (Hdecisive : match server k with
               | Fulfilled _ => True
               | Failed resp => isRetryable (transformed resp) = false
               end) :
  request server (4 + fuel) 0 (mkRequestConfig m u None) [] =
  Some (match server k with
        | Fulfilled resp => Resolved resp
        | Failed resp => Rejected (transformed resp)
        end,
        firstn k [1000; 2000; 4000]%Q, S k).
Proof.
  change (4 + fuel)%nat with (S (S (S (S fuel)))).
  assert (Hstep : forall j, (j < k)%nat ->
            exists resp, server j = Failed resp /\
                         isRetryable (transformed resp) = true)
    by exact Hfail.
  destruct k as [ | [ | [ | [ | k]]]]; [ | | | | lia].
  - next_reply 0%nat; try reflexivity.
    cbn beta iota in Hdecisive. congruence.
  - destruct (Hstep 0%nat ltac:(lia)) as [r0 [H0 R0]].
    rewrite (request_unfold _ _ _ _ _ _ H0), R0. cbn -[request].
    next_reply 1%nat; try reflexivity.
    cbn beta iota in Hdecisive. congruence.
  - destruct (Hstep 0%nat ltac:(lia)) as [r0 [H0 R0]].
    destruct (Hstep 1%nat ltac:(lia)) as [r1 [H1 R1]].
    rewrite (request_unfold _ _ _ _ _ _ H0), R0. cbn -[request].
    rewrite (request_unfold _ _ _ _ _ _ H1), R1. cbn -[request].
    next_reply 2%nat; try reflexivity.
    cbn beta iota in Hdecisive. congruence.
  - destruct (Hstep 0%nat ltac:(lia)) as [r0 [H0 R0]].
    destruct (Hstep 1%nat ltac:(lia)) as [r1 [H1 R1]].
    destruct (Hstep 2%nat ltac:(lia)) as [r2 [H2 R2]].
    rewrite (request_unfold _ _ _ _ _ _ H0), R0. cbn -[request].
    rewrite (request_unfold _ _ _ _ _ _ H1), R1. cbn -[request].
    rewrite (request_unfold _ _ _ _ _ _ H2), R2. cbn -[request].
    next_reply 3%nat; try reflexivity.
Qed.

End ClientMore.

Section ClientMoreWitnesses.
Import ApiTypes ApiClient.
Local Open Scope list_scope.

(** Two rate-limit responses, then the document list. *)
Lemma request_first_decisive_witness :
  request (fun n => if (n <? 2)%nat
                    then Failed (Some (mkResponse 429 "Too Many Requests" None))
                    else Fulfilled (mkResponse 200 "OK" None))
          (4 + 0) 0 (mkRequestConfig "GET" "/documents" None) [] =
  Some (match (fun n => if (n <? 2)%nat
                        then Failed (Some (mkResponse 429 "Too Many Requests"
                                                      None))
                        else Fulfilled (mkResponse 200 "OK" None)) 2%nat with
        | Fulfilled resp => Resolved resp
        | Failed resp => Rejected (transformed resp)
        end,
        firstn 2 [1000; 2000; 4000]%Q, 3%nat).
Proof.
  apply (request_first_decisive
           (fun n => if (n <? 2)%nat
                     then Failed (Some (mkResponse 429 "Too Many Requests" None))
                     else Fulfilled (mkResponse 200 "OK" None))
           "GET" "/documents" 0 2).
  - lia.
  - intros j Hj.
    exists (Some (mkResponse 429 "Too Many Requests" None)).
    destruct j as [ | [ | j]]; [split; reflexivity | split; reflexivity | lia].
  - exact I.
Defined.

End ClientMoreWitnesses.

(** ** Error transformation and formatting *)

Section ErrorsMore.
Import ApiTypes.
Local Open Scope list_scope.

(** X14.  When the body of a failed response names no error code, the error
    is flagged retryable, and a fresh request retried, exactly for the
    statuses 408 and 429: a 500, 502, 503 or 504 is rejected at once. *)
Theorem status_fallback_retry_rule
  (statusCode : Z) (detail statusText m u : string)
  (timestamp request_id : option string) :
  isRetryable (ErrorTransform.transformErrorResponse None statusCode) =
    (statusCode =? 408) || (statusCode =? 429) /\
  isRetryable
    (ErrorTransform.transformErrorResponse
       (Some (mkApiErrorResponse "" detail timestamp request_id)) statusCode) =
    (statusCode =? 408) || (statusCode =? 429) /\
  ApiClient.response_error_interceptor
    (ApiClient.mkAxiosError
       (Some (ApiClient.request_interceptor
                (ApiClient.mkRequestConfig m u None)))
       (Some (ApiClient.mkResponse statusCode statusText None))) =
    if (statusCode =? 408) || (statusCode =? 429)
    then ApiClient.Retry (ApiClient.request_interceptor
                            (ApiClient.mkRequestConfig m u None))
    else ApiClient.Reject
           (ErrorTransform.transformErrorResponse None statusCode).
Proof.
  assert (H : isRetryable (ErrorTransform.transformErrorResponse None statusCode)
              = (statusCode =? 408) || (statusCode =? 429))
    by (cbn; apply status_code_retryable).
  split; [exact H | ]. split; [cbn; apply status_code_retryable | ].
  unfold ApiClient.response_error_interceptor, ApiClient.shouldRetry.
  cbn [ApiClient.response ApiClient.error_config ApiClient.request_interceptor
       ApiClient._retry ApiClient.retries ApiClient.status ApiClient.data
       ApiClient.method ApiClient.url].
  change (ApiClient.maxRetries <=? 0) with false. cbv iota.
  rewrite H. reflexivity.
Qed.

(** X15.  Every [ApiError] built from a failed response has a non-empty
    message and the status code of the response.  Its message is the table's
    whenever the table lists its error code.  For a code the table does not
    list and a non-empty [detail], the message is that [detail], unless the
    code is the name of a member of [Object.prototype] ([constructor],
    [toString], ...): the message is then the text of that member. *)
Theorem transformed_error_message
  (response : option ApiErrorResponse) (status : Z) :
  message (ErrorTransform.transformErrorResponse response status) <> "" /\
  statusCode (ErrorTransform.transformErrorResponse response status) = status /\
  (forall m,
      ErrorTransform.lookup ErrorTransform.ERROR_MESSAGES
        (errorCode (ErrorTransform.transformErrorResponse response status))
        = Some m ->
      message (ErrorTransform.transformErrorResponse response status) = m) /\
  (forall r,
      response = Some r -> error_code r <> "" -> detail r <> "" ->
      ErrorTransform.lookup ErrorTransform.ERROR_MESSAGES (error_code r) = None ->
      message (ErrorTransform.transformErrorResponse response status) =
      if ErrorTransform.includes JS.Object_prototype (error_code r)
      then JS.member_text (error_code r)
      else detail r).
Proof.
  assert (Hknown : forall code m b,
            ErrorTransform.lookup ErrorTransform.ERROR_MESSAGES code = Some m ->
            ErrorTransform.or_else (Some m) b = m).
  { intros code m b Hm. cbn. apply transform_message_known in Hm.
    apply String.eqb_neq in Hm. rewrite Hm. reflexivity. }
  assert (Hfallback :
            ErrorTransform.or_else
              (ErrorTransform.lookup ErrorTransform.ERROR_MESSAGES
                 (ErrorTransform.mapStatusCodeToErrorCode status)) "" <> "" /\
            forall m,
              ErrorTransform.lookup ErrorTransform.ERROR_MESSAGES
                (ErrorTransform.mapStatusCodeToErrorCode status) = Some m ->
              ErrorTransform.or_else
                (ErrorTransform.lookup ErrorTransform.ERROR_MESSAGES
                   (ErrorTransform.mapStatusCodeToErrorCode status)) "" = m).
  { destruct (status_code_has_message status) as [m Hm].
    split.
    - rewrite Hm, (Hknown _ _ _ Hm).
      exact (transform_message_known _ _ Hm).
    - intros m' Hm'. rewrite Hm'. exact (Hknown _ _ _ Hm'). }
  unfold ErrorTransform.transformErrorResponse.
  destruct response as [r | ].
  - destruct (error_code r =? "")%string eqn:E; cbn [negb];
      unfold new_ApiError; cbn [message statusCode errorCode].
    + split; [exact (proj1 Hfallback) | ].
      split; [reflexivity | ]. split.
      * exact (proj2 Hfallback).
      * intros r' Hr' Hcode. injection Hr' as <-.
        apply String.eqb_eq in E. contradiction.
    + destruct (ErrorTransform.lookup ErrorTransform.ERROR_MESSAGES
                  (error_code r)) as [own | ] eqn:Hown.
      * rewrite (get_own _ _ _ Hown).
        split; [ | split; [reflexivity | split]].
        -- rewrite (Hknown _ _ _ Hown).
           exact (transform_message_known _ _ Hown).
        -- intros m Hm. injection Hm as <-. exact (Hknown _ _ _ Hown).
        -- intros r' Hr' _ _ Hnone. injection Hr' as <-. congruence.
      * rewrite (get_not_own _ _ Hown).
        destruct (ErrorTransform.includes JS.Object_prototype (error_code r))
          eqn:Hinherited.
        -- split; [apply member_text_nonempty | ].
           split; [reflexivity | ]. split; [discriminate | ].
           intros r' Hr' _ _ _. injection Hr' as <-.
           rewrite Hinherited. reflexivity.
        -- split; [apply or_else_nonempty; discriminate | ].
           split; [reflexivity | ]. split; [discriminate | ].
           intros r' Hr' _ Hdetail _. injection Hr' as <-.
           rewrite Hinherited.
           cbn. apply String.eqb_neq in Hdetail. rewrite Hdetail.
           reflexivity.
  - unfold new_ApiError; cbn [message statusCode errorCode].
    split; [exact (proj1 Hfallback) | ].
    split; [reflexivity | ]. split.
    + exact (proj2 Hfallback).
    + intros r Hr. discriminate Hr.
Qed.

(** X16.  [getErrorMessage] of the transformation never answers with a
    falsy value: it gives the table's message for a code of the table and
    the message of UNKNOWN_ERROR for a string that is neither in the table
    nor the name of a member of [Object.prototype]; for such a name
    ([constructor], [toString], ...) the answer is no string at all. *)
Theorem getErrorMessage_total (errorCode : string) :
  JS.truthy (ErrorTransform.getErrorMessage errorCode) = true /\
  match ErrorTransform.lookup ErrorTransform.ERROR_MESSAGES errorCode with
  | Some m => ErrorTransform.getErrorMessage errorCode = JS.text m
  | None =>
      if ErrorTransform.includes JS.Object_prototype errorCode
      then forall s, ErrorTransform.getErrorMessage errorCode <> JS.text s
      else ErrorTransform.getErrorMessage errorCode =
           JS.text "An unexpected error occurred. Please try again."
  end.
Proof.
  unfold ErrorTransform.getErrorMessage.
  destruct (ErrorTransform.lookup ErrorTransform.ERROR_MESSAGES errorCode)
    as [m | ] eqn:Hm.
  - rewrite (get_own _ _ _ Hm). apply transform_message_known in Hm.
    apply String.eqb_neq in Hm. unfold JS.or. cbn [JS.truthy].
    rewrite Hm. cbn [negb JS.truthy]. rewrite Hm. split; reflexivity.
  - rewrite (get_not_own _ _ Hm).
    destruct (ErrorTransform.includes JS.Object_prototype errorCode).
    + split; [reflexivity | discriminate].
    + split; reflexivity.
Qed.

(** X17.  A code the transformation calls retryable is never called
    non-retryable by the formatter's table: the formatter either marks it
    retryable too or, for NETWORK_ERROR, does not list it. *)
Theorem retryable_codes_agree (errorCode : string)
  (Hretry : ErrorTransform.isRetryableError errorCode = true) :
  ErrorFormatter.configured_isRetryable errorCode = Some true \/
  (errorCode = ErrorCode.NETWORK_ERROR /\
   ErrorFormatter.configured_isRetryable errorCode = None).
Proof.
  unfold ErrorTransform.isRetryableError, ErrorTransform.includes in Hretry.
  apply existsb_exists in Hretry. destruct Hretry as [c [Hin Heq]].
  apply String.eqb_eq in Heq. subst errorCode.
  cbn [In] in Hin.
  destruct Hin as [<- | [<- | [<- | [<- | [<- | []]]]]];
    [right; split; reflexivity | left; reflexivity ..].
Qed.

Lemma retryable_codes_agree_witness :
  ErrorFormatter.configured_isRetryable ErrorCode.RATE_LIMITED = Some true \/
  (ErrorCode.RATE_LIMITED = ErrorCode.NETWORK_ERROR /\
   ErrorFormatter.configured_isRetryable ErrorCode.RATE_LIMITED = None).
Proof.
  apply (retryable_codes_agree ErrorCode.RATE_LIMITED). reflexivity.
Defined.

End ErrorsMore.

Section FormatterMore.
Import ApiTypes ErrorFormatter.
Local Open Scope list_scope.

Lemma formatter_message_known (c : string) (cfg : ErrorConfig) :
  ErrorTransform.lookup ERROR_MESSAGES c = Some cfg ->
  message cfg <> "" /\ c <> "".
Proof.
  intros H. split.
  - apply lookup_In in H.
    assert (Hall : forallb (fun p => negb (message (snd p) =? "")%string)
                           ERROR_MESSAGES = true)
      by (vm_compute; reflexivity).
    rewrite forallb_forall in Hall. specialize (Hall _ H). cbn [snd] in Hall.
    apply negb_true_iff, String.eqb_neq in Hall. exact Hall.
  - intros ->. vm_compute in H. discriminate H.
Qed.

Lemma formatHttpError_fields (status : Z) (statusText : option string) :
  formatted_isRetryable (formatHttpError status statusText) =
    Some ((status =? 429) || (500 <=? status)) /\
  exists m, formatted_message (formatHttpError status statusText) = Some m /\
            m <> "".
Proof.
  unfold formatHttpError, statusMessages. cbn [lookup_status].
  repeat match goal with
         | |- context [if ?k =? status then _ else _] =>
             destruct (Z.eqb_spec k status);
             [subst; split;
              [reflexivity | eexists; split; [reflexivity | discriminate]] | ]
         end.
  cbn [formatted_isRetryable formatted_message]. split.
  - assert (H : (status =? 429) = false) by (apply Z.eqb_neq; lia).
    rewrite H. reflexivity.
  - eexists. split; [reflexivity | ]. apply or_else_nonempty. discriminate.
Qed.

(** X18.  For an HTTP status, listed in the table of [formatHttpError] or
    not, the formatted error is retryable exactly when the status is 429 or
    at least 500, and its message is never empty. *)
Theorem http_status_retry_rule (status : Z) (statusText : option string) :
  formatted_isRetryable (formatHttpError status statusText) =
    Some ((status =? 429) || (500 <=? status)) /\
  exists m, formatted_message (formatHttpError status statusText) = Some m /\
            m <> "".
Proof.
  apply formatHttpError_fields.
Qed.

(** What [formatError] answers once the network test has failed, for an
    error whose code, if any, is not in the table. *)
Lemma formatError_unlisted (err : ErrorObject) :
  isNetworkError (AnObject err) = false ->
  match error_code err with
  | Some c => ErrorTransform.get ERROR_MESSAGES c = JS.Undefined \/ c = ""
  | None => True
  end ->
  formatError (AnObject err) =
  if truthy (error_message err)
  then mkFormattedError (error_message err) None None (Some false)
  else match status err with
       | Some s => formatHttpError s (statusText err)
       | None =>
           mkFormattedError
             (Some "An unexpected error occurred. Please try again.")
             (Some "Error") None (Some true)
       end.
Proof.
  intros Hnet Hcode. unfold formatError. rewrite Hnet. unfold isApiError.
  destruct (error_code err) as [c | ].
  - destruct Hcode as [Hc | ->]; [ | reflexivity].
    rewrite Hc. destruct (negb (c =? "")%string); reflexivity.
  - destruct (error_message err) as [m | ]; reflexivity.
Qed.

(** X19.  Unless its [error_code] is the name of a member of
    [Object.prototype], an error whose properties have the declared types
    is formatted with a non-empty message and a defined retry flag.  With
    such a name ([constructor], [toString], ...), and no network error, the
    answer has neither title nor retry flag, and no message when the error
    has none. *)
Theorem formatError_message_nonempty (error : thrown) :
  if inherited_error_code error && negb (isNetworkError error)
  then formatted_title (formatError error) = None /\
       formatted_isRetryable (formatError error) = None /\
       isRetryableError error = false /\
       formatted_message (formatError error) =
       match error with
       | AnObject err =>
           if truthy (error_message err) then error_message err else None
       | NotAnObject => None
       end
  else (exists m, formatted_message (formatError error) = Some m /\ m <> "") /\
       formatted_isRetryable (formatError error) <> None.
Proof.
  assert (Hhttp : forall s t,
            (exists m, formatted_message (formatHttpError s t) = Some m /\
                       m <> "") /\
            formatted_isRetryable (formatHttpError s t) <> None).
  { intros s t. destruct (formatHttpError_fields s t) as [Hr Hm].
    split; [exact Hm | rewrite Hr; discriminate]. }
  destruct error as [ | err].
  { cbn. split; [eexists; split; [reflexivity | discriminate] | discriminate]. }
  destruct (isNetworkError (AnObject err)) eqn:Hnet.
  { rewrite andb_false_r. unfold formatError. rewrite Hnet. cbn.
    split; [eexists; split; [reflexivity | discriminate] | discriminate]. }
  rewrite andb_true_r.
  assert (Hunlisted :
            match error_code err with
            | Some c => ErrorTransform.get ERROR_MESSAGES c = JS.Undefined
                        \/ c = ""
            | None => True
            end ->
            (exists m, formatted_message (formatError (AnObject err)) = Some m
                       /\ m <> "") /\
            formatted_isRetryable (formatError (AnObject err)) <> None).
  { intros Hcode. rewrite (formatError_unlisted err Hnet Hcode).
    destruct (error_message err) as [m | ]; cbn [truthy].
    - destruct (m =? "")%string eqn:E; cbn [negb].
      + destruct (status err);
          [apply Hhttp
          | split; [eexists; split; [reflexivity | discriminate]
                   | discriminate]].
      + split; [ | discriminate]. exists m. split; [reflexivity | ].
        apply String.eqb_neq. exact E.
    - destruct (status err);
        [apply Hhttp
        | split; [eexists; split; [reflexivity | discriminate]
                 | discriminate]]. }
  unfold inherited_error_code.
  destruct (error_code err) as [c | ] eqn:Hc; [ | apply Hunlisted; exact I].
  destruct (ErrorTransform.lookup ERROR_MESSAGES c) as [cfg | ] eqn:Hcfg.
  - assert (Hinh : ErrorTransform.includes JS.Object_prototype c = false).
    { destruct (ErrorTransform.includes JS.Object_prototype c) eqn:E;
        [ | reflexivity].
      apply inherited_not_own in E. destruct E as [_ [E _]]. congruence. }
    rewrite Hinh.
    destruct (formatter_message_known c cfg Hcfg) as [Hne Hc0].
    apply String.eqb_neq in Hc0.
    unfold formatError. rewrite Hnet. unfold isApiError.
    rewrite Hc, Hc0, (get_own _ _ _ Hcfg). cbn [negb].
    destruct (c =? ErrorCode.VALIDATION_ERROR)%string;
      [destruct (details err) | ];
      cbn [formatted_message formatted_isRetryable];
      (split; [ | discriminate]); eexists; (split; [reflexivity | ]);
      try exact Hne; apply or_else_nonempty; exact Hne.
  - destruct (ErrorTransform.includes JS.Object_prototype c) eqn:Hinh.
    + destruct (inherited_not_own c Hinh) as [_ [_ [Hc0 _]]].
      apply String.eqb_neq in Hc0.
      unfold isRetryableError, formatError. rewrite Hnet. unfold isApiError.
      rewrite Hc, Hc0, (get_not_own _ _ Hcfg), Hinh. cbn [negb].
      repeat split.
    + apply Hunlisted. left. rewrite (get_not_own _ _ Hcfg), Hinh.
      reflexivity.
Qed.

(** X20.  For an error that is not a network error and carries an error
    code of the table, the title and the retry flag are the table's,
    whatever its status; the message is the error's own when it has one and
    the table's otherwise, except for a validation error with details, which
    gets the table's message and the formatted details. *)
Theorem formatError_known_code (err : ErrorObject) (c : string)
  (cfg : ErrorConfig)
  (Hnet : isNetworkError (AnObject err) = false)
  (Hcode : error_code err = Some c)
  (Hcfg : ErrorTransform.lookup ERROR_MESSAGES c = Some cfg) :
  formatted_title (formatError (AnObject err)) = Some (title cfg) /\
  isRetryableError (AnObject err) = isRetryable cfg /\
  match (c =? ErrorCode.VALIDATION_ERROR)%string, details err with
  | true, Some d =>
      formatted_message (formatError (AnObject err)) = Some (message cfg) /\
      formatted_details (formatError (AnObject err))
        = Some (formatValidationErrors d)
  | _, _ =>
      formatted_message (formatError (AnObject err))
        = Some (ErrorTransform.or_else (error_message err) (message cfg)) /\
      formatted_details (formatError (AnObject err)) = None
  end.
Proof.
  destruct (formatter_message_known c cfg Hcfg) as [_ Hc].
  apply String.eqb_neq in Hc.
  unfold isRetryableError, formatError. rewrite Hnet.
  unfold isApiError. rewrite Hcode, Hc, (get_own _ _ _ Hcfg). cbn [negb].
  destruct (c =? ErrorCode.VALIDATION_ERROR)%string;
    [destruct (details err) | ]; repeat split; reflexivity.
Qed.


Lemma to_String_or (a b : JS.value) :
  JS.textual a = true -> JS.to_String b <> "" ->
  JS.to_String (JS.or a b) <> "".
Proof.
  intros Ha Hb. unfold JS.or.
  destruct a as [ | s | ? ?]; [exact Hb | | discriminate Ha].
  cbn [JS.truthy]. destruct (s =? "")%string eqn:E; cbn [negb];
    [exact Hb | ].
  apply String.eqb_neq. exact E.
Qed.

Lemma first_truthy_text (a b : JS.value) (fallback : string) :
  JS.textual a = true -> JS.textual b = true -> fallback <> "" ->
  first_truthy a b fallback <> "".
Proof.
  intros Ha Hb Hf. unfold first_truthy.
  apply to_String_or; [exact Ha | ]. apply to_String_or; [exact Hb | ].
  exact Hf.
Qed.

(** X22.  From [details] given as an array, [formatValidationErrors] makes
    at most one entry per element; when the [field], [loc[1]], [message]
    and [msg] of the elements are strings or [undefined], every entry has a
    non-empty field name and a non-empty message, but a truthy value that
    prints as the empty text, [[]] for one, gives an empty field name.
    From [details] given as an object it makes at most one entry per key,
    each under a key of the object. *)
Theorem validation_errors_named :
  (forall items,
     (List.length (formatValidationErrors (DetailsArray items))
      <= List.length items)%nat /\
     (Forall (fun detail =>
                match detail with
                | ItemObject error =>
                    JS.textual (item_field error) = true /\
                    JS.textual (loc_1 error) = true /\
                    JS.textual (item_message error) = true /\
                    JS.textual (item_msg error) = true
                | ItemOther => True
                end) items ->
      Forall (fun e => field e <> "" /\ validation_message e <> "")
             (formatValidationErrors (DetailsArray items)))) /\
  (forall loc message msg,
     map field
         (formatValidationErrors
            (DetailsArray
               [ItemObject (mkDetailItem (JS.other true "") loc message msg)]))
     = [""]) /\
  (forall entries,
     Forall (fun e => In (field e) (map fst entries))
            (formatValidationErrors (DetailsObject entries)) /\
     (List.length (formatValidationErrors (DetailsObject entries))
      <= List.length entries)%nat).
Proof.
  split; [ | split].
  - intros items. unfold formatValidationErrors. split.
    + induction items as [ | detail items IH]; [cbn; lia | ].
      cbn [flat_map]. rewrite length_app.
      destruct detail; cbn [List.length]; lia.
    + intros Htext. induction Htext as [ | detail items Hd _ IH];
        [constructor | ].
      cbn [flat_map]. destruct detail as [error | ]; cbn [app];
        [ | exact IH].
      destruct Hd as [Hf [Hl [Hm Hg]]].
      constructor; [ | exact IH]. cbn [field validation_message].
      split; apply first_truthy_text; assumption || discriminate.
  - intros loc message msg. reflexivity.
  - intros entries. unfold formatValidationErrors.
    induction entries as [ | [key value] entries [IHall IHlen]];
      [split; [constructor | cbn; lia] | ].
    assert (Hrest : Forall (fun e => In (field e) (map fst ((key, value) :: entries)))
                      (flat_map
                         (fun entry : string * DetailValue =>
                            match entry with
                            | (field, ValueString value) =>
                                [mkValidationError field value]
                            | (field, ValueArray (first :: _)) =>
                                [mkValidationError field (JS.to_String first)]
                            | (_, ValueArray []) | (_, ValueOther) => []
                            end) entries)).
    { eapply Forall_impl; [ | exact IHall].
      intros e He. right. exact He. }
    cbn [flat_map].
    destruct value as [v | [ | first rest] | ]; cbn [app List.length].
    + split; [ | lia]. constructor; [left; reflexivity | exact Hrest].
    + split; [exact Hrest | lia].
    + split; [ | lia]. constructor; [left; reflexivity | exact Hrest].
    + split; [exact Hrest | lia].
Qed.

End FormatterMore.

Section FormatterMoreWitnesses.
Import ApiTypes ErrorFormatter.
Local Open Scope list_scope.

(** A timeout reported by the backend with its own message. *)
Lemma formatError_known_code_witness :
  formatted_title
    (formatError
       (AnObject (mkErrorObject None (Some "Request timed out") false false
                                (Some "TIMEOUT") None None None)))
    = Some "Request Timeout" /\
  isRetryableError
    (AnObject (mkErrorObject None (Some "Request timed out") false false
                             (Some "TIMEOUT") None None None)) = true /\
  formatted_message
    (formatError
       (AnObject (mkErrorObject None (Some "Request timed out") false false
                                (Some "TIMEOUT") None None None)))
    = Some "Request timed out" /\
  formatted_details
    (formatError
       (AnObject (mkErrorObject None (Some "Request timed out") false false
                                (Some "TIMEOUT") None None None))) = None.
Proof.
  apply (formatError_known_code
           (mkErrorObject None (Some "Request timed out") false false
                          (Some "TIMEOUT") None None None)
           "TIMEOUT"
           (mkErrorConfig "Request Timeout"
                          "Request timed out, please try again" true));
    reflexivity.
Defined.


End FormatterMoreWitnesses.

(** ** The document store, action after action *)

Section StoreMore.
Import Store.
Local Open Scope list_scope.

Lemma merge_id (doc : Document) (updates : DocumentUpdates) :
  upd_id updates = None -> id (merge doc updates) = id doc.
Proof.
  intros H. unfold merge. cbn [id]. rewrite H. reflexivity.
Qed.

Lemma update_other_ids (i : Z) (updates : DocumentUpdates)
  (docs : list Document) :
  Forall (fun doc => id doc <> i) docs ->
  map (fun doc => if id doc =? i then merge doc updates else doc) docs = docs.
Proof.
  induction 1 as [ | doc rest Hdoc _ IH]; cbn [map]; [reflexivity | ].
  apply Z.eqb_neq in Hdoc. rewrite Hdoc, IH. reflexivity.
Qed.

Lemma deleted_ids (i : Z) (docs : list Document) :
  Forall (fun doc => id doc <> i)
         (filter (fun doc => negb (id doc =? i)) docs).
Proof.
  apply Forall_forall. intros doc Hin. apply filter_In in Hin.
  destruct Hin as [_ H]. apply negb_true_iff, Z.eqb_neq in H. exact H.
Qed.

(** X23.  Updating a document that has just been deleted changes nothing;
    and when the update does not rewrite the id, deleting after updating
    gives the same state as deleting alone. *)
Theorem update_of_deleted_document (i : Z) (updates : DocumentUpdates)
  (state : DocumentState) (Hid : upd_id updates = None) :
  updateDocument i updates (deleteDocument i state) = deleteDocument i state /\
  deleteDocument i (updateDocument i updates state) = deleteDocument i state.
Proof.
  split.
  - unfold updateDocument, deleteDocument, current_has_id.
    cbn [documents currentDocument loading errors].
    rewrite (update_other_ids i updates _ (deleted_ids i (documents state))).
    f_equal.
    destruct (currentDocument state) as [cur | ]; [ | reflexivity].
    destruct (id cur =? i) eqn:E; [reflexivity | rewrite E; reflexivity].
  - unfold updateDocument, deleteDocument, current_has_id.
    cbn [documents currentDocument loading errors]. f_equal.
    + induction (documents state) as [ | doc rest IH]; cbn [map filter];
        [reflexivity | ].
      destruct (id doc =? i) eqn:E.
      * rewrite (merge_id doc updates Hid), E. cbn [negb]. exact IH.
      * rewrite E. cbn [negb]. rewrite IH. reflexivity.
    + destruct (currentDocument state) as [cur | ]; [ | reflexivity].
      destruct (id cur =? i) eqn:E.
      * rewrite (merge_id cur updates Hid), E. reflexivity.
      * rewrite E. reflexivity.
Qed.

(** X24.  Deleting an id twice is deleting it once, and two deletions give
    the same state in either order. *)
Theorem deleteDocument_composes (i j : Z) (state : DocumentState) :
  deleteDocument i (deleteDocument i state) = deleteDocument i state /\
  deleteDocument i (deleteDocument j state)
    = deleteDocument j (deleteDocument i state).
Proof.
  split.
  - unfold deleteDocument, current_has_id.
    cbn [documents currentDocument loading errors]. f_equal.
    + induction (documents state) as [ | d rest IH]; cbn [filter];
        [reflexivity | ].
      destruct (id d =? i) eqn:E; cbn [negb filter];
        [exact IH | rewrite E; cbn [negb]; rewrite IH; reflexivity].
    + destruct (currentDocument state) as [cur | ]; [ | reflexivity].
      destruct (id cur =? i) eqn:E; [reflexivity | rewrite E; reflexivity].
  - unfold deleteDocument, current_has_id.
    cbn [documents currentDocument loading errors]. f_equal.
    + induction (documents state) as [ | d rest IH]; cbn [filter];
        [reflexivity | ].
      destruct (id d =? j) eqn:Ej; destruct (id d =? i) eqn:Ei;
        cbn [negb filter]; rewrite ?Ej, ?Ei; cbn [negb]; rewrite ?IH;
        reflexivity.
    + destruct (currentDocument state) as [cur | ]; [ | reflexivity].
      destruct (id cur =? j) eqn:Ej; destruct (id cur =? i) eqn:Ei;
        rewrite ?Ej, ?Ei; reflexivity.
Qed.

(** X25.  Adding a document whose id no listed document has, then deleting
    that id, gives back the list, the selection, and the rest of the state
    when the selected document has another id. *)
Theorem add_then_delete (doc : Document) (state : DocumentState)
  (Hfresh : Forall (fun d => id d <> id doc) (documents state))
  (Hcurrent : current_has_id state (id doc) = false) :
  deleteDocument (id doc) (addDocument doc state) = state.
Proof.
  unfold deleteDocument, addDocument, current_has_id in *.
  cbn [documents currentDocument loading errors].
  destruct state as [docs cur load errs].
  cbn [documents currentDocument loading errors] in *.
  rewrite Hcurrent. f_equal.
  rewrite filter_app. cbn [filter]. rewrite Z.eqb_refl. cbn [negb].
  rewrite app_nil_r.
  induction Hfresh as [ | d rest Hd _ IH]; cbn [filter]; [reflexivity | ].
  apply Z.eqb_neq in Hd. rewrite Hd. cbn [negb]. rewrite IH. reflexivity.
Qed.

(** X26.  [updateDocument], when the update does not rewrite the id, and
    [deleteDocument] keep the list and the selection in step: if every
    listed document with the id of [currentDocument] was equal to it, this
    is still so afterwards. *)
Theorem store_stays_in_sync (i : Z) (updates : DocumentUpdates)
  (state : DocumentState)
  (Hsync : in_sync state) (Hid : upd_id updates = None) :
  in_sync (updateDocument i updates state) /\
  in_sync (deleteDocument i state).
Proof.
  split.
  - unfold in_sync, updateDocument. cbn [documents currentDocument].
    intros current doc Hcur Hin Hsame.
    apply in_map_iff in Hin. destruct Hin as [old [Hold Hin]].
    destruct (currentDocument state) as [cur | ] eqn:Ec; [ | discriminate].
    specialize (Hsync cur old Ec Hin).
    destruct (id cur =? i) eqn:Ecur; injection Hcur as <-;
      destruct (id old =? i) eqn:Eold; subst doc.
    + rewrite !(merge_id _ _ Hid) in Hsame. rewrite (Hsync Hsame).
      reflexivity.
    + rewrite (merge_id _ _ Hid) in Hsame.
      apply Z.eqb_eq in Ecur. apply Z.eqb_neq in Eold. congruence.
    + rewrite (merge_id _ _ Hid) in Hsame.
      apply Z.eqb_neq in Ecur. apply Z.eqb_eq in Eold. congruence.
    + exact (Hsync Hsame).
  - unfold in_sync, deleteDocument, current_has_id.
    cbn [documents currentDocument].
    intros current doc Hcur Hin Hsame.
    apply filter_In in Hin. destruct Hin as [Hin _].
    destruct (currentDocument state) as [cur | ] eqn:Ec; [ | discriminate].
    destruct (id cur =? i); [discriminate | ]. injection Hcur as <-.
    exact (Hsync cur doc Ec Hin Hsame).
Qed.

End StoreMore.

Section StoreMoreWitnesses.
Import Store.
Local Open Scope list_scope.

(** A state with one document, which is also the selected one, and an update
    of its upload status. *)
Lemma update_of_deleted_document_witness :
  let doc := mkDocument 7 1 "a.pdf" "/files/a.pdf" 1024 "hash" None None None
                        parsing None "t0" "t0" "t1" None None in
  let updates := mkDocumentUpdates None None None None None None None None
                                   None (Some ready) None None None None None
                                   None in
  let state := mkDocumentState [doc] (Some doc) (loading initialState)
                               (errors initialState) in
  updateDocument 7 updates (deleteDocument 7 state) = deleteDocument 7 state /\
  deleteDocument 7 (updateDocument 7 updates state) = deleteDocument 7 state.
Proof.
  cbv zeta.
  apply (update_of_deleted_document 7
           (mkDocumentUpdates None None None None None None None None None
                              (Some ready) None None None None None None)).
  reflexivity.
Defined.

(** A second document added to the list and deleted again. *)
Lemma add_then_delete_witness :
  let kept := mkDocument 7 1 "a.pdf" "/files/a.pdf" 1024 "hash" None None None
                         parsing None "t0" "t0" "t1" None None in
  let added := mkDocument 8 1 "b.pdf" "/files/b.pdf" 2048 "hash2" None None
                          None uploading None "t2" "t2" "t3" None None in
  let state := mkDocumentState [kept] (Some kept) (loading initialState)
                               (errors initialState) in
  deleteDocument (id added) (addDocument added state) = state.
Proof.
  cbv zeta.
  apply (add_then_delete
           (mkDocument 8 1 "b.pdf" "/files/b.pdf" 2048 "hash2" None None None
                       uploading None "t2" "t2" "t3" None None)).
  - repeat constructor. cbn. lia.
  - reflexivity.
Defined.

Lemma store_stays_in_sync_witness :
  let doc := mkDocument 7 1 "a.pdf" "/files/a.pdf" 1024 "hash" None None None
                        parsing None "t0" "t0" "t1" None None in
  let updates := mkDocumentUpdates None None None None None None None None
                                   None (Some ready) None None None None None
                                   None in
  let state := mkDocumentState [doc] (Some doc) (loading initialState)
                               (errors initialState) in
  in_sync (updateDocument 7 updates state) /\ in_sync (deleteDocument 7 state).
Proof.
  cbv zeta.
  apply (store_stays_in_sync 7
           (mkDocumentUpdates None None None None None None None None None
                              (Some ready) None None None None None None)).
  - intros current doc Hcur Hin _. cbn in Hcur, Hin.
    injection Hcur as <-. destruct Hin as [<- | []]. reflexivity.
  - reflexivity.
Defined.

End StoreMoreWitnesses.

(** ** The text handling of the generation calls *)

Section TextMore.
Import Gemini.
Local Open Scope string_scope.

Lemma lstrip_unfold (s : string) :
  lstrip s = match leading_space s with
             | Some rest => lstrip rest
             | None => s
             end.
Proof.
  destruct s as [ | a [ | b [ | c rest]]]; cbn [lstrip leading_space];
    try reflexivity.
  - destruct (isspace a); reflexivity.
  - destruct (isspace a); [reflexivity | ].
    destruct (isspace2 a b); reflexivity.
  - destruct (isspace a); [reflexivity | ].
    destruct (isspace2 a b); [reflexivity | ].
    destruct (isspace3 a b c); reflexivity.
Qed.

Lemma leading_space_shorter (s rest : string) :
  leading_space s = Some rest -> (String.length rest < String.length s)%nat.
Proof.
  destruct s as [ | a [ | b [ | c r]]]; cbn [leading_space];
    repeat match goal with
           | |- context [if ?b then _ else _] => destruct b
           end;
    intros H; inversion H; subst; cbn [String.length]; lia.
Qed.

Lemma string_length_ind (P : string -> Prop) :
  (forall s, (forall t, (String.length t < String.length s)%nat -> P t) -> P s) ->
  forall s, P s.
Proof.
  intros H s.
  assert (Hall : forall n t, (String.length t < n)%nat -> P t).
  { induction n as [ | n IH]; intros t Ht; [lia | ].
    apply H. intros u Hu. apply IH. lia. }
  apply (Hall (S (String.length s))). lia.
Qed.

Lemma lstrip_no_leading (s : string) : leading_space (lstrip s) = None.
Proof.
  induction s as [s IH] using string_length_ind.
  rewrite lstrip_unfold. destruct (leading_space s) as [rest | ] eqn:E.
  - apply IH. apply leading_space_shorter. exact E.
  - exact E.
Qed.

Lemma lstrip_fixed (s : string) : leading_space s = None -> lstrip s = s.
Proof.
  intros H. rewrite lstrip_unfold, H. reflexivity.
Qed.

Lemma lstrip_idempotent (s : string) : lstrip (lstrip s) = lstrip s.
Proof.
  apply lstrip_fixed, lstrip_no_leading.
Qed.

Lemma leading_space_app (s rest u : string) :
  leading_space s = Some rest -> leading_space (s ++ u) = Some (rest ++ u).
Proof.
  destruct s as [ | a [ | b [ | c r]]]; cbn [leading_space append].
  - discriminate.
  - destruct (isspace a); [ | discriminate].
    intros H. injection H as <-. destruct u as [ | x [ | y u]]; reflexivity.
  - destruct (isspace a).
    + intros H. injection H as <-. destruct u; reflexivity.
    + destruct (isspace2 a b); [ | discriminate].
      intros H. injection H as <-. destruct u; reflexivity.
  - destruct (isspace a); [intros H; injection H as <-; reflexivity | ].
    destruct (isspace2 a b); [intros H; injection H as <-; reflexivity | ].
    destruct (isspace3 a b c); [intros H; injection H as <-; reflexivity | ].
    discriminate.
Qed.

Lemma lstrip_app_blank (s u : string) :
  lstrip s = "" -> lstrip (s ++ u) = lstrip u.
Proof.
  induction s as [s IH] using string_length_ind. intros Hs.
  rewrite lstrip_unfold in Hs.
  destruct (leading_space s) as [rest | ] eqn:E.
  - rewrite (lstrip_unfold (s ++ u)), (leading_space_app s rest u E).
    apply IH; [apply leading_space_shorter; exact E | exact Hs].
  - subst s. reflexivity.
Qed.

Lemma rstrip_split (s : string) :
  exists tail, s = (rstrip s ++ tail)%string /\ lstrip tail = "".
Proof.
  induction s as [ | c s [tail [Hs Ht]]].
  - exists "". split; reflexivity.
  - cbn [rstrip]. destruct (lstrip (String c s) =? "")%string eqn:E.
    + exists (String c s). split; [reflexivity | ].
      apply String.eqb_eq. exact E.
    + exists tail. split; [ | exact Ht].
      cbn [append]. rewrite <- Hs. reflexivity.
Qed.

Lemma rstrip_idempotent (s : string) : rstrip (rstrip s) = rstrip s.
Proof.
  induction s as [ | c s IH]; [reflexivity | ].
  cbn [rstrip]. destruct (lstrip (String c s) =? "")%string eqn:E;
    [reflexivity | ].
  cbn [rstrip]. rewrite IH.
  destruct (lstrip (String c (rstrip s)) =? "")%string eqn:E';
    [ | reflexivity].
  exfalso. apply String.eqb_eq in E'. apply String.eqb_neq in E. apply E.
  destruct (rstrip_split s) as [tail [Hs Ht]].
  rewrite Hs at 1.
  change (String c (rstrip s ++ tail)) with (String c (rstrip s) ++ tail).
  rewrite (lstrip_app_blank _ tail E'). exact Ht.
Qed.

Lemma rstrip_no_leading (s : string) :
  leading_space s = None -> leading_space (rstrip s) = None.
Proof.
  destruct s as [ | a [ | b [ | c r]]]; cbn [rstrip leading_space];
    repeat match goal with
           | |- context [if (?x =? "")%string then _ else _] =>
               destruct (x =? "")%string
           end;
    cbn [leading_space]; try reflexivity;
    repeat match goal with
           | |- context [if ?b then _ else _] => destruct b
           end;
    try reflexivity; try discriminate;
    destruct r; cbn [rstrip];
    repeat match goal with
           | |- context [if (?x =? "")%string then _ else _] =>
               destruct (x =? "")%string
           end; intros; reflexivity || discriminate.
Qed.

Lemma strip_idempotent (s : string) : strip (strip s) = strip s.
Proof.
  unfold strip.
  rewrite (lstrip_fixed (rstrip (lstrip s))).
  - apply rstrip_idempotent.
  - apply rstrip_no_leading, lstrip_no_leading.
Qed.

Lemma lstrip_whitespace (w rest : string) :
  In w whitespace -> lstrip (w ++ rest) = lstrip rest.
Proof.
  intros Hin. unfold whitespace in Hin. cbn [map In] in Hin.
  repeat (destruct Hin as [<- | Hin]; [reflexivity | ]).
  destruct Hin.
Qed.

Lemma append_empty (s : string) : (s ++ "")%string = s.
Proof.
  induction s as [ | c s IH]; cbn [append]; [reflexivity | ].
  rewrite IH. reflexivity.
Qed.

Lemma lstrip_concat (ws : list string) :
  Forall (fun w => In w whitespace) ws -> lstrip (String.concat "" ws) = "".
Proof.
  induction ws as [ | w ws IH]; intros H; [reflexivity | ].
  inversion H as [ | ? ? Hw Hws]; subst.
  destruct ws as [ | w' ws].
  - cbn [String.concat]. rewrite <- (append_empty w).
    apply (lstrip_whitespace w "" Hw).
  - change (String.concat "" (w :: w' :: ws))
      with (w ++ "" ++ String.concat "" (w' :: ws)).
    cbn [append]. rewrite (lstrip_whitespace _ _ Hw). apply IH. exact Hws.
Qed.


Lemma lstrip_backquote (rest : string) :
  lstrip (String "`" rest) = String "`" rest.
Proof.
  destruct rest as [ | b [ | c rest]]; reflexivity.
Qed.

Lemma isspace2_backquote (a b : ascii) :
  isspace2 a b = true -> a <> "`"%char /\ b <> "`"%char.
Proof.
  intros H. split; intros ->; unfold isspace2 in H; cbn in H;
    [discriminate H | ].
  destruct (nat_of_ascii a =? 194)%nat; discriminate H.
Qed.

Lemma isspace3_backquote (a b c : ascii) :
  isspace3 a b c = true ->
  a <> "`"%char /\ b <> "`"%char /\ c <> "`"%char.
Proof.
  intros H. unfold isspace3 in H. repeat split; intros ->; cbn in H.
  - discriminate H.
  - rewrite !andb_false_r in H. discriminate H.
  - rewrite !andb_false_r in H. discriminate H.
Qed.

Lemma blank_no_backquote (s : string) :
  lstrip s = "" -> Forall (fun c => c <> "`"%char) (list_ascii_of_string s).
Proof.
  induction s as [s IH] using string_length_ind. intros Hs.
  rewrite lstrip_unfold in Hs.
  destruct (leading_space s) as [rest | ] eqn:E;
    [ | subst s; constructor].
  specialize (IH rest (leading_space_shorter s rest E) Hs).
  assert (H1 : forall a, isspace a = true -> a <> "`"%char)
    by (intros a Ha ->; discriminate Ha).
  destruct s as [ | a [ | b [ | c r]]];
    cbn [leading_space] in E; cbn [list_ascii_of_string];
    [discriminate E | | | ].
  - destruct (isspace a) eqn:Ea; [ | discriminate E].
    repeat constructor. apply H1. exact Ea.
  - destruct (isspace a) eqn:Ea.
    + injection E as <-. constructor; [apply H1; exact Ea | exact IH].
    + destruct (isspace2 a b) eqn:Eb; [ | discriminate E].
      apply isspace2_backquote in Eb. destruct Eb as [Ha Hb].
      repeat constructor; assumption.
  - destruct (isspace a) eqn:Ea.
    + injection E as <-. constructor; [apply H1; exact Ea | exact IH].
    + destruct (isspace2 a b) eqn:Eb.
      * injection E as <-.
        apply isspace2_backquote in Eb. destruct Eb as [Ha Hb].
        repeat (constructor; [assumption | ]). exact IH.
      * destruct (isspace3 a b c) eqn:Ec; [ | discriminate E].
        injection E as <-.
        apply isspace3_backquote in Ec. destruct Ec as [Ha [Hb Hc]].
        repeat (constructor; [assumption | ]). exact IH.
Qed.

Lemma rstrip_ends_backquote (s : string) :
  rstrip (s ++ "`")%string = (s ++ "`")%string.
Proof.
  induction s as [ | a s IH]; [reflexivity | ].
  cbn [append rstrip]. rewrite IH.
  destruct (lstrip (String a (s ++ "`")) =? "")%string eqn:E; [ | reflexivity].
  exfalso. apply String.eqb_eq in E. apply blank_no_backquote in E.
  change (String a (s ++ "`")) with ((String a s) ++ "`")%string in E.
  clear -E. induction (String a s) as [ | x t IHt]; cbn in E.
  - inversion E; congruence.
  - inversion E; auto.
Qed.

Lemma strip_blank (s : string) : lstrip s = "" -> strip s = "".
Proof.
  intros H. unfold strip. rewrite H. reflexivity.
Qed.

(** X27.  A summary returned by [generate_summary] is the reply of the
    remote generator without its leading and trailing white space, Unicode
    white space included: it is never empty and stripping it again changes
    nothing. *)
Theorem generate_summary_stripped
  (client : GenerationCall -> result string)
  (self : GeminiService) (document_text : string) (max_output_tokens : Z)
  (summary : string)
  (Hret : snd (generate_summary client self document_text max_output_tokens)
          = Return summary) :
  summary <> "" /\
  strip summary = summary /\
  exists text,
    client (mkGenerationCall (summary_prompt document_text) 0.3
                             max_output_tokens 30) = Return text /\
    summary = strip text.
Proof.
  unfold generate_summary in Hret.
  destruct (client _) as [text | e] eqn:Hc; [ | discriminate Hret].
  destruct (strip text =? "")%string eqn:E; [discriminate Hret | ].
  cbn [snd] in Hret. injection Hret as <-.
  apply String.eqb_neq in E.
  split; [exact E | ]. split; [apply strip_idempotent | ].
  exists text. split; reflexivity.
Qed.

(** X28.  A reply made of white space only, that is of any number of the
    code points [str.isspace] accepts (none, for the empty reply), is not
    returned as a summary: [generate_summary] raises [GeminiAPIError] with
    the message "Empty response from Gemini API". *)
Theorem generate_summary_blank_reply
  (client : GenerationCall -> result string)
  (self : GeminiService) (document_text : string) (max_output_tokens : Z)
  (spaces : list string)
  (Hspaces : Forall (fun w => In w whitespace) spaces)
  (Hreply : client (mkGenerationCall (summary_prompt document_text) 0.3
                                     max_output_tokens 30)
            = Return (String.concat "" spaces)) :
  snd (generate_summary client self document_text max_output_tokens)
  = Raise (GeminiAPIError "Empty response from Gemini API").
Proof.
  unfold generate_summary. rewrite Hreply.
  rewrite (strip_blank _ (lstrip_concat spaces Hspaces)). reflexivity.
Qed.

Lemma append_assoc (a b c : string) :
  ((a ++ b) ++ c)%string = (a ++ (b ++ c))%string.
Proof.
  induction a as [ | x a IH]; cbn [append]; [reflexivity | ].
  rewrite IH. reflexivity.
Qed.

Lemma replace_from_plain (old' new body tail : string) :
  Forall (fun c => c <> "`"%char) (list_ascii_of_string body) ->
  replace_from 0 (String "`" old') new (body ++ tail)%string =
  (body ++ replace_from 0 (String "`" old') new tail)%string.
Proof.
  induction body as [ | c body IH]; cbn [list_ascii_of_string append];
    intros H; [reflexivity | ].
  inversion H as [ | ? ? Hc Hrest]; subst.
  cbn [replace_from prefix].
  destruct (ascii_dec "`" c) as [Heq | _]; [congruence | ].
  rewrite (IH Hrest). reflexivity.
Qed.

Lemma replace_from_fence (rest : string) :
  replace_from 0 "```json" "" ("```json" ++ rest)
  = replace_from 0 "```json" "" rest.
Proof.
  destruct rest; reflexivity.
Qed.

(** X29.  The text handed to [json.loads] by [generate_mindmap] is the
    body of the reply when the reply is that body between a [```json] fence
    and a closing [```] fence, and the reply itself when it carries no fence
    and no surrounding whitespace, provided the body holds no backquote. *)
Theorem fences_removed (body : string)
  (Hplain : Forall (fun c => c <> "`"%char) (list_ascii_of_string body)) :
  replace (replace (strip ("```json" ++ body ++ "```")) "```json" "") "```" ""
    = body /\
  replace (replace body "```json" "") "```" "" = body.
Proof.
  assert (Hbody : forall old', replace_from 0 (String "`" old') "" body = body).
  { intros old'. rewrite <- (append_empty body) at 1.
    rewrite (replace_from_plain old' "" body "" Hplain). cbn [replace_from].
    apply append_empty. }
  split.
  - assert (Hstrip : strip ("```json" ++ body ++ "```")
                     = ("```json" ++ body ++ "```")%string).
    { assert (Hshape : ("```json" ++ body ++ "```")%string
                       = (("```json" ++ body ++ "``") ++ "`")%string)
        by (rewrite !append_assoc; reflexivity).
      rewrite Hshape. unfold strip.
      assert (Hl : lstrip (("```json" ++ body ++ "``") ++ "`")
                   = (("```json" ++ body ++ "``") ++ "`")%string)
        by exact (lstrip_backquote (("``json" ++ body ++ "``") ++ "`")).
      rewrite Hl. apply rstrip_ends_backquote. }
    rewrite Hstrip. unfold replace.
    rewrite (replace_from_fence (body ++ "```")).
    rewrite (replace_from_plain "``json" "" body "```" Hplain).
    change (replace_from 0 "```json" "" "```") with "```".
    rewrite (replace_from_plain "``" "" body "```" Hplain).
    change (replace_from 0 "```" "" "```") with "".
    apply append_empty.
  - unfold replace. rewrite !Hbody. reflexivity.
Qed.

End TextMore.

Section TextMoreWitnesses.
Import Gemini.
Local Open Scope string_scope.

(** A bullet after a no-break space (U+00A0) and a newline, followed by an
    em space (U+2003). *)
Lemma generate_summary_stripped_witness :
  "- a" <> "" /\
  strip "- a" = "- a" /\
  exists text,
    (fun _ : GenerationCall =>
       Return (utf8 [194; 160; 10]%nat ++ "- a" ++ utf8 [226; 128; 131]%nat))%string
      (mkGenerationCall (summary_prompt "T") 0.3 1000 30) = Return text /\
    "- a" = strip text.
Proof.
  apply (generate_summary_stripped
           (fun _ =>
              Return (utf8 [194; 160; 10]%nat ++ "- a" ++ utf8 [226; 128; 131]%nat)%string)
           (mkGeminiService [] [] 0) "T" 1000 "- a").
  reflexivity.
Defined.

(** A reply of a space, a no-break space (U+00A0), an ideographic space
    (U+3000) and a newline. *)
Lemma generate_summary_blank_reply_witness :
  snd (generate_summary
         (fun _ =>
            Return (String.concat ""
                      [utf8 [32]%nat; utf8 [194; 160]%nat; utf8 [227; 128; 128]%nat;
                       utf8 [10]%nat]))
         (mkGeminiService [] [] 0) "T" 1000)
  = Raise (GeminiAPIError "Empty response from Gemini API").
Proof.
  apply (generate_summary_blank_reply
           (fun _ =>
              Return (String.concat ""
                        [utf8 [32]%nat; utf8 [194; 160]%nat; utf8 [227; 128; 128]%nat;
                         utf8 [10]%nat]))
           (mkGeminiService [] [] 0) "T" 1000
           [utf8 [32]%nat; utf8 [194; 160]%nat; utf8 [227; 128; 128]%nat;
            utf8 [10]%nat]).
  - repeat (constructor; [vm_compute; tauto | ]). constructor.
  - reflexivity.
Defined.

(** An empty JSON object between fences. *)
Lemma fences_removed_witness :
  replace (replace (strip ("```json" ++ "{}" ++ "```")) "```json" "") "```" ""
    = "{}" /\
  replace (replace "{}" "```json" "") "```" "" = "{}".
Proof.
  apply (fences_removed "{}").
  repeat constructor; discriminate.
Defined.

End TextMoreWitnesses.
